(** * MeshOptimizerGD: the Godot binding of meshoptimizer

    A shallow embedding of [addons/meshoptimizer/src/meshoptimizer_gdext.cpp].
    The binding converts Godot's packed arrays to flat buffers, calls the
    [meshopt_*] entry points of the bundled library and packs what comes back
    into a [Dictionary].  The library itself ([thirdparty/meshoptimizer.h]) is
    an interface here: the binding is verified against every implementation of
    it, and one implementation is modelled from the specification of the
    engine to run the binding on concrete meshes. *)

From Stdlib Require Import ZArith List Bool Lia Permutation QArith.
From Stdlib Require Import Floats.SpecFloat.
From stdpp Require Import gmap strings list fin_maps.

Local Open Scope Z_scope.

(** ** Machine scalars *)

Module Scalar.

(** [static_cast<unsigned int>] of an integer: reduction modulo 2^32. *)
Definition to_uint32 (n : Z) : Z := n mod 2 ^ 32.

(** [static_cast<int32_t>] and [static_cast<int>]: the two's complement
    reading of the low 32 bits. *)
Definition to_int32 (n : Z) : Z := (n + 2 ^ 31) mod 2 ^ 32 - 2 ^ 31.

(** [size_t] is taken to be 64 bits wide. *)
Definition size_t_bits : Z := 64.
Definition to_size_t (n : Z) : Z := n mod 2 ^ size_t_bits.

Definition is_int32 (n : Z) : Prop := - 2 ^ 31 <= n < 2 ^ 31.

(** C++ [float]: IEEE 754 binary32, 24 bits of precision, round to nearest
    even. *)
Definition float : Type := spec_float.
Definition f32_prec : Z := 24.
Definition f32_emax : Z := 128.

Definition f32_zero : float := S754_zero false.
Definition f32_mul : float -> float -> float := SFmul f32_prec f32_emax.
Definition f32_ltb : float -> float -> bool := SFltb.
Definition f32_of_Z (n : Z) : float := binary_normalize f32_prec f32_emax n 0 false.

(** The usual arithmetic conversion of a [size_t] operand of a [float]
    product. *)
Definition f32_of_size_t (n : Z) : float := f32_of_Z n.

(** [static_cast<size_t>] of a [float] discards the fraction; when the
    truncated value is not a [size_t] the conversion is undefined, which is
    [None] here. *)
Definition size_t_of_f32 (f : float) : option Z :=
  match f with
  | S754_zero _ => Some 0
  | S754_finite s m e =>
      let t := Z.shiftl (Z.pos m) e in
      if s then (if t =? 0 then Some 0 else None)
      else if t <? 2 ^ size_t_bits then Some t else None
  | S754_infinity _ | S754_nan => None
  end.

#[global] Instance float_eq_dec : EqDecision float.
Proof. solve_decision. Defined.

End Scalar.
Export Scalar.

(** ** Godot values *)

Record Vector3 : Type := mkVector3 { v3_x : float; v3_y : float; v3_z : float }.
Record Vector2 : Type := mkVector2 { v2_x : float; v2_y : float }.

#[global] Instance Vector3_eq_dec : EqDecision Vector3.
Proof. solve_decision. Defined.
#[global] Instance Vector2_eq_dec : EqDecision Vector2.
Proof. solve_decision. Defined.

(** The variants the binding stores in its dictionaries. *)
Inductive GdVariant : Type :=
  | VString (s : string)
  | VInt (n : Z)
  | VFloat (f : float)
  | VPackedInt32Array (a : list Z)
  | VPackedVector3Array (a : list Vector3)
  | VPackedVector2Array (a : list Vector2).

#[global] Instance GdVariant_eq_dec : EqDecision GdVariant.
Proof. solve_decision. Defined.

(** A [Dictionary] with [String] keys. *)
Abbreviation Dictionary := (gmap string GdVariant).

(** ** Buffers *)

(** [std::vector<T> buf(n)] handed to a library call: [n] value-initialised
    cells of which the callee overwrites a prefix.  A callee that writes past
    the end has no defined outcome. *)
Definition vector_after_write {A} (zero : A) (n : Z) (written : list A) : option (list A) :=
  if Z.of_nat (length written) <=? n
  then Some (written ++ replicate (Z.to_nat n - length written) zero)
  else None.

(** [buf[i]] on a [std::vector]: undefined outside the vector. *)
Definition vector_at {A} (buf : list A) (i : Z) : option A :=
  if 0 <=? i then buf !! Z.to_nat i else None.

(** The loop [for (i = 0; i < count; i++) out[i] = buf[i]]. *)
Definition vector_prefix {A} (buf : list A) (count : Z) : option (list A) :=
  if (0 <=? count) && (count <=? Z.of_nat (length buf))
  then Some (take (Z.to_nat count) buf)
  else None.

(** The conversion loops at the head of every operation. *)
Definition to_vertex_data (vertices : list Vector3) : list float :=
  flat_map (fun v => [v3_x v; v3_y v; v3_z v]) vertices.

Definition to_uv_data (uvs : list Vector2) : list float :=
  flat_map (fun uv => [v2_x uv; v2_y uv]) uvs.

Definition to_index_data (indices : list Z) : list Z := map to_uint32 indices.

(** ** The library interface

    The entry points of [thirdparty/meshoptimizer.h] that the binding calls,
    with the argument order of the calls.  A destination buffer is returned as
    the list of cells the callee wrote from its start; [float* out_result_error]
    is returned as a value. *)

Record SimplifyOutput : Type := mkSimplifyOutput {
  so_destination : list Z;
  so_count : Z;
  so_result_error : float
}.

Class Meshopt : Type := {
  (* indices, index_count, vertex_positions, vertex_count,
     vertex_positions_stride, target_index_count, target_error, options *)
  meshopt_simplify :
    list Z -> Z -> list float -> Z -> Z -> Z -> float -> Z -> SimplifyOutput;
  (* indices, index_count, vertex_positions, vertex_count,
     vertex_positions_stride, vertex_attributes, vertex_attributes_stride,
     attribute_weights, attribute_count, vertex_lock, target_index_count,
     target_error, options *)
  meshopt_simplifyWithAttributes :
    list Z -> Z -> list float -> Z -> Z -> list float -> Z -> list float -> Z ->
    option (list Z) -> Z -> float -> Z -> SimplifyOutput;
  (* indices, index_count, vertex_positions, vertex_count,
     vertex_positions_stride, target_index_count, target_error *)
  meshopt_simplifySloppy :
    list Z -> Z -> list float -> Z -> Z -> Z -> float -> SimplifyOutput;
  (* indices, index_count, vertex_count *)
  meshopt_optimizeVertexCache : list Z -> Z -> Z -> list Z;
  (* indices (or null), index_count, vertices, vertex_count, vertex_size;
     the remap table written and the unique count returned *)
  meshopt_generateVertexRemap :
    option (list Z) -> Z -> list float -> Z -> Z -> list Z * Z;
  (* vertices, vertex_count, vertex_size, remap *)
  meshopt_remapVertexBuffer : list float -> Z -> Z -> list Z -> list float
}.

(** ** The binding

    One definition per method of [MeshOptimizerGD].  A method returns [None]
    where the C++ has no defined result: a [float] that does not convert to
    [size_t], or an access outside a [std::vector]. *)

Section Binding.
Context `{lib : Meshopt}.

Definition empty_input : Dictionary := {[ "error" := VString "Empty input" ]}.
Definition empty_vertices : Dictionary := {[ "error" := VString "Empty vertices" ]}.

(** Lines 50-53 (and 120-122, 208-210):
    [static_cast<size_t>(index_count * target_ratio)], raised to 3. *)
Definition target_index_count (index_count : Z) (target_ratio : float) : option Z :=
  t ← size_t_of_f32 (f32_mul (f32_of_size_t index_count) target_ratio);
  Some (if t <? 3 then 3 else t).

(** The tail shared by the three simplifiers: read [new_index_count] cells
    back and fill the dictionary. *)
Definition simplified_dictionary (vertices : list Vector3) (index_count : Z)
    (out : SimplifyOutput) : option Dictionary :=
  simplified_indices ← vector_after_write 0 index_count (so_destination out);
  new_indices ← vector_prefix simplified_indices (so_count out);
  Some (<["simplified_triangles" := VInt (to_int32 (so_count out / 3))]>
        (<["original_triangles" := VInt (to_int32 (index_count / 3))]>
        (<["result_error" := VFloat (so_result_error out)]>
        (<["vertices" := VPackedVector3Array vertices]>
        (<["indices" := VPackedInt32Array (map to_int32 new_indices)]> ∅))))).

(** [simplify] once [target_index_count] is known (lines 55-100). *)
Definition simplify_at (vertices : list Vector3) (indices : list Z)
    (target : Z) (target_error : float) : option Dictionary :=
  let vertex_count := Z.of_nat (length vertices) in
  let index_count := Z.of_nat (length indices) in
  simplified_dictionary vertices index_count
    (meshopt_simplify (to_index_data indices) index_count
       (to_vertex_data vertices) vertex_count 12 target target_error 0).

Definition simplify (vertices : list Vector3) (indices : list Z)
    (target_ratio target_error : float) : option Dictionary :=
  if (Z.of_nat (length vertices) =? 0) || (Z.of_nat (length indices) =? 0)
  then Some empty_input
  else
    target ← target_index_count (Z.of_nat (length indices)) target_ratio;
    simplify_at vertices indices target target_error.

(** The attribute-aware branch of [simplify_with_attributes]
    (lines 143-184). *)
Definition simplify_with_attributes_at (vertices : list Vector3) (indices : list Z)
    (uvs : list Vector2) (target : Z) (target_error uv_weight : float)
    : option Dictionary :=
  let vertex_count := Z.of_nat (length vertices) in
  let index_count := Z.of_nat (length indices) in
  d ← simplified_dictionary vertices index_count
        (meshopt_simplifyWithAttributes (to_index_data indices) index_count
           (to_vertex_data vertices) vertex_count 12
           (to_uv_data uvs) 8 [uv_weight] 1 None target target_error 0);
  Some (<["uvs" := VPackedVector2Array uvs]> d).

Definition simplify_with_attributes (vertices : list Vector3) (indices : list Z)
    (uvs : list Vector2) (target_ratio target_error uv_weight : float)
    : option Dictionary :=
  if (Z.of_nat (length vertices) =? 0) || (Z.of_nat (length indices) =? 0)
  then Some empty_input
  else
    target ← target_index_count (Z.of_nat (length indices)) target_ratio;
    if Z.of_nat (length uvs) =? Z.of_nat (length vertices)
    then simplify_with_attributes_at vertices indices uvs target target_error uv_weight
    else simplify vertices indices target_ratio target_error.

Definition simplify_sloppy_at (vertices : list Vector3) (indices : list Z)
    (target : Z) (target_error : float) : option Dictionary :=
  let vertex_count := Z.of_nat (length vertices) in
  let index_count := Z.of_nat (length indices) in
  simplified_dictionary vertices index_count
    (meshopt_simplifySloppy (to_index_data indices) index_count
       (to_vertex_data vertices) vertex_count 12 target target_error).

Definition simplify_sloppy (vertices : list Vector3) (indices : list Z)
    (target_ratio target_error : float) : option Dictionary :=
  if (Z.of_nat (length vertices) =? 0) || (Z.of_nat (length indices) =? 0)
  then Some empty_input
  else
    target ← target_index_count (Z.of_nat (length indices)) target_ratio;
    simplify_sloppy_at vertices indices target target_error.

Definition optimize_vertex_cache (indices : list Z) (vertex_count : Z)
    : option (list Z) :=
  if (Z.of_nat (length indices) =? 0) || (vertex_count <=? 0)
  then Some indices
  else
    let index_count := Z.of_nat (length indices) in
    optimized ← vector_after_write 0 index_count
      (meshopt_optimizeVertexCache (to_index_data indices) index_count
         (to_size_t vertex_count));
    Some (map to_int32 optimized).

(** Lines 406-412: one [Vector3] per unique vertex out of the remapped
    floats. *)
Definition vector3_at (data : list float) (i : Z) : option Vector3 :=
  vx ← vector_at data (i * 3 + 0);
  vy ← vector_at data (i * 3 + 1);
  vz ← vector_at data (i * 3 + 2);
  Some (mkVector3 vx vy vz).

Definition from_vertex_data (data : list float) (count : Z) : option (list Vector3) :=
  mapM (vector3_at data) (seqZ 0 count).

(** Lines 414-421: [remap[indices[i]]], the index used as it comes. *)
Definition remap_indices (remap : list Z) (indices : list Z) : option (list Z) :=
  mapM (fun i => to_int32 <$> vector_at remap i) indices.

Definition weld_vertices (vertices : list Vector3) (indices : list Z)
    (threshold : float) : option Dictionary :=
  if Z.of_nat (length vertices) =? 0
  then Some empty_vertices
  else
    let vertex_count := Z.of_nat (length vertices) in
    let vertex_data := to_vertex_data vertices in
    let with_indices := 0 <? Z.of_nat (length indices) in
    let '(remap_written, unique_count) :=
      meshopt_generateVertexRemap
        (if with_indices then Some (to_index_data indices) else None)
        (if with_indices then Z.of_nat (length indices) else vertex_count)
        vertex_data vertex_count 12 in
    remap ← vector_after_write 0 vertex_count remap_written;
    remapped_vertices ← vector_after_write f32_zero (to_size_t (unique_count * 3))
      (meshopt_remapVertexBuffer vertex_data vertex_count 12 remap);
    new_vertices ← from_vertex_data remapped_vertices unique_count;
    new_indices ← (if with_indices then remap_indices remap indices else Some []);
    Some (<["unique_count" := VInt (to_int32 unique_count)]>
          (<["original_count" := VInt (to_int32 vertex_count)]>
          (<["indices" := VPackedInt32Array new_indices]>
          (<["vertices" := VPackedVector3Array new_vertices]> ∅)))).

End Binding.

(** ** The engine behind the interface

    The bundled library is not part of the binding's sources.  Its behaviour
    is taken from the specification of the engine: the index-buffer side of
    each algorithm is written out, and the arithmetic the specification leaves
    to the implementer (quadric scores, rejection tests, grid clustering, the
    cache score) is a [Metrics] parameter. *)

Definition Triangle : Type := Z * Z * Z.

Fixpoint triangles (indices : list Z) : list Triangle :=
  match indices with
  | a :: b :: c :: rest => (a, b, c) :: triangles rest
  | _ => []
  end.

Definition flatten_triangles (ts : list Triangle) : list Z :=
  flat_map (fun '(a, b, c) => [a; b; c]) ts.

Definition map_triangle (f : Z -> Z) (t : Triangle) : Triangle :=
  let '(a, b, c) := t in (f a, f b, f c).

(** Modelled from the spec: the invariant of an IndexBuffer (section 3), a
    length divisible by 3 and every value below the vertex count. *)
Definition valid_index_buffer (indices : list Z) (vertex_count : Z) : Prop :=
  (length indices mod 3 = 0)%nat /\ Forall (fun i => 0 <= i < vertex_count) indices.

Fixpoint vertices_of_data (data : list float) : list Vector3 :=
  match data with
  | vx :: vy :: vz :: rest => mkVector3 vx vy vz :: vertices_of_data rest
  | _ => []
  end.

(** Modelled from the spec: the arithmetic of the bundled library that
    sections 4.1 to 4.4 describe in words only. *)
Record Metrics : Type := mkMetrics {
  (* 4.1: adjacency and one quadric per vertex, built from the positions, the
     optional attributes with their weights, and the triangles *)
  Quadrics : Type;
  build_quadrics :
    list float -> option (list float * list float) -> list Triangle -> Quadrics;
  (* 4.2: the quadric error of collapsing an edge to its optimal point *)
  collapse_error : Quadrics -> list Triangle -> Z * Z -> float;
  (* 4.2: normal inversion, locked and border-protected edges *)
  collapse_rejected : Quadrics -> list Triangle -> Z * Z -> bool;
  (* 4.2: the quadrics of the two ends of a collapsed edge summed *)
  merge_quadrics : Quadrics -> Z * Z -> Quadrics;
  (* 4.3: the vertex every vertex of a grid cell collapses to, for a grid
     sized from the target; and the largest deviation inside a cell *)
  cluster : list float -> list Triangle -> Z -> float -> Z -> Z;
  cluster_error : list float -> list Triangle -> Z -> float -> float;
  (* 4.4: the cache depth, and the score of a triangle from its cache hits
     and the live triangle counts of its three vertices *)
  cache_size : nat;
  triangle_score : nat -> nat -> nat -> nat -> Z
}.

Module Engine.
Section WithMetrics.
Variable metrics : Metrics.

(** *** 4.2 Edge-collapse simplifier *)

Record CollapseCandidate : Type := mkCandidate { cc_edge : Z * Z; cc_error : float }.

Definition degenerate (t : Triangle) : bool :=
  let '(a, b, c) := t in (a =? b) || (b =? c) || (a =? c).

Definition substitute (gone keep i : Z) : Z := if i =? gone then keep else i.

(** Merge [gone] into [keep]: incident triangles reference the survivor,
    degenerate triangles are removed. *)
Definition collapse (ts : list Triangle) (e : Z * Z) : list Triangle :=
  List.filter (fun t => negb (degenerate t))
    (map (map_triangle (substitute (snd e) (fst e))) ts).

Definition edges (ts : list Triangle) : list (Z * Z) :=
  flat_map (fun '(a, b, c) => [(a, b); (b, c); (c, a)]) ts.

(** Candidates that survive the rejection tests, the target floor among
    them. *)
Definition candidates (quadrics : Quadrics metrics)
    (target : Z) (ts : list Triangle) : list CollapseCandidate :=
  map (fun e => mkCandidate e (collapse_error metrics quadrics ts e))
    (List.filter
       (fun e => negb (fst e =? snd e)
                 && negb (collapse_rejected metrics quadrics ts e)
                 && (target <=? 3 * Z.of_nat (length (collapse ts e))))
       (edges ts)).

(** Lower error first; equal errors by the lower vertex indices. *)
Definition before (c1 c2 : CollapseCandidate) : bool :=
  f32_ltb (cc_error c1) (cc_error c2)
  || (negb (f32_ltb (cc_error c2) (cc_error c1))
      && ((fst (cc_edge c1) <? fst (cc_edge c2))
          || ((fst (cc_edge c1) =? fst (cc_edge c2))
              && (snd (cc_edge c1) <? snd (cc_edge c2))))).

Definition pop_lowest (cs : list CollapseCandidate) : option CollapseCandidate :=
  match cs with
  | [] => None
  | c :: rest => Some (fold_left (fun best c' => if before c' best then c' else best) rest c)
  end.

Definition f32_max (a b : float) : float := if f32_ltb a b then b else a.

(** Stop at the target, on an empty queue, or when the cheapest candidate
    is above the error bound; otherwise collapse it.  Every collapse removes
    the triangles of its edge, so the triangle count is fuel enough. *)
Fixpoint collapse_loop (fuel : nat) (target : Z) (target_error : float)
    (quadrics : Quadrics metrics) (ts : list Triangle) (error : float)
    : list Triangle * float :=
  match fuel with
  | O => (ts, error)
  | S fuel' =>
      if 3 * Z.of_nat (length ts) <=? target then (ts, error)
      else
        match pop_lowest (candidates quadrics target ts) with
        | None => (ts, error)
        | Some c =>
            if f32_ltb target_error (cc_error c) then (ts, error)
            else collapse_loop fuel' target target_error
                   (merge_quadrics metrics quadrics (cc_edge c))
                   (collapse ts (cc_edge c)) (f32_max error (cc_error c))
        end
  end.

(** Section 4.2, the contract: the target index count is at least 3 and
    clamped; section 7: a target above what is available only clamps. *)
Definition clamp_target (index_count target : Z) : Z := Z.max 3 (Z.min target index_count).

(** Modelled from the spec: the edge-collapse simplifier of section 4.2
    (with the attribute-weighted variant it subsumes), in place of
    [meshopt_simplify] and [meshopt_simplifyWithAttributes] of the bundled
    library.  The vertex buffer is reused: a collapse keeps one end of the
    edge. *)
Definition simplify (positions : list float)
    (attributes : option (list float * list float))
    (indices : list Z) (target : Z) (target_error : float) : list Z * float :=
  let ts := triangles indices in
  let '(ts', error) :=
    collapse_loop (length ts)
      (clamp_target (Z.of_nat (length indices)) target) target_error
      (build_quadrics metrics positions attributes ts) ts f32_zero in
  (flatten_triangles ts', error).

(** *** 4.3 Sloppy simplifier *)

(** Modelled from the spec: the sloppy simplifier of section 4.3, in place
    of [meshopt_simplifySloppy] of the bundled library: the index buffer is
    remapped through the collapse of each grid cell and degenerate triangles
    are dropped. *)
Definition simplify_sloppy (positions : list float) (indices : list Z)
    (target : Z) (target_error : float) : list Z * float :=
  let ts := triangles indices in
  let t := clamp_target (Z.of_nat (length indices)) target in
  (flatten_triangles
     (List.filter (fun t => negb (degenerate t))
        (map (map_triangle (cluster metrics positions ts t target_error)) ts)),
   cluster_error metrics positions ts t target_error).

(** *** 4.4 Vertex cache optimizer *)

Definition in_cache (cache : list Z) (v : Z) : bool := bool_decide (v ∈ cache).

Definition cache_hits (cache : list Z) (t : Triangle) : nat :=
  let '(a, b, c) := t in
  length (List.filter (in_cache cache) [a; b; c]).

Definition uses (v : Z) (t : Triangle) : bool :=
  let '(a, b, c) := t in (a =? v) || (b =? v) || (c =? v).

Definition live_triangles (remaining : list Triangle) (v : Z) : nat :=
  length (List.filter (uses v) remaining).

Definition score (cache : list Z) (remaining : list Triangle) (t : Triangle) : Z :=
  let '(a, b, c) := t in
  triangle_score metrics (cache_hits cache t)
    (live_triangles remaining a) (live_triangles remaining b)
    (live_triangles remaining c).

(** The FIFO: vertices not yet cached enter at the back, the oldest leave
    at the front. *)
Definition touch (cache : list Z) (t : Triangle) : list Z :=
  let '(a, b, c) := t in
  let pushed :=
    fold_left (fun q v => if in_cache q v then q else q ++ [v]) [a; b; c] cache in
  drop (length pushed - cache_size metrics) pushed.

(** The first of the best: ties go to the original order. *)
Fixpoint best_of (value : Triangle -> Z) (best : Triangle) (rest : list Triangle)
    : Triangle :=
  match rest with
  | [] => best
  | t :: rest' => if value best <? value t then best_of value t rest'
                  else best_of value best rest'
  end.

Definition select (cache : list Z) (remaining : list Triangle) : option Triangle :=
  let cached := List.filter (fun t => (0 <? cache_hits cache t)%nat) remaining in
  match (match cached with [] => remaining | _ => cached end) with
  | [] => None
  | t :: rest => Some (best_of (score cache remaining) t rest)
  end.

Fixpoint remove_first (t : Triangle) (ts : list Triangle) : list Triangle :=
  match ts with
  | [] => []
  | t' :: rest => if bool_decide (t' = t) then rest else t' :: remove_first t rest
  end.

Fixpoint reorder (fuel : nat) (cache : list Z) (remaining : list Triangle)
    : list Triangle :=
  match fuel with
  | O => []
  | S fuel' =>
      match select cache remaining with
      | None => []
      | Some t => t :: reorder fuel' (touch cache t) (remove_first t remaining)
      end
  end.

(** Modelled from the spec: the vertex cache optimizer of section 4.4, in
    place of [meshopt_optimizeVertexCache] of the bundled library: a greedy
    pass over the triangles not yet emitted, driven by a simulated FIFO. *)
Definition optimize_vertex_cache (indices : list Z) (vertex_count : Z) : list Z :=
  let ts := triangles indices in
  flatten_triangles (reorder (length ts) [] ts).

(** *** 4.5 Vertex remap and weld *)

(** The exact value of a finite [float]. *)
Definition Q_of_f32 (f : float) : option Q :=
  match f with
  | S754_zero _ => Some 0%Q
  | S754_finite s m e =>
      let magnitude :=
        if 0 <=? e then Qmake (Z.pos m * 2 ^ e) 1
        else Qmake (Z.pos m) (Z.to_pos (2 ^ (- e))) in
      Some (if s then Qopp magnitude else magnitude)
  | S754_infinity _ | S754_nan => None
  end.

Definition squared_distance (a b : Vector3) : option Q :=
  ax ← Q_of_f32 (v3_x a); ay ← Q_of_f32 (v3_y a); az ← Q_of_f32 (v3_z a);
  bx ← Q_of_f32 (v3_x b); by_ ← Q_of_f32 (v3_y b); bz ← Q_of_f32 (v3_z b);
  Some ((ax - bx) * (ax - bx) + (ay - by_) * (ay - by_) + (az - bz) * (az - bz))%Q.

(** Exact equality at tolerance 0, Euclidean distance at most the tolerance
    otherwise. *)
Definition judged_equal (tolerance : float) (a b : Vector3) : bool :=
  match tolerance with
  | S754_zero _ => bool_decide (a = b)
  | _ =>
      match squared_distance a b, Q_of_f32 tolerance with
      | Some d2, Some eps => Qle_bool 0 eps && Qle_bool d2 (eps * eps)
      | _, _ => false
      end
  end.

Fixpoint find_canonical (tolerance : float) (canonical : list Vector3)
    (v : Vector3) (j : Z) : option Z :=
  match canonical with
  | [] => None
  | c :: rest =>
      if judged_equal tolerance c v then Some j
      else find_canonical tolerance rest v (j + 1)
  end.

(** One pass over the vertices in input order; the first vertex of a
    duplicate group is canonical. *)
Fixpoint build_remap (tolerance : float) (canonical : list Vector3)
    (vertices : list Vector3) : list Z * list Vector3 :=
  match vertices with
  | [] => ([], canonical)
  | v :: rest =>
      match find_canonical tolerance canonical v 0 with
      | Some j =>
          let '(remap, canonical') := build_remap tolerance canonical rest in
          (j :: remap, canonical')
      | None =>
          let '(remap, canonical') := build_remap tolerance (canonical ++ [v]) rest in
          (Z.of_nat (length canonical) :: remap, canonical')
      end
  end.

(** Modelled from the spec: [generate_vertex_remap] of sections 4.5 and 6,
    in place of [meshopt_generateVertexRemap] of the bundled library.  The
    spatial hash only narrows the candidates a vertex is compared with; the
    index buffer, if any, plays no part in the table. *)
Definition generate_vertex_remap (vertices : list Vector3)
    (indices : option (list Z)) (tolerance : float) : list Z * Z :=
  let '(remap, canonical) := build_remap tolerance [] vertices in
  (remap, Z.of_nat (length canonical)).

Definition zero3 : Vector3 := mkVector3 f32_zero f32_zero f32_zero.

Definition unique_count_of (remap : list Z) : Z :=
  fold_right (fun j n => Z.max (j + 1) n) 0 remap.

(** [vertices'[remap[i]] = vertices[i]], written from the last vertex to
    the first so that the first vertex of a group is the one kept. *)
Fixpoint scatter (vertices : list Vector3) (remap : list Z) (destination : list Vector3)
    : list Vector3 :=
  match vertices, remap with
  | v :: vertices', j :: remap' =>
      <[Z.to_nat j := v]> (scatter vertices' remap' destination)
  | _, _ => destination
  end.

(** Modelled from the spec: [remap_vertex_buffer] of section 6, in place of
    [meshopt_remapVertexBuffer] of the bundled library. *)
Definition remap_vertex_buffer (vertices : list Vector3) (remap : list Z)
    : list Vector3 :=
  scatter vertices remap (replicate (Z.to_nat (unique_count_of remap)) zero3).

End WithMetrics.
End Engine.

(** Modelled from the spec: the bundled library, whose sources are not among
    the binding's, as the engine of sections 4.2 to 4.5 behind the entry
    points the binding calls.  The binding passes positions as three [float]s
    per vertex ([vertex_size = 12]) and no tolerance: the remap is generated
    at tolerance 0, by exact equality. *)
Definition engine (metrics : Metrics) : Meshopt := {|
  meshopt_simplify indices index_count positions vertex_count stride target target_error options :=
    let '(out, error) :=
      Engine.simplify metrics positions None
        (take (Z.to_nat index_count) indices) target target_error in
    mkSimplifyOutput out (Z.of_nat (length out)) error;
  meshopt_simplifyWithAttributes indices index_count positions vertex_count stride
      attributes attributes_stride weights attribute_count vertex_lock
      target target_error options :=
    let '(out, error) :=
      Engine.simplify metrics positions (Some (attributes, weights))
        (take (Z.to_nat index_count) indices) target target_error in
    mkSimplifyOutput out (Z.of_nat (length out)) error;
  meshopt_simplifySloppy indices index_count positions vertex_count stride target target_error :=
    let '(out, error) :=
      Engine.simplify_sloppy metrics positions
        (take (Z.to_nat index_count) indices) target target_error in
    mkSimplifyOutput out (Z.of_nat (length out)) error;
  meshopt_optimizeVertexCache indices index_count vertex_count :=
    Engine.optimize_vertex_cache metrics (take (Z.to_nat index_count) indices) vertex_count;
  meshopt_generateVertexRemap indices index_count vertices vertex_count vertex_size :=
    Engine.generate_vertex_remap
      (take (Z.to_nat vertex_count) (vertices_of_data vertices)) indices f32_zero;
  meshopt_remapVertexBuffer vertices vertex_count vertex_size remap :=
    to_vertex_data
      (Engine.remap_vertex_buffer
         (take (Z.to_nat vertex_count) (vertices_of_data vertices)) remap)
|}.

(** ** What the binding relies on *)

(** Modelled from the spec: the Bounds property of section 8 for one call of
    a simplifier of the bundled library: it writes and returns no more indices
    than it was given, in whole triangles. *)
Definition within_bounds (index_count : Z) (out : SimplifyOutput) : Prop :=
  Z.of_nat (length (so_destination out)) <= index_count
  /\ 0 <= so_count out <= index_count
  /\ so_count out mod 3 = 0.

(** Modelled from the spec: the contract of the bundled library, for index
    buffers that satisfy the IndexBuffer invariant: the simplifiers keep the
    bounds of section 8; the cache optimizer returns the same triangles in
    another order (section 4.4); the remap table sends every vertex to a
    vertex of the deduplicated buffer at the same position, and the
    deduplicated buffer holds no more vertices than the input and input
    positions only (sections 3 and 4.5 at tolerance 0). *)
Class MeshoptContract (lib : Meshopt) : Prop := {
  simplify_bounds indices positions vertex_count stride target target_error options :
    valid_index_buffer indices vertex_count ->
    within_bounds (Z.of_nat (length indices))
      (meshopt_simplify indices (Z.of_nat (length indices)) positions vertex_count
         stride target target_error options);
  simplifyWithAttributes_bounds indices positions vertex_count stride attributes
      attributes_stride weights attribute_count vertex_lock target target_error options :
    valid_index_buffer indices vertex_count ->
    within_bounds (Z.of_nat (length indices))
      (meshopt_simplifyWithAttributes indices (Z.of_nat (length indices)) positions
         vertex_count stride attributes attributes_stride weights attribute_count
         vertex_lock target target_error options);
  simplifySloppy_bounds indices positions vertex_count stride target target_error :
    valid_index_buffer indices vertex_count ->
    within_bounds (Z.of_nat (length indices))
      (meshopt_simplifySloppy indices (Z.of_nat (length indices)) positions vertex_count
         stride target target_error);
  optimizeVertexCache_permutation indices vertex_count :
    valid_index_buffer indices vertex_count ->
    length (meshopt_optimizeVertexCache indices (Z.of_nat (length indices)) vertex_count)
      = length indices
    /\ Permutation
         (triangles
            (meshopt_optimizeVertexCache indices (Z.of_nat (length indices)) vertex_count))
         (triangles indices);
  generateVertexRemap_exact indices index_count vertices :
    let vertex_count := Z.of_nat (length vertices) in
    let '(remap, unique_count) :=
      meshopt_generateVertexRemap indices index_count (to_vertex_data vertices)
        vertex_count 12 in
    length remap = length vertices
    /\ exists unique : list Vector3,
         meshopt_remapVertexBuffer (to_vertex_data vertices) vertex_count 12 remap
           = to_vertex_data unique
         /\ Z.of_nat (length unique) = unique_count
         /\ unique_count <= vertex_count
         /\ (forall k v, vertices !! k = Some v ->
               exists j, remap !! k = Some j /\ 0 <= j /\ unique !! Z.to_nat j = Some v)
         /\ (forall v, v ∈ unique -> v ∈ vertices)
}.

(** ** Predicates on results *)

(** A degenerate call as a no-op: empty indices, achieved error 0, no error
    entry. *)
Definition degenerate_no_op (result : option Dictionary) : bool :=
  match result with
  | Some d =>
      bool_decide (d !! "indices" = Some (VPackedInt32Array []))
      && bool_decide (d !! "result_error" = Some (VFloat f32_zero))
      && bool_decide (d !! "error" = None)
  | None => false
  end.

(** An error reported through the result. *)
Definition reports_error (result : option Dictionary) : bool :=
  match result with
  | Some d => bool_decide (is_Some (d !! "error"))
  | None => false
  end.

(** Some entry of the dictionary holds the value. *)
Definition holds_value (d : Dictionary) (v : GdVariant) : bool :=
  existsb (fun kv => bool_decide (kv.2 = v)) (map_to_list d).

Definition packed_int32 (a : list Z) : Prop := Forall is_int32 a.

(** A simplifier's result carries an index buffer no longer than the input,
    in whole triangles. *)
Definition bounded_result (indices : list Z) (result : option Dictionary) : Prop :=
  exists d new_indices,
    result = Some d
    /\ d !! "indices" = Some (VPackedInt32Array new_indices)
    /\ (length new_indices <= length indices)%nat
    /\ (length new_indices mod 3 = 0)%nat.

(** ** Sample inputs *)

Module Sample.

(** The plainest metrics: no quadric state, every collapse is free and none
    is rejected, each vertex is a grid cell of its own, sixteen cache entries
    scored by their hits. *)
Definition metrics : Metrics :=
  mkMetrics unit (fun _ _ _ => tt) (fun _ _ _ => f32_zero) (fun _ _ _ => false)
    (fun _ _ => tt)
    (fun _ _ _ _ v => v) (fun _ _ _ _ => f32_zero)
    16 (fun hits _ _ _ => Z.of_nat hits).

Definition library : Meshopt := engine metrics.

(** Metrics that make the edge between vertices 0 and 2 cheap (error 1) and
    every other edge dear (error 5). *)
Definition steep_metrics : Metrics :=
  mkMetrics unit (fun _ _ _ => tt)
    (fun _ _ e =>
       if ((fst e =? 0) && (snd e =? 2)) || ((fst e =? 2) && (snd e =? 0))
       then f32_of_Z 1 else f32_of_Z 5)
    (fun _ _ _ => false) (fun _ _ => tt)
    (fun _ _ _ _ v => v) (fun _ _ _ _ => f32_zero)
    16 (fun hits _ _ _ => Z.of_nat hits).

Definition one : float := f32_of_Z 1.
Definition two : float := f32_of_Z 2.
Definition half : float := S754_finite false 8388608 (-24).

Definition origin : Vector3 := mkVector3 f32_zero f32_zero f32_zero.
Definition east : Vector3 := mkVector3 one f32_zero f32_zero.
Definition north : Vector3 := mkVector3 f32_zero one f32_zero.
Definition north_east : Vector3 := mkVector3 one one f32_zero.
Definition half_east : Vector3 := mkVector3 half f32_zero f32_zero.
Definition west : Vector3 := mkVector3 (SFopp one) f32_zero f32_zero.

(** A unit square of two triangles. *)
Definition square : list Vector3 := [origin; east; north; north_east].
Definition square_indices : list Z := [0; 1; 2; 2; 1; 3].

(** A fan of three triangles around the origin. *)
Definition fan : list Vector3 := [origin; east; north_east; north; west].
Definition fan_indices : list Z := [0; 1; 2; 0; 2; 3; 0; 3; 4].

(** Two triangles that share the edge between vertices 0 and 2, and two
    apart. *)
Definition patches : list Vector3 := replicate 10 origin.
Definition patches_indices : list Z := [0; 1; 2; 0; 2; 3; 4; 5; 6; 7; 8; 9].
Definition three_quarters : float := S754_finite false 12582912 (-24).
Definition hundred : float := f32_of_Z 100.

Definition square_uvs : list Vector2 :=
  [mkVector2 f32_zero f32_zero; mkVector2 one f32_zero;
   mkVector2 f32_zero one; mkVector2 one one].

End Sample.

(** ** Mesh arrays *)

(** [Mesh::ArrayType], the enumeration of godot-cpp that numbers the slots of
    a mesh array.  Its declaration is not among the sources: the slots the
    binding names, and the number of slots, are parameters. *)
Class MeshArrayType : Type := {
  ARRAY_VERTEX : nat;
  ARRAY_NORMAL : nat;
  ARRAY_COLOR : nat;
  ARRAY_TEX_UV : nat;
  ARRAY_INDEX : nat;
  ARRAY_MAX : nat
}.

(** The five slots are different and below [ARRAY_MAX]. *)
Definition array_type_ok `{MeshArrayType} : Prop :=
  NoDup [ARRAY_VERTEX; ARRAY_NORMAL; ARRAY_COLOR; ARRAY_TEX_UV; ARRAY_INDEX]
  /\ Forall (fun slot => (slot < ARRAY_MAX)%nat)
       [ARRAY_VERTEX; ARRAY_NORMAL; ARRAY_COLOR; ARRAY_TEX_UV; ARRAY_INDEX].

Record Color : Type := mkColor { c_r : float; c_g : float; c_b : float; c_a : float }.

(** A [Variant] as an [Array] holds it: nil, one of the variants above, a
    [PackedColorArray], or a variant of any other type, of which only the
    type is looked at. *)
Inductive MeshVariant : Type :=
  | MNil
  | MValue (v : GdVariant)
  | MPackedColorArray (a : list Color)
  | MOther (type : nat).

(** What [UtilityFunctions::push_error] and [push_warning] are given. *)
Inductive LogEntry : Type :=
  | PushError (message : string)
  | PushWarning (arguments : list MeshVariant).

(** [array[slot]] on an [Array]; no value outside the array. *)
Definition array_get (array : list MeshVariant) (slot : nat) : option MeshVariant :=
  array !! slot.

(** [array[slot] = value]. *)
Definition array_set (array : list MeshVariant) (slot : nat) (value : MeshVariant)
    : option (list MeshVariant) :=
  if (slot <? length array)%nat then Some (<[slot := value]> array) else None.

(** [dictionary[key]], nil for a key the dictionary does not have. *)
Definition dictionary_get (d : Dictionary) (key : string) : MeshVariant :=
  match d !! key with
  | Some v => MValue v
  | None => MNil
  end.

Section MeshArrays.
Context `{lib : Meshopt} `{slots : MeshArrayType}.

(** The literal [1.0f]. *)
Definition f32_one : float := f32_of_Z 1.

(** Lines 304-328: the result array, filled from the simplified dictionary
    and from the slots of the original that are preserved. *)
Definition simplified_arrays (mesh_arrays : list MeshVariant) (has_uvs : bool)
    (simplified : Dictionary) : option (list MeshVariant) :=
  let result := replicate ARRAY_MAX MNil in
  result ← array_set result ARRAY_VERTEX (dictionary_get simplified "vertices");
  result ← array_set result ARRAY_INDEX (dictionary_get simplified "indices");
  result ← (if has_uvs
            then v_uvs ← array_get mesh_arrays ARRAY_TEX_UV;
                 array_set result ARRAY_TEX_UV v_uvs
            else Some result);
  v_normals ← array_get mesh_arrays ARRAY_NORMAL;
  result ← (match v_normals with
            | MValue (VPackedVector3Array _) => array_set result ARRAY_NORMAL v_normals
            | _ => Some result
            end);
  v_colors ← array_get mesh_arrays ARRAY_COLOR;
  match v_colors with
  | MPackedColorArray _ => array_set result ARRAY_COLOR v_colors
  | _ => Some result
  end.

(** [simplify_mesh_arrays] returns the array and what it logged. *)
Definition simplify_mesh_arrays (mesh_arrays : list MeshVariant)
    (target_ratio target_error : float)
    : option (list MeshVariant * list LogEntry) :=
  if (length mesh_arrays <? ARRAY_MAX)%nat
  then Some ([], [PushError "MeshOptimizerGD: Invalid mesh arrays size"])
  else
    v_vertices ← array_get mesh_arrays ARRAY_VERTEX;
    v_indices ← array_get mesh_arrays ARRAY_INDEX;
    match v_vertices, v_indices with
    | MValue (VPackedVector3Array vertices), MValue (VPackedInt32Array indices) =>
        if (Z.of_nat (length vertices) =? 0) || (Z.of_nat (length indices) =? 0)
        then Some (mesh_arrays, [])
        else
          v_uvs ← array_get mesh_arrays ARRAY_TEX_UV;
          let has_uvs :=
            match v_uvs with MValue (VPackedVector2Array _) => true | _ => false end in
          let uvs :=
            match v_uvs with MValue (VPackedVector2Array uvs) => uvs | _ => [] end in
          simplified ←
            (if has_uvs && (Z.of_nat (length uvs) =? Z.of_nat (length vertices))
             then simplify_with_attributes vertices indices uvs target_ratio
                    target_error f32_one
             else simplify vertices indices target_ratio target_error);
          if bool_decide (is_Some (simplified !! "error"))
          then Some (mesh_arrays,
                     [PushWarning [MValue (VString "MeshOptimizerGD: ");
                                   dictionary_get simplified "error"]])
          else
            result ← simplified_arrays mesh_arrays has_uvs simplified;
            Some (result, [])
    | _, _ => Some ([], [PushError "MeshOptimizerGD: Missing vertices or indices"])
    end.

(** Lines 431-437. *)
Definition get_version : string := "meshoptimizer 0.21".
Definition is_available : bool := true.

End MeshArrays.

(** The [float] [2 ^ k], for [k] from -126 to 127. *)
Definition f32_exp2 (k : Z) : float := S754_finite false 8388608 (k - 23).

(** [<=] on [float]. *)
Definition f32_leb : float -> float -> bool := SFleb.

(** The slots as Godot 4 numbers them. *)
Definition godot4_arrays : MeshArrayType :=
  {| ARRAY_VERTEX := 0; ARRAY_NORMAL := 1; ARRAY_COLOR := 3; ARRAY_TEX_UV := 4;
     ARRAY_INDEX := 12; ARRAY_MAX := 13 |}.

(** The vertices and indices of a mesh array, when the two slots hold a
    [PackedVector3Array] and a [PackedInt32Array]. *)
Definition mesh_geometry `{MeshArrayType} (mesh_arrays : list MeshVariant)
    : option (list Vector3 * list Z) :=
  match mesh_arrays !! ARRAY_VERTEX, mesh_arrays !! ARRAY_INDEX with
  | Some (MValue (VPackedVector3Array vertices)),
    Some (MValue (VPackedInt32Array indices)) => Some (vertices, indices)
  | _, _ => None
  end.

(** The UVs of a mesh array, when the slot holds a [PackedVector2Array]. *)
Definition mesh_uvs `{MeshArrayType} (mesh_arrays : list MeshVariant)
    : option (list Vector2) :=
  match mesh_arrays !! ARRAY_TEX_UV with
  | Some (MValue (VPackedVector2Array uvs)) => Some uvs
  | _ => None
  end.

Definition is_vector2_array (v : MeshVariant) : bool :=
  match v with MValue (VPackedVector2Array _) => true | _ => false end.
Definition is_vector3_array (v : MeshVariant) : bool :=
  match v with MValue (VPackedVector3Array _) => true | _ => false end.
Definition is_color_array (v : MeshVariant) : bool :=
  match v with MPackedColorArray _ => true | _ => false end.

(** A slot of the original that passes the type test, nil otherwise. *)
Definition preserved (test : MeshVariant -> bool) (mesh_arrays : list MeshVariant)
    (slot : nat) : MeshVariant :=
  match mesh_arrays !! slot with
  | Some v => if test v then v else MNil
  | None => MNil
  end.

(** A conditional store, as the three preserved slots are written. *)
Definition store_if (test : bool) (array : list MeshVariant) (slot : nat)
    (value : MeshVariant) : list MeshVariant :=
  if test then <[slot := value]> array else array.

(** The simplifier call of [simplify_mesh_arrays] read as one call: with a UV
    array of any length [simplify_with_attributes] at weight 1, without one
    [simplify]. *)
Definition mesh_simplified `{Meshopt} `{MeshArrayType} (mesh_arrays : list MeshVariant)
    (vertices : list Vector3) (indices : list Z) (target_ratio target_error : float)
    : option Dictionary :=
  match mesh_uvs mesh_arrays with
  | Some uvs =>
      simplify_with_attributes vertices indices uvs target_ratio target_error f32_one
  | None => simplify vertices indices target_ratio target_error
  end.

(** The array [simplify_mesh_arrays] builds from a simplified dictionary: the
    two entries of the dictionary, then the three slots of the original that
    pass their type test. *)
Definition rebuilt_arrays `{MeshArrayType} (mesh_arrays : list MeshVariant)
    (simplified : Dictionary) : list MeshVariant :=
  let v_uvs := default MNil (mesh_arrays !! ARRAY_TEX_UV) in
  let v_normals := default MNil (mesh_arrays !! ARRAY_NORMAL) in
  let v_colors := default MNil (mesh_arrays !! ARRAY_COLOR) in
  store_if (is_color_array v_colors)
    (store_if (is_vector3_array v_normals)
       (store_if (is_vector2_array v_uvs)
          (<[ARRAY_INDEX := dictionary_get simplified "indices"]>
             (<[ARRAY_VERTEX := dictionary_get simplified "vertices"]>
                (replicate ARRAY_MAX MNil)))
          ARRAY_TEX_UV v_uvs)
       ARRAY_NORMAL v_normals)
    ARRAY_COLOR v_colors.

(** The entries of a simplified dictionary as the binding fills them: the
    vertices it was given, the triangle counts of the two index buffers, an
    index buffer of [int32] values no longer than the input one, and the
    error the library reported, [result_error]. *)
Definition simplify_bookkeeping (vertices : list Vector3) (indices : list Z)
    (result_error : float) (d : Dictionary) : Prop :=
  d !! "vertices" = Some (VPackedVector3Array vertices)
  /\ d !! "original_triangles" = Some (VInt (to_int32 (Z.of_nat (length indices) / 3)))
  /\ d !! "result_error" = Some (VFloat result_error)
  /\ exists new_indices,
       d !! "indices" = Some (VPackedInt32Array new_indices)
       /\ (length new_indices <= length indices)%nat
       /\ Forall is_int32 new_indices
       /\ d !! "simplified_triangles"
          = Some (VInt (to_int32 (Z.of_nat (length new_indices) / 3))).

Module SampleArrays.

(** The square as a mesh array of Godot 4: vertices, normals, tangents (a
    variant of another type), colours, UVs, seven empty slots and the
    indices. *)
Definition up : Vector3 := mkVector3 f32_zero f32_zero Sample.one.
Definition white : Color := mkColor Sample.one Sample.one Sample.one Sample.one.

Definition square : list MeshVariant :=
  [MValue (VPackedVector3Array Sample.square);
   MValue (VPackedVector3Array [up; up; up; up]);
   MOther 32;
   MPackedColorArray [white; white; white; white];
   MValue (VPackedVector2Array Sample.square_uvs)]
  ++ replicate 7 MNil
  ++ [MValue (VPackedInt32Array Sample.square_indices)].

(** The same with no vertices. *)
Definition hollow : list MeshVariant :=
  <[0%nat := MValue (VPackedVector3Array [])]> square.

(** The square simplified to one triangle: the tangents are gone. *)
Definition square_simplified : list MeshVariant :=
  [MValue (VPackedVector3Array Sample.square);
   MValue (VPackedVector3Array [up; up; up; up]);
   MNil;
   MPackedColorArray [white; white; white; white];
   MValue (VPackedVector2Array Sample.square_uvs)]
  ++ replicate 7 MNil
  ++ [MValue (VPackedInt32Array [2; 0; 3])].

End SampleArrays.

(** * Properties of the binding *)

Section BindingFacts.
Context `{lib : Meshopt}.

Lemma size_is_zero {A} (l : list A) : (Z.of_nat (length l) =? 0) = true <-> l = [].
Proof.
  rewrite Z.eqb_eq. destruct l; simpl; split; intros; try done; lia.
Qed.

Lemma size_not_zero {A} (l : list A) : l <> [] -> (Z.of_nat (length l) =? 0) = false.
Proof.
  intros Hne. apply not_true_is_false. rewrite size_is_zero. exact Hne.
Qed.

Lemma simplify_nonempty vertices indices target_ratio target_error :
  vertices <> [] -> indices <> [] ->
  simplify vertices indices target_ratio target_error
  = target_index_count (Z.of_nat (length indices)) target_ratio
      ≫= fun target => simplify_at vertices indices target target_error.
Proof.
  intros Hv Hi. unfold simplify.
  by rewrite (size_not_zero _ Hv), (size_not_zero _ Hi).
Qed.

Lemma simplified_dictionary_entries vertices index_count out d :
  simplified_dictionary vertices index_count out = Some d ->
  d !! "error" = None /\ d !! "uvs" = None
  /\ exists new_indices,
       vector_prefix (so_destination out
                      ++ replicate (Z.to_nat index_count - length (so_destination out)) 0)
         (so_count out) = Some new_indices
       /\ d !! "indices" = Some (VPackedInt32Array (map to_int32 new_indices)).
Proof.
  unfold simplified_dictionary, vector_after_write. intros Hd.
  destruct (Z.of_nat (length (so_destination out)) <=? index_count); [|done].
  simpl in Hd.
  destruct (vector_prefix _ (so_count out)) as [new_indices|] eqn:Hp; [|done].
  simpl in Hd. injection Hd as <-.
  split; [by simplify_map_eq|]. split; [by simplify_map_eq|].
  exists new_indices. split; [done|]. by simplify_map_eq.
Qed.

End BindingFacts.

(** ** Degenerate calls *)

(** C1, as stated, fails: a call of [simplify] with no vertices returns the
    dictionary whose only entry is the error text, not an empty index buffer
    with achieved error 0. *)
Lemma empty_call_is_not_a_no_op :
  @simplify Sample.library [] Sample.square_indices Sample.half Sample.one
    = Some empty_input
  /\ degenerate_no_op
       (@simplify Sample.library [] Sample.square_indices Sample.half Sample.one)
     = false
  /\ reports_error
       (@simplify Sample.library [] Sample.square_indices Sample.half Sample.one)
     = true.
Proof. repeat split; vm_compute; reflexivity. Qed.

(** C1, amended: with a zero-length vertex array or a zero-length index array,
    [simplify], [simplify_with_attributes] and [simplify_sloppy] return the
    dictionary whose only entry is ["error"], set to ["Empty input"]; it has no
    ["indices"] and no ["result_error"] entry. *)
Theorem empty_input_is_reported `{lib : Meshopt} (vertices : list Vector3)
    (indices : list Z) (uvs : list Vector2) (target_ratio target_error uv_weight : float) :
  vertices = [] \/ indices = [] ->
  simplify vertices indices target_ratio target_error = Some empty_input
  /\ simplify_with_attributes vertices indices uvs target_ratio target_error uv_weight
     = Some empty_input
  /\ simplify_sloppy vertices indices target_ratio target_error = Some empty_input
  /\ dom empty_input = {[ "error" ]}
  /\ empty_input !! "error" = Some (VString "Empty input").
Proof.
  intros Hempty.
  assert ((Z.of_nat (length vertices) =? 0) || (Z.of_nat (length indices) =? 0) = true)
    as Htest.
  { apply orb_true_iff. rewrite !size_is_zero. exact Hempty. }
  unfold simplify, simplify_with_attributes, simplify_sloppy. rewrite Htest.
  repeat split; reflexivity.
Qed.

Lemma empty_input_is_reported_witness :
  @simplify Sample.library Sample.square [] Sample.half Sample.one = Some empty_input
  /\ @simplify_with_attributes Sample.library Sample.square [] [] Sample.half Sample.one
       Sample.one = Some empty_input
  /\ @simplify_sloppy Sample.library Sample.square [] Sample.half Sample.one
     = Some empty_input
  /\ dom empty_input = {[ "error" ]}
  /\ empty_input !! "error" = Some (VString "Empty input").
Proof.
  apply (@empty_input_is_reported Sample.library Sample.square [] []
           Sample.half Sample.one Sample.one).
  right. reflexivity.
Defined.

(** ** The fallback of [simplify_with_attributes] *)

(** C9: when the UV array and the vertex array differ in length,
    [simplify_with_attributes] returns what [simplify] returns on the same
    vertices, indices, ratio and error; [uv_weight] plays no part and the
    result has no ["uvs"] entry. *)
Theorem simplify_with_attributes_falls_back `{lib : Meshopt} (vertices : list Vector3)
    (indices : list Z) (uvs : list Vector2) (target_ratio target_error uv_weight : float) :
  length uvs <> length vertices ->
  simplify_with_attributes vertices indices uvs target_ratio target_error uv_weight
    = simplify vertices indices target_ratio target_error
  /\ forall d, simplify vertices indices target_ratio target_error = Some d ->
               d !! "uvs" = None.
Proof.
  intros Hlen. split.
  - unfold simplify_with_attributes.
    destruct ((Z.of_nat (length vertices) =? 0) || (Z.of_nat (length indices) =? 0))
      eqn:Hempty.
    + unfold simplify. by rewrite Hempty.
    + destruct (target_index_count (Z.of_nat (length indices)) target_ratio)
        as [target|] eqn:Htarget; simpl.
      * destruct (Z.eqb_spec (Z.of_nat (length uvs)) (Z.of_nat (length vertices)));
          [lia | reflexivity].
      * unfold simplify. rewrite Hempty, Htarget. reflexivity.
  - intros d. unfold simplify.
    destruct ((Z.of_nat (length vertices) =? 0) || (Z.of_nat (length indices) =? 0)).
    + intros [= <-]. reflexivity.
    + destruct (target_index_count _ _) as [target|]; simpl; [|done].
      intros Hd. by apply simplified_dictionary_entries in Hd as (_ & Huv & _).
Qed.

Lemma simplify_with_attributes_falls_back_witness :
  @simplify_with_attributes Sample.library Sample.square Sample.square_indices []
     Sample.half Sample.one Sample.two
    = @simplify Sample.library Sample.square Sample.square_indices Sample.half Sample.one
  /\ forall d,
       @simplify Sample.library Sample.square Sample.square_indices Sample.half Sample.one
         = Some d ->
       d !! "uvs" = None.
Proof.
  apply (@simplify_with_attributes_falls_back Sample.library Sample.square
           Sample.square_indices [] Sample.half Sample.one Sample.two).
  simpl. lia.
Defined.

(** ** The target index count *)

(** C7, as stated, fails: on six indices at ratio 2 the target handed to the
    library is 12, above the six indices available; it is not clamped. *)
Lemma target_above_index_count_is_kept :
  target_index_count (Z.of_nat (length Sample.square_indices)) Sample.two = Some 12
  /\ (12 <=? Z.of_nat (length Sample.square_indices)) = false
  /\ @simplify Sample.library Sample.square Sample.square_indices Sample.two Sample.one
     = @simplify_at Sample.library Sample.square Sample.square_indices 12 Sample.one.
Proof. repeat split; vm_compute; reflexivity. Qed.

(** C7, amended: on non-empty input, when [index_count * target_ratio]
    converts to [size_t] with value [computed], the target index count that
    [simplify], [simplify_sloppy] and (for a UV array as long as the vertex
    array) [simplify_with_attributes] hand to the library is
    [max 3 computed]: raised to 3 when below, never rejected (the result has no
    ["error"] entry), and not clamped to the index count from above. *)
Theorem target_is_raised_never_rejected `{lib : Meshopt} (vertices : list Vector3)
    (indices : list Z) (uvs : list Vector2) (target_ratio target_error uv_weight : float)
    (computed : Z) :
  vertices <> [] -> indices <> [] ->
  size_t_of_f32 (f32_mul (f32_of_size_t (Z.of_nat (length indices))) target_ratio)
    = Some computed ->
  target_index_count (Z.of_nat (length indices)) target_ratio = Some (Z.max 3 computed)
  /\ simplify vertices indices target_ratio target_error
     = simplify_at vertices indices (Z.max 3 computed) target_error
  /\ simplify_sloppy vertices indices target_ratio target_error
     = simplify_sloppy_at vertices indices (Z.max 3 computed) target_error
  /\ (length uvs = length vertices ->
      simplify_with_attributes vertices indices uvs target_ratio target_error uv_weight
      = simplify_with_attributes_at vertices indices uvs (Z.max 3 computed)
          target_error uv_weight)
  /\ (forall d,
        simplify_at vertices indices (Z.max 3 computed) target_error = Some d
        \/ simplify_sloppy_at vertices indices (Z.max 3 computed) target_error = Some d
        \/ simplify_with_attributes_at vertices indices uvs (Z.max 3 computed)
             target_error uv_weight = Some d ->
        d !! "error" = None).
Proof.
  intros Hv Hi Hcomputed.
  assert (target_index_count (Z.of_nat (length indices)) target_ratio
          = Some (Z.max 3 computed)) as Htarget.
  { unfold target_index_count. rewrite Hcomputed. simpl. f_equal.
    destruct (Z.ltb_spec computed 3); lia. }
  unfold simplify, simplify_sloppy, simplify_with_attributes.
  rewrite (size_not_zero _ Hv), (size_not_zero _ Hi), Htarget. simpl.
  split; [reflexivity|]. split; [reflexivity|]. split; [reflexivity|]. split.
  - intros ->. by rewrite Z.eqb_refl.
  - intros d [Hd|[Hd|Hd]].
    + by apply simplified_dictionary_entries in Hd as (? & _).
    + by apply simplified_dictionary_entries in Hd as (? & _).
    + unfold simplify_with_attributes_at in Hd.
      destruct (simplified_dictionary _ _ _) as [d'|] eqn:Hd'; [|done].
      simpl in Hd. injection Hd as <-.
      apply simplified_dictionary_entries in Hd' as (? & _).
      by rewrite lookup_insert_ne.
Qed.

Lemma target_is_raised_never_rejected_witness :
  target_index_count (Z.of_nat (length Sample.square_indices)) Sample.half
    = Some (Z.max 3 3)
  /\ @simplify Sample.library Sample.square Sample.square_indices Sample.half Sample.one
     = @simplify_at Sample.library Sample.square Sample.square_indices (Z.max 3 3)
         Sample.one
  /\ @simplify_sloppy Sample.library Sample.square Sample.square_indices Sample.half
       Sample.one
     = @simplify_sloppy_at Sample.library Sample.square Sample.square_indices
         (Z.max 3 3) Sample.one
  /\ (length Sample.square_uvs = length Sample.square ->
      @simplify_with_attributes Sample.library Sample.square Sample.square_indices Sample.square_uvs
        Sample.half Sample.one Sample.one
      = @simplify_with_attributes_at Sample.library Sample.square Sample.square_indices
          Sample.square_uvs (Z.max 3 3) Sample.one Sample.one)
  /\ (forall d,
        @simplify_at Sample.library Sample.square Sample.square_indices (Z.max 3 3)
          Sample.one = Some d
        \/ @simplify_sloppy_at Sample.library Sample.square Sample.square_indices
             (Z.max 3 3) Sample.one = Some d
        \/ @simplify_with_attributes_at Sample.library Sample.square
             Sample.square_indices Sample.square_uvs (Z.max 3 3) Sample.one Sample.one = Some d ->
        d !! "error" = None).
Proof.
  apply (@target_is_raised_never_rejected Sample.library Sample.square
           Sample.square_indices Sample.square_uvs Sample.half Sample.one Sample.one 3).
  - discriminate.
  - discriminate.
  - vm_compute. reflexivity.
Defined.

(** ** What [weld_vertices] returns *)

Section WeldFacts.
Context `{lib : Meshopt}.

Lemma vector_after_write_length {A} (zero : A) n written buf :
  vector_after_write zero n written = Some buf ->
  0 <= n /\ length buf = Z.to_nat n /\ (length written <= length buf)%nat
  /\ buf = written ++ replicate (Z.to_nat n - length written) zero.
Proof.
  unfold vector_after_write.
  destruct (Z.leb_spec (Z.of_nat (length written)) n); [|done].
  intros [= <-]. rewrite length_app, length_replicate. repeat split; lia.
Qed.

Lemma vector_at_Some {A} (buf : list A) i a :
  vector_at buf i = Some a -> 0 <= i < Z.of_nat (length buf) /\ buf !! Z.to_nat i = Some a.
Proof.
  unfold vector_at. destruct (Z.leb_spec 0 i); [|done].
  intros Ha. split; [|done]. apply lookup_lt_Some in Ha. lia.
Qed.

Lemma remap_indices_Some remap indices new_indices :
  remap_indices remap indices = Some new_indices ->
  length new_indices = length indices
  /\ Forall (fun i => 0 <= i < Z.of_nat (length remap)) indices
  /\ forall k i, indices !! k = Some i ->
       exists j, remap !! Z.to_nat i = Some j /\ new_indices !! k = Some (to_int32 j).
Proof.
  unfold remap_indices. intros Hm. apply mapM_Some in Hm.
  split; [symmetry; by eapply Forall2_length|]. split.
  - apply Forall_forall. intros i Hi.
    apply list_elem_of_lookup in Hi as [k Hk].
    destruct (Forall2_lookup_l _ _ _ _ _ Hm Hk) as (y & _ & Hy).
    destruct (vector_at remap i) as [j|] eqn:Hj; [|done].
    by apply vector_at_Some in Hj as [? _].
  - intros k i Hk.
    destruct (Forall2_lookup_l _ _ _ _ _ Hm Hk) as (y & Hy & Hf).
    destruct (vector_at remap i) as [j|] eqn:Hj; [|done].
    apply vector_at_Some in Hj as [_ Hj]. simpl in Hf. injection Hf as <-.
    by exists j.
Qed.

(** The steps of a call of [weld_vertices] that returns. *)
Lemma weld_vertices_returns vertices indices threshold d :
  vertices <> [] ->
  weld_vertices vertices indices threshold = Some d ->
  exists remap remapped_vertices new_vertices new_indices,
    let generated :=
      meshopt_generateVertexRemap
        (if 0 <? Z.of_nat (length indices) then Some (to_index_data indices) else None)
        (if 0 <? Z.of_nat (length indices) then Z.of_nat (length indices)
         else Z.of_nat (length vertices))
        (to_vertex_data vertices) (Z.of_nat (length vertices)) 12 in
    vector_after_write 0 (Z.of_nat (length vertices)) generated.1 = Some remap
    /\ vector_after_write f32_zero (to_size_t (generated.2 * 3))
         (meshopt_remapVertexBuffer (to_vertex_data vertices)
            (Z.of_nat (length vertices)) 12 remap) = Some remapped_vertices
    /\ from_vertex_data remapped_vertices generated.2 = Some new_vertices
    /\ (if 0 <? Z.of_nat (length indices) then remap_indices remap indices else Some [])
       = Some new_indices
    /\ d = <["unique_count" := VInt (to_int32 generated.2)]>
           (<["original_count" := VInt (to_int32 (Z.of_nat (length vertices)))]>
           (<["indices" := VPackedInt32Array new_indices]>
           (<["vertices" := VPackedVector3Array new_vertices]> ∅))).
Proof.
  intros Hv. unfold weld_vertices. rewrite (size_not_zero _ Hv).
  destruct (meshopt_generateVertexRemap _ _ _ _ _) as [remap_written unique_count].
  simpl.
  destruct (vector_after_write 0 _ remap_written) as [remap|] eqn:Hremap; [|done].
  simpl.
  destruct (vector_after_write f32_zero _ _) as [remapped|] eqn:Hremapped; [|done].
  simpl.
  destruct (from_vertex_data remapped unique_count) as [new_vertices|] eqn:Hnew;
    [|done].
  simpl.
  destruct (if 0 <? Z.of_nat (length indices) then _ else _) as [new_indices|] eqn:Hn;
    [|done].
  simpl. intros [= <-]. exists remap, remapped, new_vertices, new_indices.
  repeat split; done.
Qed.

(** [weld_vertices] reads [remap[indices[i]]] unchecked: it returns only if
    every index is inside the vertex array. *)
Lemma weld_vertices_reads_in_range vertices indices threshold d :
  vertices <> [] ->
  weld_vertices vertices indices threshold = Some d ->
  Forall (fun i => 0 <= i < Z.of_nat (length vertices)) indices.
Proof.
  intros Hv Hd.
  apply (weld_vertices_returns _ _ _ _ Hv) in Hd
    as (remap & remapped & new_vertices & new_indices & Hremap & _ & _ & Hidx & _).
  apply vector_after_write_length in Hremap as (Hpos & Hlen & _).
  destruct (Z.ltb_spec 0 (Z.of_nat (length indices))) as [_|Hnone].
  - apply remap_indices_Some in Hidx as (_ & Hrange & _).
    eapply Forall_impl; [exact Hrange|]. intros i Hi. simpl in Hi. lia.
  - destruct indices; [constructor | simpl in Hnone; lia].
Qed.

(** The read-back loop of lines 406-412, cell by cell. *)
Lemma from_vertex_data_Some data count new_vertices :
  from_vertex_data data count = Some new_vertices ->
  length new_vertices = Z.to_nat count
  /\ forall k v, new_vertices !! k = Some v ->
       data !! (3 * k)%nat = Some (v3_x v)
       /\ data !! (3 * k + 1)%nat = Some (v3_y v)
       /\ data !! (3 * k + 2)%nat = Some (v3_z v).
Proof.
  unfold from_vertex_data. intros Hm. pose proof (length_mapM _ _ _ Hm) as Hlen.
  rewrite length_seqZ in Hlen. split; [done|].
  apply mapM_Some in Hm. intros k v Hk.
  destruct (Forall2_lookup_r _ _ _ _ _ Hm Hk) as (i & Hi & Hat).
  apply lookup_seqZ in Hi as [-> Hrange]. unfold vector3_at in Hat.
  destruct (vector_at data ((0 + Z.of_nat k) * 3 + 0)) as [vx|] eqn:Hx; [|done].
  destruct (vector_at data ((0 + Z.of_nat k) * 3 + 1)) as [vy|] eqn:Hy; [|done].
  destruct (vector_at data ((0 + Z.of_nat k) * 3 + 2)) as [vz|] eqn:Hz; [|done].
  simpl in Hat. injection Hat as <-. simpl.
  apply vector_at_Some in Hx as [_ Hx], Hy as [_ Hy], Hz as [_ Hz].
  replace (Z.to_nat ((0 + Z.of_nat k) * 3 + 0)) with (3 * k)%nat in Hx by lia.
  replace (Z.to_nat ((0 + Z.of_nat k) * 3 + 1)) with (3 * k + 1)%nat in Hy by lia.
  replace (Z.to_nat ((0 + Z.of_nat k) * 3 + 2)) with (3 * k + 2)%nat in Hz by lia.
  done.
Qed.

End WeldFacts.

(** ** Input validation *)

(** C3, as stated, fails: an index outside the vertex array, or an index
    buffer that is not made of whole triangles, is not reported.  [simplify]
    on four vertices and the indices 0, 1, 7, and [simplify_sloppy] on four
    indices, return an ordinary result with no error entry. *)
Lemma invalid_indices_are_not_reported :
  (@simplify Sample.library Sample.square [0; 1; 7] Sample.one Sample.one
     ≫= fun d => Some (d !! "error", d !! "indices"))
  = Some (None, Some (VPackedInt32Array [0; 1; 7]))
  /\ (@simplify_sloppy Sample.library Sample.square [0; 1; 2; 3] Sample.one Sample.one
        ≫= fun d => Some (d !! "error", d !! "indices"))
     = Some (None, Some (VPackedInt32Array [0; 1; 2])).
Proof. split; vm_compute; reflexivity. Qed.

Section InputFacts.
Context `{lib : Meshopt}.

(** The cast of line 66 on an [int32] value: the value itself, or the value
    plus [2 ^ 32] when it is negative. *)
Lemma to_index_data_int32 indices :
  packed_int32 indices ->
  to_index_data indices = map (fun i => if i <? 0 then i + 2 ^ 32 else i) indices.
Proof.
  intros Hint. unfold to_index_data. apply map_ext_Forall.
  eapply Forall_impl; [exact Hint|]. intros i Hi. unfold is_int32 in Hi. simpl.
  unfold to_uint32. destruct (Z.ltb_spec i 0).
  - symmetry. apply Z.mod_unique with (-1); lia.
  - apply Z.mod_small. lia.
Qed.

End InputFacts.

(** C3, amended: the binding validates emptiness only.  A result of
    [simplify], [simplify_with_attributes] or [simplify_sloppy] has an
    ["error"] entry exactly when the vertex array or the index array is empty,
    and a result of [weld_vertices] exactly when the vertex array is empty.
    On non-empty input the three simplifiers hand the whole index buffer to
    the library unchecked: every [int32] value as the [unsigned int] of the
    same bits, a value that is not negative unchanged whatever the vertex
    count, with the length of the buffer as index count whether or not it is
    divisible by 3. *)
Theorem only_emptiness_is_reported `{lib : Meshopt} (vertices : list Vector3)
    (indices : list Z) (uvs : list Vector2)
    (target_ratio target_error uv_weight threshold : float) :
  (forall d,
     simplify vertices indices target_ratio target_error = Some d
     \/ simplify_with_attributes vertices indices uvs target_ratio target_error
          uv_weight = Some d
     \/ simplify_sloppy vertices indices target_ratio target_error = Some d ->
     (is_Some (d !! "error") <-> vertices = [] \/ indices = []))
  /\ (forall d,
        weld_vertices vertices indices threshold = Some d ->
        (is_Some (d !! "error") <-> vertices = []))
  /\ (vertices <> [] -> indices <> [] -> packed_int32 indices ->
      let index_count := Z.of_nat (length indices) in
      let vertex_count := Z.of_nat (length vertices) in
      let handed := map (fun i => if i <? 0 then i + 2 ^ 32 else i) indices in
      simplify vertices indices target_ratio target_error
      = (target ← target_index_count index_count target_ratio;
         simplified_dictionary vertices index_count
           (meshopt_simplify handed index_count (to_vertex_data vertices)
              vertex_count 12 target target_error 0))
      /\ simplify_sloppy vertices indices target_ratio target_error
         = (target ← target_index_count index_count target_ratio;
            simplified_dictionary vertices index_count
              (meshopt_simplifySloppy handed index_count (to_vertex_data vertices)
                 vertex_count 12 target target_error))
      /\ (length uvs = length vertices ->
          simplify_with_attributes vertices indices uvs target_ratio target_error
            uv_weight
          = (target ← target_index_count index_count target_ratio;
             d ← simplified_dictionary vertices index_count
                   (meshopt_simplifyWithAttributes handed index_count
                      (to_vertex_data vertices) vertex_count 12 (to_uv_data uvs) 8
                      [uv_weight] 1 None target target_error 0);
             Some (<["uvs" := VPackedVector2Array uvs]> d)))).
Proof.
  split; [|split].
  - intros d Hd.
    destruct ((Z.of_nat (length vertices) =? 0) || (Z.of_nat (length indices) =? 0))
      eqn:Hempty.
    + assert (vertices = [] \/ indices = []) as Hor.
      { apply orb_true_iff in Hempty. by rewrite !size_is_zero in Hempty. }
      split; [done|]. intros _.
      unfold simplify, simplify_with_attributes, simplify_sloppy in Hd.
      rewrite Hempty in Hd.
      assert (d = empty_input) as -> by (destruct Hd as [Hd|[Hd|Hd]]; congruence).
      by eexists.
    + assert (~ (vertices = [] \/ indices = [])) as Hnot.
      { intros Hor. apply not_true_iff_false in Hempty. apply Hempty.
        apply orb_true_iff. by rewrite !size_is_zero. }
      split; [|done]. intros [x Hx]. exfalso.
      unfold simplify, simplify_with_attributes, simplify_sloppy, simplify in Hd.
      rewrite Hempty in Hd.
      destruct (target_index_count _ _) as [target|]; simpl in Hd;
        [|by destruct Hd as [?|[?|?]]].
      assert (d !! "error" = None) as Hnone; [|by rewrite Hnone in Hx].
      destruct Hd as [Hd|[Hd|Hd]].
      * by apply simplified_dictionary_entries in Hd as (? & _).
      * destruct (Z.of_nat (length uvs) =? Z.of_nat (length vertices)).
        -- unfold simplify_with_attributes_at in Hd.
           destruct (simplified_dictionary _ _ _) as [d'|] eqn:Hd'; [|done].
           simpl in Hd. injection Hd as <-.
           apply simplified_dictionary_entries in Hd' as (? & _).
           by rewrite lookup_insert_ne.
        -- by apply simplified_dictionary_entries in Hd as (? & _).
      * by apply simplified_dictionary_entries in Hd as (? & _).
  - intros d Hd. destruct vertices as [|v vertices].
    + injection Hd as <-. split; [done|]. intros _. by eexists.
    + split; [|done]. intros [x Hx]. exfalso.
      apply weld_vertices_returns in Hd
        as (remap & remapped & new_vertices & new_indices & _ & _ & _ & _ & ->);
        [|done].
      by simplify_map_eq.
  - intros Hv Hi Hint. simpl.
    rewrite <- (to_index_data_int32 _ Hint).
    unfold simplify, simplify_sloppy, simplify_with_attributes.
    rewrite (size_not_zero _ Hv), (size_not_zero _ Hi). simpl.
    split; [done|]. split; [done|]. intros Huvs.
    destruct (target_index_count _ _) as [target|]; simpl; [|done].
    by rewrite Huvs, Z.eqb_refl.
Qed.

Lemma only_emptiness_is_reported_witness :
  match @simplify Sample.library Sample.square [0; 1; 7; 2] Sample.one Sample.one with
  | Some d => is_Some (d !! "error") <-> Sample.square = [] \/ [0; 1; 7; 2] = []
  | None => False
  end
  /\ match @weld_vertices Sample.library [Sample.origin; Sample.east] [0; 1; 1; 0]
             Sample.one with
     | Some d => is_Some (d !! "error") <-> [Sample.origin; Sample.east] = []
     | None => False
     end
  /\ @simplify Sample.library Sample.square [0; 1; 7; 2] Sample.one Sample.one
     = (target ← target_index_count 4 Sample.one;
        simplified_dictionary Sample.square 4
          (@meshopt_simplify Sample.library [0; 1; 7; 2] 4
             (to_vertex_data Sample.square) 4 12 target Sample.one 0)).
Proof.
  split; [|split].
  - destruct (@simplify Sample.library Sample.square [0; 1; 7; 2] Sample.one Sample.one)
      as [d|] eqn:Hd.
    + apply (@only_emptiness_is_reported Sample.library Sample.square [0; 1; 7; 2]
               Sample.square_uvs Sample.one Sample.one Sample.one Sample.one).
      left. exact Hd.
    + assert (is_Some (@simplify Sample.library Sample.square [0; 1; 7; 2] Sample.one
                         Sample.one)) as [d Hsome]
        by (apply (bool_decide_unpack _); vm_compute; reflexivity).
      rewrite Hd in Hsome. discriminate Hsome.
  - destruct (@weld_vertices Sample.library [Sample.origin; Sample.east] [0; 1; 1; 0]
                Sample.one) as [d|] eqn:Hd.
    + by apply (@only_emptiness_is_reported Sample.library [Sample.origin; Sample.east]
                  [0; 1; 1; 0] [] Sample.one Sample.one Sample.one Sample.one).
    + assert (is_Some (@weld_vertices Sample.library [Sample.origin; Sample.east]
                         [0; 1; 1; 0] Sample.one)) as [d Hsome]
        by (apply (bool_decide_unpack _); vm_compute; reflexivity).
      rewrite Hd in Hsome. discriminate Hsome.
  - apply (@only_emptiness_is_reported Sample.library Sample.square [0; 1; 7; 2]
             Sample.square_uvs Sample.one Sample.one Sample.one Sample.one).
    + discriminate.
    + discriminate.
    + unfold packed_int32, is_int32. repeat constructor; lia.
Defined.

(** ** The entries of a weld *)

(** C4, as stated, fails: the result of [weld_vertices] has four entries and
    none of them is the remap table.  Welding [origin; origin; east] builds
    the table [0; 0; 1], which no entry holds. *)
Lemma weld_result_has_no_remap_table :
  (Engine.generate_vertex_remap [Sample.origin; Sample.origin; Sample.east] None
     f32_zero).1 = [0; 0; 1]
  /\ (@weld_vertices Sample.library [Sample.origin; Sample.origin; Sample.east] []
        Sample.one ≫= fun d => Some (holds_value d (VPackedInt32Array [0; 0; 1])))
     = Some false
  /\ (@weld_vertices Sample.library [Sample.origin; Sample.origin; Sample.east] []
        Sample.one ≫= fun d => Some (d !! "remap")) = Some None.
Proof. repeat split; vm_compute; reflexivity. Qed.

(** C4, amended: for a non-empty vertex buffer on which [weld_vertices]
    returns, the result has exactly the entries ["vertices"], ["indices"],
    ["original_count"] and ["unique_count"].  ["unique_count"] is the count
    [meshopt_generateVertexRemap] returned and ["original_count"] the vertex
    count, both cast to [int]; ["vertices"] holds that many positions, each
    read back from three cells of the buffer [meshopt_remapVertexBuffer]
    wrote; ["indices"] is as long as the index buffer supplied (empty when
    none was) and holds, for every index [i], the entry [remap[i]] of the
    remap table cast to [int32].  The remap table itself is a local of the
    call and is not part of the result. *)
Theorem weld_vertices_entries `{lib : Meshopt} (vertices : list Vector3)
    (indices : list Z) (threshold : float) (d : Dictionary) :
  vertices <> [] ->
  weld_vertices vertices indices threshold = Some d ->
  let vertex_count := Z.of_nat (length vertices) in
  let generated :=
    meshopt_generateVertexRemap
      (if 0 <? Z.of_nat (length indices) then Some (to_index_data indices) else None)
      (if 0 <? Z.of_nat (length indices) then Z.of_nat (length indices)
       else vertex_count)
      (to_vertex_data vertices) vertex_count 12 in
  exists remap remapped new_vertices new_indices,
    vector_after_write 0 vertex_count generated.1 = Some remap
    /\ vector_after_write f32_zero (to_size_t (generated.2 * 3))
         (meshopt_remapVertexBuffer (to_vertex_data vertices) vertex_count 12 remap)
       = Some remapped
    /\ d = <["unique_count" := VInt (to_int32 generated.2)]>
           (<["original_count" := VInt (to_int32 vertex_count)]>
           (<["indices" := VPackedInt32Array new_indices]>
           (<["vertices" := VPackedVector3Array new_vertices]> ∅)))
    /\ dom d = {[ "vertices"; "indices"; "original_count"; "unique_count" ]}
    /\ length new_vertices = Z.to_nat generated.2
    /\ (forall k v, new_vertices !! k = Some v ->
          remapped !! (3 * k)%nat = Some (v3_x v)
          /\ remapped !! (3 * k + 1)%nat = Some (v3_y v)
          /\ remapped !! (3 * k + 2)%nat = Some (v3_z v))
    /\ length new_indices = length indices
    /\ (forall k i, indices !! k = Some i ->
          exists j, vector_at remap i = Some j /\ new_indices !! k = Some (to_int32 j)).
Proof.
  intros Hv Hd. simpl.
  apply (weld_vertices_returns _ _ _ _ Hv) in Hd
    as (remap & remapped & new_vertices & new_indices & Hremap & Hremapped & Hnew
        & Hidx & ->).
  exists remap, remapped, new_vertices, new_indices.
  apply from_vertex_data_Some in Hnew as [Hlen Hcells].
  split; [done|]. split; [done|]. split; [done|]. split.
  { rewrite !dom_insert_L, dom_empty_L. set_solver. }
  split; [done|]. split; [done|].
  destruct (Z.ltb_spec 0 (Z.of_nat (length indices))) as [_|Hnone].
  - apply remap_indices_Some in Hidx as (Hlength & Hrange & Hlookup).
    split; [done|]. intros k i Hk.
    destruct (Hlookup k i Hk) as (j & Hj & Hnewk). exists j. split; [|done].
    rewrite Forall_forall in Hrange.
    assert (0 <= i) as Hi by (apply Hrange; by eapply list_elem_of_lookup_2).
    unfold vector_at. by destruct (Z.leb_spec 0 i); [|lia].
  - injection Hidx as <-. destruct indices as [|i indices]; [|simpl in Hnone; lia].
    split; [done|]. intros k i Hk. by rewrite lookup_nil in Hk.
Qed.

Lemma weld_vertices_entries_witness :
  let vertices := [Sample.origin; Sample.half_east; Sample.origin] in
  let indices := [0; 1; 2] in
  let d : Dictionary :=
    <["unique_count" := VInt 2]>
      (<["original_count" := VInt 3]>
      (<["indices" := VPackedInt32Array [0; 1; 0]]>
      (<["vertices" := VPackedVector3Array [Sample.origin; Sample.half_east]]> ∅))) in
  let generated :=
    @meshopt_generateVertexRemap Sample.library (Some (to_index_data indices)) 3
      (to_vertex_data vertices) 3 12 in
  exists remap remapped new_vertices new_indices,
    vector_after_write 0 3 generated.1 = Some remap
    /\ vector_after_write f32_zero (to_size_t (generated.2 * 3))
         (@meshopt_remapVertexBuffer Sample.library (to_vertex_data vertices) 3 12 remap)
       = Some remapped
    /\ d = <["unique_count" := VInt (to_int32 generated.2)]>
           (<["original_count" := VInt (to_int32 3)]>
           (<["indices" := VPackedInt32Array new_indices]>
           (<["vertices" := VPackedVector3Array new_vertices]> ∅)))
    /\ dom d = {[ "vertices"; "indices"; "original_count"; "unique_count" ]}
    /\ length new_vertices = Z.to_nat generated.2
    /\ (forall k v, new_vertices !! k = Some v ->
          remapped !! (3 * k)%nat = Some (v3_x v)
          /\ remapped !! (3 * k + 1)%nat = Some (v3_y v)
          /\ remapped !! (3 * k + 2)%nat = Some (v3_z v))
    /\ length new_indices = length indices
    /\ (forall k i, indices !! k = Some i ->
          exists j, vector_at remap i = Some j /\ new_indices !! k = Some (to_int32 j)).
Proof.
  apply (@weld_vertices_entries Sample.library
           [Sample.origin; Sample.half_east; Sample.origin] [0; 1; 2] Sample.one).
  - discriminate.
  - vm_compute. reflexivity.
Defined.

(** * Properties of the engine *)

Section TriangleFacts.

Lemma triangles_flatten ts : triangles (flatten_triangles ts) = ts.
Proof.
  induction ts as [|[[a b] c] ts IH]; simpl; [done|]. by rewrite IH.
Qed.

Lemma length_flatten_triangles ts :
  length (flatten_triangles ts) = (3 * length ts)%nat.
Proof.
  induction ts as [|[[a b] c] ts IH]; simpl; [done|]. rewrite IH. lia.
Qed.

Lemma triangles_by_threes n : forall indices,
  length indices = (3 * n)%nat ->
  flatten_triangles (triangles indices) = indices /\ length (triangles indices) = n.
Proof.
  induction n as [|n IH]; intros indices Hlen.
  - destruct indices; [done | simpl in Hlen; lia].
  - destruct indices as [|a [|b [|c rest]]]; simpl in Hlen; try lia.
    destruct (IH rest) as [Hflat Hcount]; [lia|].
    simpl. by rewrite Hflat, Hcount.
Qed.

Lemma length_triangles_le : forall n indices,
  (length indices <= n)%nat -> (3 * length (triangles indices) <= length indices)%nat.
Proof.
  induction n as [|n IH]; intros indices Hlen.
  - destruct indices; simpl in *; lia.
  - destruct indices as [|a [|b [|c rest]]]; simpl in *; try lia.
    specialize (IH rest). lia.
Qed.

Lemma valid_index_buffer_triangles indices vertex_count :
  valid_index_buffer indices vertex_count ->
  flatten_triangles (triangles indices) = indices
  /\ (3 * length (triangles indices) = length indices)%nat.
Proof.
  intros [Hmod _].
  destruct (triangles_by_threes (length indices / 3) indices) as [Hflat Hcount].
  - pose proof (Nat.div_mod_eq (length indices) 3). lia.
  - split; [done|]. rewrite Hcount.
    pose proof (Nat.div_mod_eq (length indices) 3). lia.
Qed.

End TriangleFacts.

Section SimplifierFacts.
Variable metrics : Metrics.

Lemma collapse_shrinks ts e : (length (Engine.collapse ts e) <= length ts)%nat.
Proof.
  unfold Engine.collapse.
  etransitivity; [apply List.filter_length_le|]. by rewrite length_map.
Qed.

Lemma collapse_loop_shrinks fuel target target_error :
  forall quadrics ts error,
    (length (Engine.collapse_loop metrics fuel target target_error quadrics ts
               error).1 <= length ts)%nat.
Proof.
  induction fuel as [|fuel IH]; intros quadrics ts error; simpl; [done|].
  destruct (3 * Z.of_nat (length ts) <=? target); [done|].
  destruct (Engine.pop_lowest _) as [c|]; [|done].
  destruct (f32_ltb target_error (Engine.cc_error c)); [done|].
  etransitivity; [apply IH|]. apply collapse_shrinks.
Qed.

Lemma pop_lowest_elem cs c : Engine.pop_lowest cs = Some c -> c ∈ cs.
Proof.
  destruct cs as [|c0 rest]; simpl; [done|]. intros [= <-].
  revert c0. induction rest as [|c' rest IH]; intros c0; simpl; [left|].
  destruct (Engine.before c' c0).
  - right. apply IH.
  - specialize (IH c0). apply elem_of_cons in IH as [->|Hin]; [left | by right; right].
Qed.

Lemma candidates_elem quadrics target ts c :
  c ∈ Engine.candidates metrics quadrics target ts ->
  Engine.cc_edge c ∈ Engine.edges ts
  /\ fst (Engine.cc_edge c) <> snd (Engine.cc_edge c).
Proof.
  unfold Engine.candidates. intros Hin.
  apply list_elem_of_fmap in Hin as (e & -> & He). simpl.
  apply list_elem_of_In, filter_In in He as [He Htest].
  apply andb_true_iff in Htest as [Htest _]. apply andb_true_iff in Htest as [Hne _].
  split; [by apply list_elem_of_In|].
  apply negb_true_iff, Z.eqb_neq in Hne. exact Hne.
Qed.

Lemma filter_drops {A} (f : A -> bool) (l : list A) x :
  x ∈ l -> f x = false -> (length (List.filter f l) < length l)%nat.
Proof.
  induction l as [|y l IH]; intros Hin Hx; [by apply elem_of_nil in Hin|].
  simpl. pose proof (List.filter_length_le f l).
  apply elem_of_cons in Hin as [<-|Hin].
  - rewrite Hx. lia.
  - specialize (IH Hin Hx). destruct (f y); simpl; lia.
Qed.

(** Collapsing an edge of the mesh removes at least the triangle it came
    from. *)
Lemma collapse_removes ts e :
  e ∈ Engine.edges ts -> fst e <> snd e ->
  (length (Engine.collapse ts e) < length ts)%nat.
Proof.
  intros Hedge Hne. unfold Engine.edges in Hedge.
  apply list_elem_of_In, in_flat_map in Hedge as ([[a b] c] & Ht & He).
  unfold Engine.collapse.
  rewrite <- (length_map (map_triangle (Engine.substitute (snd e) (fst e))) ts).
  apply (filter_drops _ _
           (map_triangle (Engine.substitute (snd e) (fst e)) (a, b, c))).
  - apply list_elem_of_In, in_map, Ht.
  - apply negb_false_iff. unfold Engine.degenerate, Engine.substitute. simpl.
    destruct He as [<-|[<-|[<-|[]]]]; simpl; rewrite !Z.eqb_refl;
      repeat match goal with
             | |- context [if ?x =? ?y then _ else _] => destruct (x =? y)
             end;
      rewrite ?Z.eqb_refl, ?orb_true_r.
    all: done.
Qed.

Lemma collapse_loop_nil fuel target target_error quadrics error :
  Engine.collapse_loop metrics fuel target target_error quadrics [] error = ([], error).
Proof.
  destruct fuel; simpl; [done|]. by destruct (_ <=? target).
Qed.

(** The triangle count is fuel enough: more fuel changes nothing. *)
Lemma collapse_loop_fuel target target_error : forall fuel fuel' quadrics ts error,
  (length ts <= fuel)%nat -> (length ts <= fuel')%nat ->
  Engine.collapse_loop metrics fuel target target_error quadrics ts error
  = Engine.collapse_loop metrics fuel' target target_error quadrics ts error.
Proof.
  induction fuel as [|fuel IH]; intros fuel' quadrics ts error Hfuel Hfuel'.
  - destruct ts; [|simpl in Hfuel; lia]. by rewrite !collapse_loop_nil.
  - destruct fuel' as [|fuel'].
    + destruct ts; [|simpl in Hfuel'; lia]. by rewrite !collapse_loop_nil.
    + simpl. destruct (3 * Z.of_nat (length ts) <=? target); [done|].
      destruct (Engine.pop_lowest _) as [c|] eqn:Hpop; [|done].
      destruct (f32_ltb target_error (Engine.cc_error c)); [done|].
      apply pop_lowest_elem, candidates_elem in Hpop as [Hedge Hne].
      pose proof (collapse_removes _ _ Hedge Hne).
      apply IH; lia.
Qed.

Lemma simplify_output_bounds positions attributes indices target target_error :
  (length (Engine.simplify metrics positions attributes indices target
             target_error).1 <= length indices)%nat
  /\ (length (Engine.simplify metrics positions attributes indices target
                target_error).1 mod 3 = 0)%nat.
Proof.
  unfold Engine.simplify.
  pose proof (collapse_loop_shrinks (length (triangles indices))
                (Engine.clamp_target (Z.of_nat (length indices)) target)
                target_error
                (build_quadrics metrics positions attributes (triangles indices))
                (triangles indices) f32_zero) as Hshrink.
  destruct (Engine.collapse_loop _ _ _ _ _ _ _) as [ts' error].
  simpl in Hshrink. cbn -[Nat.modulo Nat.mul].
  rewrite length_flatten_triangles.
  pose proof (length_triangles_le _ indices (Nat.le_refl _)).
  split; [lia|]. rewrite Nat.mul_comm. apply Nat.Div0.mod_mul.
Qed.

Lemma simplify_sloppy_output_bounds positions indices target target_error :
  (length (Engine.simplify_sloppy metrics positions indices target
             target_error).1 <= length indices)%nat
  /\ (length (Engine.simplify_sloppy metrics positions indices target
                target_error).1 mod 3 = 0)%nat.
Proof.
  unfold Engine.simplify_sloppy. cbn -[Nat.modulo Nat.mul].
  rewrite length_flatten_triangles.
  pose proof (length_triangles_le _ indices (Nat.le_refl _)).
  pose proof (List.filter_length_le
                (fun t => negb (Engine.degenerate t))
                (map (map_triangle
                        (cluster metrics positions (triangles indices)
                           (Engine.clamp_target (Z.of_nat (length indices)) target)
                           target_error))
                     (triangles indices))) as Hfilter.
  rewrite length_map in Hfilter.
  split; [lia|]. rewrite Nat.mul_comm. apply Nat.Div0.mod_mul.
Qed.

Lemma output_within_bounds (out : list Z) (error : float) (indices : list Z) :
  (length out <= length indices)%nat -> (length out mod 3 = 0)%nat ->
  within_bounds (Z.of_nat (length indices))
    (mkSimplifyOutput out (Z.of_nat (length out)) error).
Proof.
  intros Hle Hmod. unfold within_bounds. simpl.
  split; [lia|]. split; [lia|].
  change 3 with (Z.of_nat 3). rewrite <- Nat2Z.inj_mod, Hmod. done.
Qed.

End SimplifierFacts.

Section CacheOptimizerFacts.
Variable metrics : Metrics.

Lemma best_of_elem value t rest : Engine.best_of value t rest ∈ t :: rest.
Proof.
  revert t. induction rest as [|t' rest IH]; intros t; simpl.
  - left.
  - destruct (value t <? value t').
    + right. apply IH.
    + specialize (IH t). apply elem_of_cons in IH as [->|Hin].
      * left.
      * right. by right.
Qed.

Lemma select_elem cache remaining t :
  Engine.select metrics cache remaining = Some t -> t ∈ remaining.
Proof.
  unfold Engine.select.
  destruct (List.filter _ remaining) as [|t0 cached] eqn:Hcached.
  - destruct remaining as [|t1 rest]; [done|]. intros [= <-]. apply best_of_elem.
  - intros [= <-].
    pose proof (best_of_elem (Engine.score metrics cache remaining) t0 cached) as Hin.
    rewrite <- Hcached in Hin. apply list_elem_of_In, filter_In in Hin as [Hin _].
    by apply list_elem_of_In.
Qed.

Lemma select_None cache remaining :
  Engine.select metrics cache remaining = None -> remaining = [].
Proof.
  unfold Engine.select.
  destruct (List.filter _ remaining) as [|t0 cached]; [|done].
  by destruct remaining.
Qed.

Lemma remove_first_perm t ts :
  t ∈ ts -> Permutation ts (t :: Engine.remove_first t ts).
Proof.
  induction ts as [|t' ts IH]; intros Hin; [by apply elem_of_nil in Hin|].
  simpl. case_bool_decide as Heq.
  - by subst.
  - apply elem_of_cons in Hin as [->|Hin]; [done|].
    rewrite (IH Hin) at 1. apply perm_swap.
Qed.

(** The greedy loop emits every triangle once. *)
Lemma reorder_perm fuel : forall cache remaining,
  (length remaining <= fuel)%nat ->
  Permutation (Engine.reorder metrics fuel cache remaining) remaining.
Proof.
  induction fuel as [|fuel IH]; intros cache remaining Hfuel; simpl.
  - destruct remaining; [done | simpl in Hfuel; lia].
  - destruct (Engine.select metrics cache remaining) as [t|] eqn:Hselect.
    + pose proof (remove_first_perm t remaining (select_elem _ _ _ Hselect)) as Hperm.
      rewrite Hperm at 2. apply perm_skip, IH.
      apply Permutation_length in Hperm. simpl in Hperm. lia.
    + by rewrite (select_None _ _ Hselect).
Qed.

Lemma optimize_vertex_cache_perm indices vertex_count :
  Permutation
    (triangles (Engine.optimize_vertex_cache metrics indices vertex_count))
    (triangles indices)
  /\ length (Engine.optimize_vertex_cache metrics indices vertex_count)
     = (3 * length (triangles indices))%nat.
Proof.
  unfold Engine.optimize_vertex_cache.
  pose proof (reorder_perm (length (triangles indices)) [] (triangles indices)
                (Nat.le_refl _)) as Hperm.
  rewrite triangles_flatten, length_flatten_triangles.
  split; [done|]. by rewrite (Permutation_length Hperm).
Qed.

End CacheOptimizerFacts.

Section RemapFacts.

Lemma vertices_of_to_vertex_data vertices :
  vertices_of_data (to_vertex_data vertices) = vertices.
Proof.
  induction vertices as [|[vx vy vz] vertices IH]; simpl; [done|]. by rewrite IH.
Qed.

Lemma find_canonical_Some canonical v : forall j0 j,
  Engine.find_canonical f32_zero canonical v j0 = Some j ->
  exists k, j = j0 + Z.of_nat k /\ canonical !! k = Some v.
Proof.
  induction canonical as [|c rest IH]; intros j0 j; simpl; [done|].
  case_bool_decide as Heq.
  - intros [= <-]. exists 0%nat. split; [lia | by subst].
  - intros Hfind. destruct (IH _ _ Hfind) as (k & -> & Hk).
    exists (S k). split; [lia | done].
Qed.

(** At tolerance 0 the pass keeps the canonical vertices met so far and
    sends every vertex to a canonical vertex at its own position; every
    canonical vertex it adds is the image of some vertex. *)
Lemma build_remap_exact vertices : forall canonical remap canonical',
  Engine.build_remap f32_zero canonical vertices = (remap, canonical') ->
  length remap = length vertices
  /\ (exists extra, canonical' = canonical ++ extra
                    /\ (forall v, v ∈ extra -> v ∈ vertices)
                    /\ (length extra <= length vertices)%nat)
  /\ (forall k v, vertices !! k = Some v ->
        exists j, remap !! k = Some j /\ 0 <= j /\ canonical' !! Z.to_nat j = Some v)
  /\ (forall i, (length canonical <= i < length canonical')%nat ->
        exists k, remap !! k = Some (Z.of_nat i)).
Proof.
  induction vertices as [|v rest IH]; intros canonical remap canonical'; simpl.
  - intros [= <- <-]. split; [done|]. split.
    + exists []. rewrite app_nil_r. split; [done|]. split; [|done].
      intros v Hv. by apply elem_of_nil in Hv.
    + split; [done|]. intros i Hi. lia.
  - destruct (Engine.find_canonical f32_zero canonical v 0) as [j|] eqn:Hfind.
    + destruct (Engine.build_remap f32_zero canonical rest) as [rm c'] eqn:Hbuild.
      intros [= <- <-].
      destruct (IH _ _ _ Hbuild) as (Hlen & (extra & -> & Hextra & Hle) & Hexact & Hhit).
      apply find_canonical_Some in Hfind as (k0 & -> & Hk0).
      split; [simpl; lia|]. split; [|split].
      * exists extra. split; [done|]. split; [|lia].
        intros w Hw. right. by apply Hextra.
      * intros [|k] w Hw; simpl in Hw.
        -- injection Hw as <-. exists (0 + Z.of_nat k0). split; [done|].
           split; [lia|]. rewrite Z.add_0_l, Nat2Z.id.
           by apply lookup_app_l_Some.
        -- destruct (Hexact _ _ Hw) as (j & Hj & Hpos & Hc). by exists j.
      * intros i Hi. destruct (Hhit i Hi) as [k Hk]. by exists (S k).
    + destruct (Engine.build_remap f32_zero (canonical ++ [v]) rest) as [rm c']
        eqn:Hbuild.
      intros [= <- <-].
      destruct (IH _ _ _ Hbuild) as (Hlen & (extra & -> & Hextra & Hle) & Hexact & Hhit).
      split; [simpl; lia|]. split; [|split].
      * exists (v :: extra). rewrite <- app_assoc. split; [done|]. split; [|simpl; lia].
        intros w Hw. apply elem_of_cons in Hw as [->|Hw]; [left | right; by apply Hextra].
      * intros [|k] w Hw; simpl in Hw.
        -- injection Hw as <-. exists (Z.of_nat (length canonical)). split; [done|].
           split; [lia|]. rewrite Nat2Z.id, <- app_assoc. simpl.
           by rewrite list_lookup_middle.
        -- destruct (Hexact _ _ Hw) as (j & Hj & Hpos & Hc). by exists j.
      * intros i Hi. rewrite !length_app in *. simpl in *.
        destruct (decide (i = length canonical)) as [->|Hne].
        -- by exists 0%nat.
        -- destruct (Hhit i) as [k Hk]; [lia|].
           by exists (S k).
Qed.

Lemma unique_count_of_bounds remap :
  0 <= Engine.unique_count_of remap
  /\ (forall j, j ∈ remap -> j + 1 <= Engine.unique_count_of remap)
  /\ (forall n, 0 <= n -> Forall (fun j => j < n) remap ->
        Engine.unique_count_of remap <= n).
Proof.
  induction remap as [|j remap (IHpos & IHelem & IHbound)]; simpl.
  - split; [done|]. split; [|by intros].
    intros j Hj. by apply elem_of_nil in Hj.
  - split; [lia|]. split.
    + intros j' Hj'. apply elem_of_cons in Hj' as [->|Hj']; [lia|].
      specialize (IHelem _ Hj'). lia.
    + intros n Hn Hall. apply Forall_cons in Hall as [Hj Hall].
      specialize (IHbound n Hn Hall). lia.
Qed.

Lemma length_scatter vertices : forall remap destination,
  length (Engine.scatter vertices remap destination) = length destination.
Proof.
  induction vertices as [|v vertices IH]; intros [|j remap] destination; simpl;
    try done.
  by rewrite length_insert.
Qed.

(** A cell of the scattered buffer holds the vertex the target holds there,
    or was never written. *)
Lemma scatter_lookup target vertices : forall remap destination,
  length destination = length target ->
  (forall k v j, vertices !! k = Some v -> remap !! k = Some j ->
     0 <= j /\ target !! Z.to_nat j = Some v) ->
  forall i,
    Engine.scatter vertices remap destination !! i = target !! i
    \/ (Engine.scatter vertices remap destination !! i = destination !! i
        /\ forall k j, (k < length vertices)%nat -> remap !! k = Some j ->
             Z.to_nat j <> i).
Proof.
  induction vertices as [|v vertices IH]; intros remap destination Hlen Hagree i.
  - right. split; [done|]. simpl. lia.
  - destruct remap as [|j remap]; simpl.
    + right. split; [done|]. by intros k j _ Hk.
    + destruct (Hagree 0%nat v j) as [Hpos Hv]; [done | done |].
      destruct (decide (Z.to_nat j = i)) as [<-|Hne].
      * left. rewrite Hv. apply list_lookup_insert_eq.
        rewrite length_scatter, Hlen. by eapply lookup_lt_Some.
      * rewrite list_lookup_insert_ne by done.
        destruct (IH remap destination Hlen) with (i := i) as [Hleft|[Hsame Hfree]].
        { intros k w j' Hw Hj'. by apply (Hagree (S k)). }
        { by left. }
        right. split; [done|].
        intros [|k] j' Hk Hj'; simpl in *.
        -- by injection Hj' as <-.
        -- apply (Hfree k); [lia | done].
Qed.

Lemma generate_then_remap vertices indices :
  let '(remap, unique_count) :=
    Engine.generate_vertex_remap vertices indices f32_zero in
  length remap = length vertices
  /\ Z.of_nat (length (Engine.remap_vertex_buffer vertices remap)) = unique_count
  /\ unique_count <= Z.of_nat (length vertices)
  /\ (forall k v, vertices !! k = Some v ->
        exists j, remap !! k = Some j /\ 0 <= j
                  /\ Engine.remap_vertex_buffer vertices remap !! Z.to_nat j = Some v)
  /\ (forall v, v ∈ Engine.remap_vertex_buffer vertices remap -> v ∈ vertices).
Proof.
  unfold Engine.generate_vertex_remap.
  destruct (Engine.build_remap f32_zero [] vertices) as [remap canonical] eqn:Hbuild.
  destruct (build_remap_exact _ _ _ _ Hbuild)
    as (Hlen & (extra & Hextra & Hsub & Hle) & Hexact & Hhit).
  simpl in Hextra. subst extra.
  destruct (unique_count_of_bounds remap) as (Hpos & Helem & Hbound).
  assert (Engine.unique_count_of remap = Z.of_nat (length canonical)) as Hcount.
  { apply Z.le_antisymm.
    - apply Hbound; [lia|]. apply Forall_forall. intros j Hj.
      apply list_elem_of_lookup in Hj as [k Hk].
      destruct (lookup_lt_is_Some_2 vertices k) as [v Hv].
      { rewrite <- Hlen. by eapply lookup_lt_Some. }
      destruct (Hexact _ _ Hv) as (j' & Hj' & Hj'pos & Hc).
      rewrite Hk in Hj'. injection Hj' as <-.
      apply lookup_lt_Some in Hc. lia.
    - destruct canonical as [|c canonical _] using rev_ind; [simpl; lia|].
      rewrite length_app in *. simpl in *.
      destruct (Hhit (length canonical)) as [k Hk]; [lia|].
      apply list_elem_of_lookup_2, Helem in Hk. lia. }
  assert (Engine.remap_vertex_buffer vertices remap = canonical) as Hbuffer.
  { unfold Engine.remap_vertex_buffer. apply list_eq. intros i.
    destruct (scatter_lookup canonical vertices remap
                (replicate (Z.to_nat (Engine.unique_count_of remap)) Engine.zero3))
      with (i := i) as [Hleft|[Hsame Hfree]].
    - rewrite length_replicate, Hcount. lia.
    - intros k v j Hv Hj. destruct (Hexact _ _ Hv) as (j' & Hj' & Hj'pos & Hc).
      rewrite Hj in Hj'. by injection Hj' as <-.
    - done.
    - destruct (decide (i < length canonical)%nat) as [Hi|Hi].
      + destruct (Hhit i) as [k Hk]; [simpl; lia|].
        exfalso. apply (Hfree k (Z.of_nat i)); [|done|lia].
        rewrite <- Hlen. by eapply lookup_lt_Some.
      + rewrite Hsame, !lookup_ge_None_2; [done | lia |].
        rewrite length_replicate, Hcount. lia. }
  rewrite Hbuffer. repeat split; try done. lia.
Qed.

End RemapFacts.

(** The engine keeps the contract, whatever its metrics. *)
#[global] Instance engine_contract (metrics : Metrics) : MeshoptContract (engine metrics).
Proof.
  split.
  - intros indices positions vertex_count stride target target_error options _. simpl.
    rewrite Nat2Z.id, firstn_all.
    pose proof (simplify_output_bounds metrics positions None indices target target_error)
      as [Hle Hmod].
    destruct (Engine.simplify _ _ _ _ _ _) as [out error].
    apply output_within_bounds; [exact Hle | exact Hmod].
  - intros indices positions vertex_count stride attributes attributes_stride weights
      attribute_count vertex_lock target target_error options _. simpl.
    rewrite Nat2Z.id, firstn_all.
    pose proof (simplify_output_bounds metrics positions (Some (attributes, weights))
                  indices target target_error) as [Hle Hmod].
    destruct (Engine.simplify _ _ _ _ _ _) as [out error].
    apply output_within_bounds; [exact Hle | exact Hmod].
  - intros indices positions vertex_count stride target target_error _.
    unfold meshopt_simplifySloppy, engine.
    rewrite Nat2Z.id, firstn_all.
    pose proof (simplify_sloppy_output_bounds metrics positions indices target
                  target_error) as [Hle Hmod].
    destruct (Engine.simplify_sloppy _ _ _ _ _) as [out error].
    apply output_within_bounds; [exact Hle | exact Hmod].
  - intros indices vertex_count Hvalid. simpl. rewrite Nat2Z.id, firstn_all.
    destruct (optimize_vertex_cache_perm metrics indices vertex_count) as [Hperm Hlen].
    apply valid_index_buffer_triangles in Hvalid as [_ Hthree].
    split; [lia | done].
  - intros indices index_count vertices. simpl.
    rewrite Nat2Z.id, vertices_of_to_vertex_data, firstn_all.
    pose proof (generate_then_remap vertices indices) as Hremap.
    destruct (Engine.generate_vertex_remap vertices indices f32_zero)
      as [remap unique_count].
    destruct Hremap as (Hlen & Hcount & Hle & Hexact & Hsub).
    split; [done|]. exists (Engine.remap_vertex_buffer vertices remap).
    repeat split; done.
Qed.

(** * The binding over an engine that keeps its contract *)

Section Casts.

Lemma to_int32_id n : is_int32 n -> to_int32 n = n.
Proof.
  unfold is_int32, to_int32. intros Hn. rewrite Z.mod_small; lia.
Qed.

Lemma to_uint32_id n : 0 <= n < 2 ^ 32 -> to_uint32 n = n.
Proof. unfold to_uint32. intros Hn. by rewrite Z.mod_small. Qed.

Lemma to_index_data_id indices vertex_count :
  packed_int32 indices -> valid_index_buffer indices vertex_count ->
  to_index_data indices = indices.
Proof.
  intros Hint [_ Hrange]. unfold to_index_data.
  induction indices as [|i indices IH]; simpl; [done|].
  apply Forall_cons in Hint as [Hi Hint]. apply Forall_cons in Hrange as [Hr Hrange].
  rewrite IH by done. rewrite to_uint32_id; [done|]. unfold is_int32 in Hi. lia.
Qed.

Lemma map_to_int32_id indices : packed_int32 indices -> map to_int32 indices = indices.
Proof.
  intros Hint. induction indices as [|i indices IH]; simpl; [done|].
  apply Forall_cons in Hint as [Hi Hint]. by rewrite IH, to_int32_id.
Qed.

Lemma lookup_to_vertex_data vertices : forall i v,
  vertices !! i = Some v ->
  to_vertex_data vertices !! (3 * i)%nat = Some (v3_x v)
  /\ to_vertex_data vertices !! (3 * i + 1)%nat = Some (v3_y v)
  /\ to_vertex_data vertices !! (3 * i + 2)%nat = Some (v3_z v).
Proof.
  induction vertices as [|w vertices IH]; intros [|i] v Hv; simpl in Hv; try done.
  - by injection Hv as <-.
  - destruct (IH _ _ Hv) as (Hx & Hy & Hz).
    replace (3 * S i)%nat with (S (S (S (3 * i)))) by lia. simpl.
    repeat split; done.
Qed.

Lemma from_to_vertex_data vertices padding :
  from_vertex_data (to_vertex_data vertices ++ padding) (Z.of_nat (length vertices))
  = Some vertices.
Proof.
  unfold from_vertex_data. apply mapM_Some_2, Forall2_same_length_lookup_2.
  - by rewrite length_seqZ, Nat2Z.id.
  - intros i n v Hn Hv. apply lookup_seqZ in Hn as [-> _].
    destruct (lookup_to_vertex_data _ _ _ Hv) as (Hx & Hy & Hz).
    unfold vector3_at, vector_at.
    destruct (Z.leb_spec 0 ((0 + Z.of_nat i) * 3 + 0)); [|lia].
    destruct (Z.leb_spec 0 ((0 + Z.of_nat i) * 3 + 1)); [|lia].
    destruct (Z.leb_spec 0 ((0 + Z.of_nat i) * 3 + 2)); [|lia].
    replace (Z.to_nat ((0 + Z.of_nat i) * 3 + 0)) with (3 * i)%nat by lia.
    replace (Z.to_nat ((0 + Z.of_nat i) * 3 + 1)) with (3 * i + 1)%nat by lia.
    replace (Z.to_nat ((0 + Z.of_nat i) * 3 + 2)) with (3 * i + 2)%nat by lia.
    rewrite (lookup_app_l_Some _ _ _ _ Hx), (lookup_app_l_Some _ _ _ _ Hy),
      (lookup_app_l_Some _ _ _ _ Hz).
    simpl. by destruct v.
Qed.

End Casts.

(** ** The length of a simplified index buffer *)

Section SimplifyBounds.
Context `{lib : Meshopt} `{!MeshoptContract lib}.

Lemma simplified_dictionary_bounded vertices indices out :
  within_bounds (Z.of_nat (length indices)) out ->
  bounded_result indices (simplified_dictionary vertices (Z.of_nat (length indices)) out).
Proof.
  intros (Hwritten & Hcount & Hmod).
  unfold simplified_dictionary, vector_after_write, vector_prefix.
  destruct (Z.leb_spec (Z.of_nat (length (so_destination out)))
              (Z.of_nat (length indices))); [|lia].
  simpl. rewrite length_app, length_replicate.
  destruct (Z.leb_spec 0 (so_count out)); [|lia].
  destruct (Z.leb_spec (so_count out)
              (Z.of_nat (length (so_destination out)
                         + (Z.to_nat (Z.of_nat (length indices))
                            - length (so_destination out))))); [|lia].
  simpl. eexists _, _. split; [reflexivity|]. split; [by simplify_map_eq|].
  rewrite length_map, length_take, length_app, length_replicate.
  split; [lia|].
  replace (_ `min` _)%nat with (Z.to_nat (so_count out)) by lia.
  apply Nat2Z.inj. rewrite Nat2Z.inj_mod, Z2Nat.id by lia. done.
Qed.

End SimplifyBounds.

(** C5: on an input the simplifiers accept (non-empty vertices, a non-empty
    index buffer of [int32] values that satisfies the IndexBuffer invariant,
    and a ratio whose target converts to [size_t]), [simplify],
    [simplify_with_attributes] and [simplify_sloppy] return an index buffer no
    longer than the input one, of a length divisible by 3. *)
Theorem simplified_indices_within_bounds `{lib : Meshopt} `{!MeshoptContract lib}
    (vertices : list Vector3) (indices : list Z) (uvs : list Vector2)
    (target_ratio target_error uv_weight : float) (target : Z) :
  vertices <> [] -> indices <> [] ->
  packed_int32 indices ->
  valid_index_buffer indices (Z.of_nat (length vertices)) ->
  target_index_count (Z.of_nat (length indices)) target_ratio = Some target ->
  bounded_result indices (simplify vertices indices target_ratio target_error)
  /\ bounded_result indices
       (simplify_with_attributes vertices indices uvs target_ratio target_error uv_weight)
  /\ bounded_result indices (simplify_sloppy vertices indices target_ratio target_error).
Proof.
  intros Hv Hi Hint Hvalid Htarget.
  assert (bounded_result indices (simplify vertices indices target_ratio target_error))
    as Hsimplify.
  { unfold simplify. rewrite (size_not_zero _ Hv), (size_not_zero _ Hi), Htarget. simpl.
    unfold simplify_at. rewrite (to_index_data_id _ _ Hint Hvalid).
    by apply simplified_dictionary_bounded, simplify_bounds. }
  split; [done|]. split.
  - unfold simplify_with_attributes.
    rewrite (size_not_zero _ Hv), (size_not_zero _ Hi), Htarget. simpl.
    destruct (Z.of_nat (length uvs) =? Z.of_nat (length vertices)); [|done].
    unfold simplify_with_attributes_at. rewrite (to_index_data_id _ _ Hint Hvalid).
    destruct (simplified_dictionary_bounded vertices indices
                (meshopt_simplifyWithAttributes indices (Z.of_nat (length indices))
                   (to_vertex_data vertices) (Z.of_nat (length vertices)) 12
                   (to_uv_data uvs) 8 [uv_weight] 1 None target target_error 0))
      as (d & new_indices & -> & Hd & Hle & Hmod).
    { by apply simplifyWithAttributes_bounds. }
    simpl. eexists _, new_indices. split; [reflexivity|].
    split; [by rewrite lookup_insert_ne | done].
  - unfold simplify_sloppy.
    rewrite (size_not_zero _ Hv), (size_not_zero _ Hi), Htarget. simpl.
    unfold simplify_sloppy_at. rewrite (to_index_data_id _ _ Hint Hvalid).
    by apply simplified_dictionary_bounded, simplifySloppy_bounds.
Qed.

Lemma simplified_indices_within_bounds_witness :
  bounded_result Sample.fan_indices
    (@simplify Sample.library Sample.fan Sample.fan_indices Sample.half Sample.one)
  /\ bounded_result Sample.fan_indices
       (@simplify_with_attributes Sample.library Sample.fan Sample.fan_indices
          (Sample.square_uvs ++ [mkVector2 Sample.half Sample.half])
          Sample.half Sample.one Sample.one)
  /\ bounded_result Sample.fan_indices
       (@simplify_sloppy Sample.library Sample.fan Sample.fan_indices Sample.half
          Sample.one).
Proof.
  apply (@simplified_indices_within_bounds Sample.library
           (engine_contract Sample.metrics) Sample.fan Sample.fan_indices
           (Sample.square_uvs ++ [mkVector2 Sample.half Sample.half])
           Sample.half Sample.one Sample.one 4).
  - discriminate.
  - discriminate.
  - unfold packed_int32, is_int32. repeat constructor; lia.
  - split; [reflexivity|]. repeat constructor; simpl; lia.
  - vm_compute. reflexivity.
Defined.

(** The fan at half its indices: one collapse, two triangles left. *)
Example simplify_fan :
  (@simplify Sample.library Sample.fan Sample.fan_indices Sample.half Sample.one
     ≫= fun d => d !! "indices") = Some (VPackedInt32Array [0; 2; 3; 0; 3; 4]).
Proof. vm_compute. reflexivity. Qed.

(** The achieved error of the section 4.2 loop is not monotone in the target
    for every choice of metrics.  On [patches] the cheap collapse removes two
    triangles: at three quarters of the indices the target floor rejects it
    and a dear collapse is taken (error 5); at half of them it is accepted
    (error 1). *)
Example simplify_error_depends_on_metrics :
  (@simplify (engine Sample.steep_metrics) Sample.patches Sample.patches_indices
     Sample.three_quarters Sample.hundred ≫= fun d => d !! "result_error")
    = Some (VFloat (f32_of_Z 5))
  /\ (@simplify (engine Sample.steep_metrics) Sample.patches Sample.patches_indices
        Sample.half Sample.hundred ≫= fun d => d !! "result_error")
     = Some (VFloat (f32_of_Z 1))
  /\ f32_ltb Sample.half Sample.three_quarters = true
  /\ f32_ltb (f32_of_Z 1) (f32_of_Z 5) = true.
Proof. repeat split; vm_compute; reflexivity. Qed.

(** ** The vertex cache optimizer *)

(** Whatever the library writes, the binding returns as many indices as it
    was given. *)
Lemma optimize_vertex_cache_length `{lib : Meshopt} indices vertex_count optimized :
  optimize_vertex_cache indices vertex_count = Some optimized ->
  length optimized = length indices.
Proof.
  unfold optimize_vertex_cache.
  destruct ((Z.of_nat (length indices) =? 0) || (vertex_count <=? 0)).
  - by intros [= <-].
  - destruct (vector_after_write 0 _ _) as [buffer|] eqn:Hbuffer; [|done].
    simpl. intros [= <-].
    apply vector_after_write_length in Hbuffer as (_ & Hlen & _).
    rewrite length_map, Hlen. lia.
Qed.

(** C6: for a non-empty index buffer of [int32] values that satisfies the
    IndexBuffer invariant and a positive vertex count,
    [optimize_vertex_cache] returns an index buffer of the same length whose
    triangles are a permutation of the input triangles, each with its three
    indices in their input order. *)
Theorem optimize_vertex_cache_permutes `{lib : Meshopt} `{!MeshoptContract lib}
    (indices : list Z) (vertex_count : Z) :
  indices <> [] -> 0 < vertex_count -> is_int32 vertex_count ->
  packed_int32 indices ->
  valid_index_buffer indices vertex_count ->
  exists optimized,
    optimize_vertex_cache indices vertex_count = Some optimized
    /\ length optimized = length indices
    /\ Permutation (triangles optimized) (triangles indices).
Proof.
  intros Hi Hpos Hcount Hint Hvalid. unfold optimize_vertex_cache.
  rewrite (size_not_zero _ Hi). destruct (Z.leb_spec vertex_count 0); [lia|]. simpl.
  rewrite (to_index_data_id _ _ Hint Hvalid).
  assert (to_size_t vertex_count = vertex_count) as ->.
  { unfold to_size_t, size_t_bits. unfold is_int32 in Hcount.
    rewrite Z.mod_small; lia. }
  destruct (optimizeVertexCache_permutation indices vertex_count Hvalid) as [Hlen Hperm].
  unfold vector_after_write. rewrite Hlen.
  destruct (Z.leb_spec (Z.of_nat (length indices)) (Z.of_nat (length indices))); [|lia].
  simpl. rewrite Nat2Z.id, Nat.sub_diag. simpl. rewrite app_nil_r.
  eexists. split; [reflexivity|].
  assert (packed_int32
            (meshopt_optimizeVertexCache indices (Z.of_nat (length indices)) vertex_count))
    as Hout.
  { destruct (valid_index_buffer_triangles _ _ Hvalid) as [Hflat Hthree].
    destruct (triangles_by_threes (length (triangles indices))
                (meshopt_optimizeVertexCache indices (Z.of_nat (length indices))
                   vertex_count)) as [Hflat' _]; [lia|].
    apply (Permutation_flat_map (fun '(a, b, c) => [a; b; c])) in Hperm.
    fold (flatten_triangles (triangles indices)) in Hperm.
    fold (flatten_triangles
            (triangles (meshopt_optimizeVertexCache indices (Z.of_nat (length indices))
                          vertex_count))) in Hperm.
    rewrite Hflat, Hflat' in Hperm.
    unfold packed_int32. eapply Permutation_Forall; [symmetry; exact Hperm | exact Hint]. }
  rewrite (map_to_int32_id _ Hout). by split.
Qed.

Lemma optimize_vertex_cache_permutes_witness :
  exists optimized,
    @optimize_vertex_cache Sample.library Sample.fan_indices 5 = Some optimized
    /\ length optimized = length Sample.fan_indices
    /\ Permutation (triangles optimized) (triangles Sample.fan_indices).
Proof.
  apply (@optimize_vertex_cache_permutes Sample.library (engine_contract Sample.metrics)
           Sample.fan_indices 5).
  - discriminate.
  - lia.
  - unfold is_int32. lia.
  - unfold packed_int32, is_int32. repeat constructor; lia.
  - split; [reflexivity|]. repeat constructor; lia.
Defined.

(** Two strips that share vertices 1 and 3: the triangle that hits the cache
    twice is emitted before the one that comes first in the input. *)
Example optimize_vertex_cache_reorders :
  @optimize_vertex_cache Sample.library [0; 1; 2; 3; 4; 5; 2; 1; 3] 6
  = Some [0; 1; 2; 2; 1; 3; 3; 4; 5].
Proof. vm_compute. reflexivity. Qed.

(** ** Welding and its threshold *)

Section WeldContract.
Context `{lib : Meshopt} `{!MeshoptContract lib}.

(** A weld that returns hands back the library's deduplicated buffer, and
    every index goes through the library's remap table. *)
Lemma weld_vertices_exact vertices indices threshold d :
  vertices <> [] ->
  Z.of_nat (length vertices) < 2 ^ 31 ->
  weld_vertices vertices indices threshold = Some d ->
  exists new_vertices new_indices,
    d !! "vertices" = Some (VPackedVector3Array new_vertices)
    /\ d !! "indices" = Some (VPackedInt32Array new_indices)
    /\ (forall v, v ∈ new_vertices <-> v ∈ vertices)
    /\ (forall k i, indices !! k = Some i ->
          exists j v, new_indices !! k = Some j /\ 0 <= j
                      /\ vertices !! Z.to_nat i = Some v
                      /\ new_vertices !! Z.to_nat j = Some v).
Proof.
  intros Hv Hsize Hd.
  apply (weld_vertices_returns _ _ _ _ Hv) in Hd
    as (remap & remapped & new_vertices & new_indices
        & Hremap & Hremapped & Hnew & Hidx & ->).
  pose proof (generateVertexRemap_exact
                (if 0 <? Z.of_nat (length indices) then Some (to_index_data indices)
                 else None)
                (if 0 <? Z.of_nat (length indices) then Z.of_nat (length indices)
                 else Z.of_nat (length vertices))
                vertices) as Hcontract.
  cbv zeta in Hcontract.
  destruct (meshopt_generateVertexRemap _ _ _ _ _) as [remap_written unique_count].
  destruct Hcontract as (Hlen & unique & Hbuffer & Hcount & Hle & Hexact & Hsub).
  simpl in Hremap, Hremapped, Hnew.
  apply vector_after_write_length in Hremap as (_ & _ & _ & ->).
  rewrite Hlen, Nat2Z.id, Nat.sub_diag in *. simpl in *. rewrite app_nil_r in *.
  rewrite Hbuffer in Hremapped.
  apply vector_after_write_length in Hremapped as (_ & _ & _ & ->).
  rewrite <- Hcount, from_to_vertex_data in Hnew. injection Hnew as <-.
  exists unique, new_indices.
  split; [by simplify_map_eq|]. split; [by simplify_map_eq|]. split.
  - intros v. split; [apply Hsub|].
    intros Hin. apply list_elem_of_lookup in Hin as [k Hk].
    destruct (Hexact _ _ Hk) as (j & _ & _ & Hj).
    by eapply list_elem_of_lookup_2.
  - intros k i Hk.
    destruct (Z.ltb_spec 0 (Z.of_nat (length indices))) as [_|Hnone].
    2:{ apply lookup_lt_Some in Hk. lia. }
    apply remap_indices_Some in Hidx as (_ & Hrange & Hread).
    destruct (Hread _ _ Hk) as (j & Hj & Hnew).
    rewrite Forall_forall in Hrange.
    assert (0 <= i < Z.of_nat (length remap_written)) as Hi.
    { apply Hrange. by eapply list_elem_of_lookup_2. }
    destruct (lookup_lt_is_Some_2 vertices (Z.to_nat i)) as [v Hvi]; [lia|].
    destruct (Hexact _ _ Hvi) as (j' & Hj' & Hpos & Hunique).
    rewrite Hj in Hj'. injection Hj' as <-.
    exists j, v. rewrite to_int32_id in Hnew; [done|].
    apply lookup_lt_Some in Hunique. unfold is_int32. lia.
Qed.

End WeldContract.

(** C10: [weld_vertices] returns the same result for any two thresholds, and
    what it merges are bitwise-identical positions: on a non-empty buffer of
    fewer than 2^31 vertices, the positions of the result are exactly the
    input positions, and every index of the result points at the position its
    input index pointed at. *)
Theorem weld_vertices_ignores_threshold `{lib : Meshopt} `{!MeshoptContract lib}
    (vertices : list Vector3) (indices : list Z) (threshold1 threshold2 : float) :
  weld_vertices vertices indices threshold1 = weld_vertices vertices indices threshold2
  /\ (vertices <> [] -> Z.of_nat (length vertices) < 2 ^ 31 ->
      forall d, weld_vertices vertices indices threshold1 = Some d ->
        exists new_vertices new_indices,
          d !! "vertices" = Some (VPackedVector3Array new_vertices)
          /\ d !! "indices" = Some (VPackedInt32Array new_indices)
          /\ (forall v, v ∈ new_vertices <-> v ∈ vertices)
          /\ (forall k i, indices !! k = Some i ->
                exists j v, new_indices !! k = Some j /\ 0 <= j
                            /\ vertices !! Z.to_nat i = Some v
                            /\ new_vertices !! Z.to_nat j = Some v)).
Proof.
  split; [reflexivity|].
  intros Hv Hsize d Hd. by eapply weld_vertices_exact.
Qed.

Lemma weld_vertices_ignores_threshold_witness :
  @weld_vertices Sample.library [Sample.origin; Sample.half_east; Sample.origin]
    [0; 1; 2] Sample.one
  = @weld_vertices Sample.library [Sample.origin; Sample.half_east; Sample.origin]
      [0; 1; 2] f32_zero
  /\ forall d,
       @weld_vertices Sample.library [Sample.origin; Sample.half_east; Sample.origin]
         [0; 1; 2] Sample.one = Some d ->
       exists new_vertices new_indices,
         d !! "vertices" = Some (VPackedVector3Array new_vertices)
         /\ d !! "indices" = Some (VPackedInt32Array new_indices)
         /\ (forall v, v ∈ new_vertices
                       <-> v ∈ [Sample.origin; Sample.half_east; Sample.origin])
         /\ (forall k i, [0; 1; 2] !! k = Some i ->
               exists j v, new_indices !! k = Some j /\ 0 <= j
                           /\ [Sample.origin; Sample.half_east; Sample.origin]
                                !! Z.to_nat i = Some v
                           /\ new_vertices !! Z.to_nat j = Some v).
Proof.
  destruct (@weld_vertices_ignores_threshold Sample.library
              (engine_contract Sample.metrics)
              [Sample.origin; Sample.half_east; Sample.origin] [0; 1; 2]
              Sample.one f32_zero) as [Hsame Hexact].
  split; [exact Hsame|]. apply Hexact; [discriminate | simpl; lia].
Defined.

(** Three vertices of which the first and the last coincide: two are left. *)
Example weld_vertices_merges_duplicates :
  @weld_vertices Sample.library [Sample.origin; Sample.half_east; Sample.origin]
    [0; 1; 2] Sample.one
  = Some (<["unique_count" := VInt 2]>
          (<["original_count" := VInt 3]>
          (<["indices" := VPackedInt32Array [0; 1; 0]]>
          (<["vertices" := VPackedVector3Array [Sample.origin; Sample.half_east]]>
             ∅)))).
Proof. vm_compute. reflexivity. Qed.

(** ** The threshold of a weld, as documented *)

(** C2 at a failing input: [origin] and [half_east] are half a unit apart,
    within the threshold 1 and not within the threshold 0, so the claim asks
    for one canonical index at threshold 1 and for two at threshold 0.
    Whatever the library, [weld_vertices] returns the same result at both
    thresholds; with the engine it keeps both vertices, where a remap at
    tolerance 1 merges them. *)
Lemma weld_vertices_keeps_near_duplicates `{lib : Meshopt} :
  Engine.judged_equal Sample.one Sample.origin Sample.half_east = true
  /\ Engine.judged_equal f32_zero Sample.origin Sample.half_east = false
  /\ weld_vertices [Sample.origin; Sample.half_east] [0; 1] Sample.one
     = weld_vertices [Sample.origin; Sample.half_east] [0; 1] f32_zero
  /\ Engine.generate_vertex_remap [Sample.origin; Sample.half_east] None Sample.one
     = ([0; 0], 1)
  /\ @weld_vertices Sample.library [Sample.origin; Sample.half_east] [0; 1] Sample.one
     = Some (<["unique_count" := VInt 2]>
             (<["original_count" := VInt 2]>
             (<["indices" := VPackedInt32Array [0; 1]]>
             (<["vertices" := VPackedVector3Array [Sample.origin; Sample.half_east]]>
                ∅)))).
Proof. repeat split; vm_compute; reflexivity. Qed.

(** * More of the binding *)

Section ResultFacts.
Context `{lib : Meshopt}.

Lemma to_int32_range n : is_int32 (to_int32 n).
Proof.
  unfold is_int32, to_int32.
  pose proof (Z.mod_pos_bound (n + 2 ^ 31) (2 ^ 32)). lia.
Qed.

(** The dictionary of a simplifier that returned, entry by entry. *)
Lemma simplified_dictionary_returns vertices index_count out d :
  simplified_dictionary vertices index_count out = Some d ->
  exists new_indices,
    Z.of_nat (length new_indices) = so_count out
    /\ so_count out <= index_count
    /\ d = <["simplified_triangles" := VInt (to_int32 (so_count out / 3))]>
           (<["original_triangles" := VInt (to_int32 (index_count / 3))]>
           (<["result_error" := VFloat (so_result_error out)]>
           (<["vertices" := VPackedVector3Array vertices]>
           (<["indices" := VPackedInt32Array (map to_int32 new_indices)]> ∅)))).
Proof.
  unfold simplified_dictionary. intros Hd.
  destruct (vector_after_write 0 index_count (so_destination out)) as [buffer|]
    eqn:Hbuffer; [|done].
  simpl in Hd. unfold vector_prefix in Hd.
  destruct (Z.leb_spec 0 (so_count out)); [|done].
  destruct (Z.leb_spec (so_count out) (Z.of_nat (length buffer))); [|done].
  simpl in Hd. injection Hd as <-.
  apply vector_after_write_length in Hbuffer as (Hpos & Hlen & _).
  exists (take (Z.to_nat (so_count out)) buffer).
  split; [rewrite length_take; lia|]. split; [lia | done].
Qed.

Lemma simplified_dictionary_bookkeeping vertices indices out d :
  simplified_dictionary vertices (Z.of_nat (length indices)) out = Some d ->
  simplify_bookkeeping vertices indices (so_result_error out) d.
Proof.
  intros Hd. apply simplified_dictionary_returns in Hd as (new_indices & Hcount & Hle & ->).
  split; [by simplify_map_eq|]. split; [by simplify_map_eq|].
  split; [by simplify_map_eq|].
  exists (map to_int32 new_indices).
  split; [by simplify_map_eq|]. rewrite length_map.
  split; [lia|]. split.
  - apply Forall_forall. intros n Hn.
    apply list_elem_of_fmap in Hn as (m & -> & _). apply to_int32_range.
  - rewrite Hcount. by simplify_map_eq.
Qed.

(** The ["uvs"] entry leaves the other entries as they are. *)
Lemma simplify_bookkeeping_uvs vertices indices result_error uvs d :
  simplify_bookkeeping vertices indices result_error d ->
  simplify_bookkeeping vertices indices result_error
    (<["uvs" := VPackedVector2Array uvs]> d).
Proof.
  intros (Hvertices & Horiginal & Herror & new_indices & Hindices & Hle & Hint
          & Hsimplified).
  split; [by rewrite lookup_insert_ne|]. split; [by rewrite lookup_insert_ne|].
  split; [by rewrite lookup_insert_ne|].
  exists new_indices. rewrite !lookup_insert_ne by done. done.
Qed.

(** Past the emptiness test a simplifier is its tail at the target. *)
Lemma simplify_past_guard vertices indices target_ratio target_error d :
  vertices <> [] -> indices <> [] ->
  simplify vertices indices target_ratio target_error = Some d ->
  exists target,
    target_index_count (Z.of_nat (length indices)) target_ratio = Some target
    /\ simplify_at vertices indices target target_error = Some d.
Proof.
  intros Hv Hi. unfold simplify. rewrite (size_not_zero _ Hv), (size_not_zero _ Hi).
  simpl. destruct (target_index_count _ _) as [target|]; [|done].
  intros Hd. by exists target.
Qed.

Lemma simplify_sloppy_past_guard vertices indices target_ratio target_error d :
  vertices <> [] -> indices <> [] ->
  simplify_sloppy vertices indices target_ratio target_error = Some d ->
  exists target,
    target_index_count (Z.of_nat (length indices)) target_ratio = Some target
    /\ simplify_sloppy_at vertices indices target target_error = Some d.
Proof.
  intros Hv Hi. unfold simplify_sloppy.
  rewrite (size_not_zero _ Hv), (size_not_zero _ Hi).
  simpl. destruct (target_index_count _ _) as [target|]; [|done].
  intros Hd. by exists target.
Qed.

Lemma simplify_with_attributes_past_guard vertices indices uvs target_ratio
    target_error uv_weight d :
  vertices <> [] -> indices <> [] ->
  simplify_with_attributes vertices indices uvs target_ratio target_error uv_weight
    = Some d ->
  exists target,
    target_index_count (Z.of_nat (length indices)) target_ratio = Some target
    /\ ((length uvs = length vertices
         /\ simplify_with_attributes_at vertices indices uvs target target_error
              uv_weight = Some d)
        \/ (length uvs <> length vertices
            /\ simplify_at vertices indices target target_error = Some d)).
Proof.
  intros Hv Hi. unfold simplify_with_attributes.
  rewrite (size_not_zero _ Hv), (size_not_zero _ Hi).
  simpl. destruct (target_index_count _ _) as [target|] eqn:Htarget; [|done]. simpl.
  destruct (Z.eqb_spec (Z.of_nat (length uvs)) (Z.of_nat (length vertices))) as [Heq|Hne].
  - intros Hd. exists target. split; [done|]. left. split; [lia | done].
  - intros Hd. apply simplify_past_guard in Hd as (target' & Htarget' & Hd); [|done..].
    exists target. split; [done|]. right. split; [lia|]. congruence.
Qed.

Lemma simplify_with_attributes_at_returns vertices indices uvs target target_error
    uv_weight d :
  simplify_with_attributes_at vertices indices uvs target target_error uv_weight
    = Some d ->
  exists d',
    simplified_dictionary vertices (Z.of_nat (length indices))
      (meshopt_simplifyWithAttributes (to_index_data indices)
         (Z.of_nat (length indices)) (to_vertex_data vertices)
         (Z.of_nat (length vertices)) 12 (to_uv_data uvs) 8 [uv_weight] 1 None
         target target_error 0) = Some d'
    /\ d = <["uvs" := VPackedVector2Array uvs]> d'.
Proof.
  unfold simplify_with_attributes_at.
  destruct (simplified_dictionary _ _ _) as [d'|]; [|done].
  simpl. intros [= <-]. by exists d'.
Qed.

End ResultFacts.

(** ** What a simplifier hands back *)

(** X1: whatever the library does, a result of [simplify],
    [simplify_with_attributes] or [simplify_sloppy] on non-empty input carries
    the vertices it was given, an index buffer of [int32] values no longer
    than the input one, the two triangle counts as thirds of the lengths of
    the two index buffers, and the error the library reported: the one
    [meshopt_simplify], [meshopt_simplifyWithAttributes] or
    [meshopt_simplifySloppy] returned for the call at the target index
    count. *)
Theorem simplify_results_keep_books `{lib : Meshopt} (vertices : list Vector3)
    (indices : list Z) (uvs : list Vector2)
    (target_ratio target_error uv_weight : float) (d : Dictionary) :
  vertices <> [] -> indices <> [] ->
  simplify vertices indices target_ratio target_error = Some d
  \/ simplify_with_attributes vertices indices uvs target_ratio target_error uv_weight
     = Some d
  \/ simplify_sloppy vertices indices target_ratio target_error = Some d ->
  let index_count := Z.of_nat (length indices) in
  let vertex_count := Z.of_nat (length vertices) in
  exists target,
    target_index_count index_count target_ratio = Some target
    /\ (simplify vertices indices target_ratio target_error = Some d ->
        simplify_bookkeeping vertices indices
          (so_result_error
             (meshopt_simplify (to_index_data indices) index_count
                (to_vertex_data vertices) vertex_count 12 target target_error 0))
          d)
    /\ (simplify_with_attributes vertices indices uvs target_ratio target_error
          uv_weight = Some d ->
        simplify_bookkeeping vertices indices
          (so_result_error
             (if Z.of_nat (length uvs) =? vertex_count
              then meshopt_simplifyWithAttributes (to_index_data indices) index_count
                     (to_vertex_data vertices) vertex_count 12 (to_uv_data uvs) 8
                     [uv_weight] 1 None target target_error 0
              else meshopt_simplify (to_index_data indices) index_count
                     (to_vertex_data vertices) vertex_count 12 target target_error 0))
          d)
    /\ (simplify_sloppy vertices indices target_ratio target_error = Some d ->
        simplify_bookkeeping vertices indices
          (so_result_error
             (meshopt_simplifySloppy (to_index_data indices) index_count
                (to_vertex_data vertices) vertex_count 12 target target_error))
          d).
Proof.
  intros Hv Hi Hd. simpl.
  assert (exists target,
            target_index_count (Z.of_nat (length indices)) target_ratio = Some target)
    as [target Htarget].
  { destruct Hd as [Hd|[Hd|Hd]].
    - apply simplify_past_guard in Hd as (t & Ht & _); [by exists t|done..].
    - apply simplify_with_attributes_past_guard in Hd as (t & Ht & _);
        [by exists t|done..].
    - apply simplify_sloppy_past_guard in Hd as (t & Ht & _); [by exists t|done..]. }
  clear Hd. exists target. split; [done|]. split; [|split]; intros Hd.
  - apply simplify_past_guard in Hd as (t & Ht & Hd); [|done..].
    assert (t = target) as -> by congruence.
    by apply simplified_dictionary_bookkeeping in Hd.
  - apply simplify_with_attributes_past_guard in Hd
      as (t & Ht & [[Hlen Hd]|[Hlen Hd]]); [| |done..];
      assert (t = target) as -> by congruence;
      destruct (Z.eqb_spec (Z.of_nat (length uvs)) (Z.of_nat (length vertices)));
      try lia.
    + apply simplify_with_attributes_at_returns in Hd as (d' & Hd' & ->).
      by apply simplify_bookkeeping_uvs, simplified_dictionary_bookkeeping.
    + by apply simplified_dictionary_bookkeeping in Hd.
  - apply simplify_sloppy_past_guard in Hd as (t & Ht & Hd); [|done..].
    assert (t = target) as -> by congruence.
    by apply simplified_dictionary_bookkeeping in Hd.
Qed.

Lemma simplify_results_keep_books_witness :
  simplify_bookkeeping Sample.fan Sample.fan_indices
    (so_result_error
       (@meshopt_simplify Sample.library (to_index_data Sample.fan_indices) 9
          (to_vertex_data Sample.fan) 5 12 4 Sample.one 0))
    (<["simplified_triangles" := VInt 2]>
     (<["original_triangles" := VInt 3]>
     (<["result_error" := VFloat f32_zero]>
     (<["vertices" := VPackedVector3Array Sample.fan]>
     (<["indices" := VPackedInt32Array [0; 2; 3; 0; 3; 4]]> ∅))))).
Proof.
  destruct (@simplify_results_keep_books Sample.library Sample.fan Sample.fan_indices
              [] Sample.half Sample.one Sample.one
              (<["simplified_triangles" := VInt 2]>
               (<["original_triangles" := VInt 3]>
               (<["result_error" := VFloat f32_zero]>
               (<["vertices" := VPackedVector3Array Sample.fan]>
               (<["indices" := VPackedInt32Array [0; 2; 3; 0; 3; 4]]> ∅))))))
    as (target & Htarget & Hsimplify & _).
  - discriminate.
  - discriminate.
  - left. vm_compute. reflexivity.
  - assert (target = 4) as -> by (vm_compute in Htarget; congruence).
    apply Hsimplify. vm_compute. reflexivity.
Defined.

(** X2: on non-empty input, a result of [simplify_with_attributes] has a
    ["uvs"] entry exactly when the UV array is as long as the vertex array,
    and the entry is the UV array it was given, one UV per original vertex. *)
Theorem simplify_with_attributes_uvs_entry `{lib : Meshopt} (vertices : list Vector3)
    (indices : list Z) (uvs : list Vector2)
    (target_ratio target_error uv_weight : float) (d : Dictionary) :
  vertices <> [] -> indices <> [] ->
  simplify_with_attributes vertices indices uvs target_ratio target_error uv_weight
    = Some d ->
  (length uvs = length vertices -> d !! "uvs" = Some (VPackedVector2Array uvs))
  /\ (length uvs <> length vertices -> d !! "uvs" = None)
  /\ dom d ∖ {[ "uvs" ]}
     = {[ "indices"; "vertices"; "result_error"; "original_triangles";
          "simplified_triangles" ]}.
Proof.
  intros Hv Hi Hd.
  apply simplify_with_attributes_past_guard in Hd
    as (target & _ & [[Hlen Hd]|[Hlen Hd]]); [| |done..].
  - apply simplify_with_attributes_at_returns in Hd as (d' & Hd' & ->).
    apply simplified_dictionary_returns in Hd' as (new_indices & _ & _ & ->).
    split; [intros _; by simplify_map_eq|]. split; [done|].
    rewrite !dom_insert_L, dom_empty_L. set_solver.
  - apply simplified_dictionary_returns in Hd as (new_indices & _ & _ & ->).
    split; [done|]. split; [intros _; by simplify_map_eq|].
    rewrite !dom_insert_L, dom_empty_L. set_solver.
Qed.

Lemma simplify_with_attributes_uvs_entry_witness :
  let d : Dictionary :=
    <["uvs" := VPackedVector2Array Sample.square_uvs]>
      (<["simplified_triangles" := VInt 1]>
      (<["original_triangles" := VInt 2]>
      (<["result_error" := VFloat f32_zero]>
      (<["vertices" := VPackedVector3Array Sample.square]>
      (<["indices" := VPackedInt32Array [2; 0; 3]]> ∅))))) in
  (length Sample.square_uvs = length Sample.square ->
   d !! "uvs" = Some (VPackedVector2Array Sample.square_uvs))
  /\ (length Sample.square_uvs <> length Sample.square -> d !! "uvs" = None)
  /\ dom d ∖ {[ "uvs" ]}
     = {[ "indices"; "vertices"; "result_error"; "original_triangles";
          "simplified_triangles" ]}.
Proof.
  apply (@simplify_with_attributes_uvs_entry Sample.library Sample.square
           Sample.square_indices Sample.square_uvs Sample.half Sample.one Sample.one).
  - discriminate.
  - discriminate.
  - vm_compute. reflexivity.
Defined.

(** ** Indices outside the vertex array *)

(** X3: [weld_vertices] reads [remap[indices[i]]] without a test: on a
    non-empty vertex array, if any index is negative or not below the vertex
    count, the call has no defined result, whatever the library does. *)
Theorem weld_vertices_undefined_out_of_range `{lib : Meshopt} (vertices : list Vector3)
    (indices : list Z) (threshold : float) :
  vertices <> [] ->
  Exists (fun i => i < 0 \/ Z.of_nat (length vertices) <= i) indices ->
  weld_vertices vertices indices threshold = None.
Proof.
  intros Hv Hout.
  destruct (weld_vertices vertices indices threshold) as [d|] eqn:Hd; [|done].
  exfalso. apply (weld_vertices_reads_in_range _ _ _ _ Hv) in Hd.
  apply Exists_exists in Hout as (i & Hi & Hrange).
  rewrite Forall_forall in Hd. specialize (Hd i Hi). lia.
Qed.

Lemma weld_vertices_undefined_out_of_range_witness :
  @weld_vertices Sample.library Sample.square [0; 1; 4] Sample.one = None.
Proof.
  apply (@weld_vertices_undefined_out_of_range Sample.library Sample.square [0; 1; 4]
           Sample.one).
  - discriminate.
  - apply Exists_cons_tl, Exists_cons_tl, Exists_cons_hd. right. simpl. lia.
Defined.

(** ** What [optimize_vertex_cache] hands back *)

(** X4: with no indices or a vertex count that is not positive,
    [optimize_vertex_cache] returns the index buffer it was given and never
    calls the library; otherwise, whatever the library writes, a result has as
    many indices as the input and holds [int32] values only. *)
Theorem optimize_vertex_cache_shape `{lib : Meshopt} (indices : list Z)
    (vertex_count : Z) :
  (indices = [] \/ vertex_count <= 0 ->
   optimize_vertex_cache indices vertex_count = Some indices)
  /\ (forall optimized,
        optimize_vertex_cache indices vertex_count = Some optimized ->
        length optimized = length indices
        /\ (indices <> [] -> 0 < vertex_count -> Forall is_int32 optimized)).
Proof.
  split.
  - intros Hdegenerate. unfold optimize_vertex_cache.
    assert ((Z.of_nat (length indices) =? 0) || (vertex_count <=? 0) = true) as ->;
      [|done].
    apply orb_true_iff. rewrite size_is_zero, Z.leb_le. exact Hdegenerate.
  - intros optimized Hreturn. split; [by eapply optimize_vertex_cache_length|].
    intros Hi Hpos. unfold optimize_vertex_cache in Hreturn.
    rewrite (size_not_zero _ Hi) in Hreturn.
    destruct (Z.leb_spec vertex_count 0); [lia|]. simpl in Hreturn.
    destruct (vector_after_write 0 _ _) as [buffer|]; [|done].
    simpl in Hreturn. injection Hreturn as <-.
    apply Forall_forall. intros n Hn.
    apply list_elem_of_fmap in Hn as (m & -> & _). apply to_int32_range.
Qed.

Lemma optimize_vertex_cache_shape_witness :
  @optimize_vertex_cache Sample.library Sample.fan_indices 0 = Some Sample.fan_indices
  /\ length [0; 1; 2; 2; 1; 3; 3; 4; 5] = length [0; 1; 2; 3; 4; 5; 2; 1; 3]
  /\ Forall is_int32 [0; 1; 2; 2; 1; 3; 3; 4; 5].
Proof.
  destruct (@optimize_vertex_cache_shape Sample.library Sample.fan_indices 0)
    as [Hsame _].
  destruct (@optimize_vertex_cache_shape Sample.library [0; 1; 2; 3; 4; 5; 2; 1; 3] 6)
    as [_ Hshape].
  split; [apply Hsame; right; lia|].
  destruct (Hshape [0; 1; 2; 2; 1; 3; 3; 4; 5]) as [Hlen Hint];
    [vm_compute; reflexivity|].
  split; [exact Hlen|]. apply Hint; [discriminate | lia].
Defined.

(** ** Conversions that lose nothing *)

Lemma to_int32_to_uint32 n : is_int32 n -> to_int32 (to_uint32 n) = n.
Proof.
  unfold is_int32, to_int32, to_uint32. intros Hn.
  rewrite Zplus_mod_idemp_l, Z.mod_small; lia.
Qed.

(** X5: the index buffer handed to the library as [unsigned int] and read
    back as [int32_t] is the buffer itself: the two casts lose nothing on
    [int32] values, negative ones included, and what the library sees is an
    unsigned 32-bit value. *)
Theorem index_conversion_round_trip (indices : list Z) :
  packed_int32 indices ->
  map to_int32 (to_index_data indices) = indices
  /\ Forall (fun u => 0 <= u < 2 ^ 32) (to_index_data indices)
  /\ length (to_index_data indices) = length indices.
Proof.
  intros Hint. unfold to_index_data. split; [|split].
  - induction indices as [|i indices IH]; simpl; [done|].
    apply Forall_cons in Hint as [Hi Hint]. by rewrite IH, to_int32_to_uint32.
  - apply Forall_forall. intros u Hu.
    apply list_elem_of_fmap in Hu as (i & -> & _). unfold to_uint32.
    apply Z.mod_pos_bound. lia.
  - apply length_map.
Qed.

Lemma index_conversion_round_trip_witness :
  map to_int32 (to_index_data [0; -1; 2147483647; -2147483648])
    = [0; -1; 2147483647; -2147483648]
  /\ Forall (fun u => 0 <= u < 2 ^ 32) (to_index_data [0; -1; 2147483647; -2147483648])
  /\ length (to_index_data [0; -1; 2147483647; -2147483648])
     = length [0; -1; 2147483647; -2147483648].
Proof.
  apply (index_conversion_round_trip [0; -1; 2147483647; -2147483648]).
  unfold packed_int32, is_int32. repeat constructor; lia.
Defined.

(** X6: the positions flattened to three [float]s per vertex and read back
    as [Vector3]s are the positions themselves, whatever follows them in the
    buffer; the flat buffer has three cells per vertex. *)
Theorem vertex_conversion_round_trip (vertices : list Vector3) (padding : list float) :
  from_vertex_data (to_vertex_data vertices ++ padding) (Z.of_nat (length vertices))
    = Some vertices
  /\ length (to_vertex_data vertices) = (3 * length vertices)%nat.
Proof.
  split; [apply from_to_vertex_data|].
  induction vertices as [|v vertices IH]; simpl; [done|]. rewrite IH. lia.
Qed.

(** ** Target ratios out of the ordinary *)

Section RatioFacts.

(** Rounding keeps the sign it is given. *)
Lemma binary_round_aux_sign sx mx ex lx :
  match binary_round_aux f32_prec f32_emax sx mx ex lx with
  | S754_zero s | S754_infinity s | S754_finite s _ _ => s = sx
  | S754_nan => True
  end.
Proof.
  unfold binary_round_aux.
  destruct (shr_fexp f32_prec f32_emax mx ex lx) as [mrs' e'].
  destruct (shr_fexp f32_prec f32_emax _ e' loc_Exact) as [mrs'' e''].
  destruct (shr_m mrs'') as [|m|m]; [done | | done].
  by destruct (e'' <=? f32_emax - f32_prec).
Qed.

(** A count converts to a [float] that is not negative. *)
Lemma f32_of_size_t_sign n :
  0 <= n ->
  match f32_of_size_t n with
  | S754_zero s | S754_infinity s | S754_finite s _ _ => s = false
  | S754_nan => True
  end.
Proof.
  intros Hn. unfold f32_of_size_t, f32_of_Z, binary_normalize.
  destruct n as [|p|p]; [done | | lia].
  unfold binary_round. destruct (shl_align _ _ _) as [mz ez].
  apply binary_round_aux_sign.
Qed.

Lemma target_index_count_not_a_number index_count target_ratio :
  target_ratio = S754_nan \/ (exists s, target_ratio = S754_infinity s) ->
  target_index_count index_count target_ratio = None.
Proof.
  intros Hratio. unfold target_index_count, f32_mul.
  destruct (f32_of_size_t index_count) as [s'| s'| |s' m e];
    destruct Hratio as [->|[s ->]]; reflexivity.
Qed.

End RatioFacts.

(** X7: a target ratio that is NaN or infinite makes the conversion of
    [index_count * target_ratio] to [size_t] undefined: on non-empty input
    [simplify], [simplify_with_attributes] and [simplify_sloppy] have no
    defined result, whatever the library and the other arguments. *)
Theorem simplify_undefined_for_unbounded_ratio `{lib : Meshopt} (vertices : list Vector3)
    (indices : list Z) (uvs : list Vector2)
    (target_ratio target_error uv_weight : float) :
  vertices <> [] -> indices <> [] ->
  target_ratio = S754_nan \/ (exists s, target_ratio = S754_infinity s) ->
  simplify vertices indices target_ratio target_error = None
  /\ simplify_with_attributes vertices indices uvs target_ratio target_error uv_weight
     = None
  /\ simplify_sloppy vertices indices target_ratio target_error = None.
Proof.
  intros Hv Hi Hratio.
  unfold simplify, simplify_with_attributes, simplify_sloppy.
  rewrite (size_not_zero _ Hv), (size_not_zero _ Hi).
  by rewrite (target_index_count_not_a_number _ _ Hratio).
Qed.

Lemma simplify_undefined_for_unbounded_ratio_witness :
  @simplify Sample.library Sample.square Sample.square_indices S754_nan Sample.one = None
  /\ @simplify_with_attributes Sample.library Sample.square Sample.square_indices
       Sample.square_uvs S754_nan Sample.one Sample.one = None
  /\ @simplify_sloppy Sample.library Sample.square Sample.square_indices S754_nan
       Sample.one = None.
Proof.
  apply (@simplify_undefined_for_unbounded_ratio Sample.library Sample.square
           Sample.square_indices Sample.square_uvs S754_nan Sample.one Sample.one).
  - discriminate.
  - discriminate.
  - left. reflexivity.
Defined.

(** Six indices at a ratio of minus one sixteenth: the product truncates to
    0 and the target is 3; at minus one the conversion is undefined. *)
Example negative_ratios :
  target_index_count 6 (S754_finite true 8388608 (-27)) = Some 3
  /\ target_index_count 6 (SFopp Sample.one) = None.
Proof. split; vm_compute; reflexivity. Qed.

(** ** Mesh arrays *)

Section MeshArrayFacts.
Context `{lib : Meshopt} `{slots : MeshArrayType}.

Lemma simplify_without_error vertices indices target_ratio target_error d :
  vertices <> [] -> indices <> [] ->
  simplify vertices indices target_ratio target_error = Some d ->
  d !! "error" = None.
Proof.
  intros Hv Hi Hd. apply simplify_past_guard in Hd as (target & _ & Hd); [|done..].
  by apply simplified_dictionary_entries in Hd as (? & _).
Qed.

Lemma simplify_with_attributes_without_error vertices indices uvs target_ratio
    target_error uv_weight d :
  vertices <> [] -> indices <> [] ->
  simplify_with_attributes vertices indices uvs target_ratio target_error uv_weight
    = Some d ->
  d !! "error" = None.
Proof.
  intros Hv Hi Hd.
  apply simplify_with_attributes_past_guard in Hd
    as (target & _ & [[_ Hd]|[_ Hd]]); [| |done..].
  - apply simplify_with_attributes_at_returns in Hd as (d' & Hd' & ->).
    apply simplified_dictionary_entries in Hd' as (? & _).
    by rewrite lookup_insert_ne.
  - by apply simplified_dictionary_entries in Hd as (? & _).
Qed.

(** With a UV array of another length [simplify_with_attributes] is
    [simplify]. *)
Lemma simplify_with_attributes_other_length vertices indices uvs target_ratio
    target_error uv_weight :
  length uvs <> length vertices ->
  simplify_with_attributes vertices indices uvs target_ratio target_error uv_weight
  = simplify vertices indices target_ratio target_error.
Proof.
  intros Hlen. unfold simplify_with_attributes, simplify.
  destruct ((Z.of_nat (length vertices) =? 0) || (Z.of_nat (length indices) =? 0))
    eqn:Hempty; [done|].
  destruct (target_index_count _ _) as [target|] eqn:Htarget; simpl; [|done].
  by destruct (Z.eqb_spec (Z.of_nat (length uvs)) (Z.of_nat (length vertices))); [lia|].
Qed.

Lemma array_set_Some array slot value :
  (slot < length array)%nat -> array_set array slot value = Some (<[slot := value]> array).
Proof.
  intros Hslot. unfold array_set. by destruct (Nat.ltb_spec slot (length array)); [|lia].
Qed.

Lemma array_set_length array slot value array' :
  array_set array slot value = Some array' -> length array' = length array.
Proof.
  unfold array_set. destruct (slot <? length array)%nat; [|done].
  intros [= <-]. apply length_insert.
Qed.

Lemma simplified_arrays_length mesh_arrays has_uvs simplified result :
  simplified_arrays mesh_arrays has_uvs simplified = Some result ->
  length result = ARRAY_MAX.
Proof.
  unfold simplified_arrays. intros Hresult.
  destruct (array_set _ ARRAY_VERTEX _) as [r1|] eqn:H1; [|done]. simpl in Hresult.
  destruct (array_set r1 ARRAY_INDEX _) as [r2|] eqn:H2; [|done]. simpl in Hresult.
  apply array_set_length in H1, H2. rewrite length_replicate in H1.
  assert (exists r3, length r3 = ARRAY_MAX
                     /\ (v_normals ← array_get mesh_arrays ARRAY_NORMAL;
                         result ← (match v_normals with
                                   | MValue (VPackedVector3Array _) =>
                                       array_set r3 ARRAY_NORMAL v_normals
                                   | _ => Some r3
                                   end);
                         v_colors ← array_get mesh_arrays ARRAY_COLOR;
                         match v_colors with
                         | MPackedColorArray _ => array_set result ARRAY_COLOR v_colors
                         | _ => Some result
                         end) = Some result) as (r3 & H3 & Hrest).
  { destruct has_uvs.
    - destruct (array_get mesh_arrays ARRAY_TEX_UV) as [v|]; [|done]. simpl in Hresult.
      destruct (array_set r2 ARRAY_TEX_UV v) as [r3|] eqn:H3; [|done].
      apply array_set_length in H3. exists r3. split; [congruence | done].
    - exists r2. split; [congruence | done]. }
  clear Hresult.
  destruct (array_get mesh_arrays ARRAY_NORMAL) as [v_normals|]; [|done].
  simpl in Hrest.
  assert (exists r4, length r4 = ARRAY_MAX
                     /\ (v_colors ← array_get mesh_arrays ARRAY_COLOR;
                         match v_colors with
                         | MPackedColorArray _ => array_set r4 ARRAY_COLOR v_colors
                         | _ => Some r4
                         end) = Some result) as (r4 & H4 & Hcolors).
  { destruct (is_vector3_array v_normals) eqn:Htest.
    - destruct v_normals as [|[]| |]; try done. simpl in Hrest.
      destruct (array_set r3 ARRAY_NORMAL _) as [r4|] eqn:H4; [|done].
      apply array_set_length in H4. exists r4. split; [congruence | done].
    - exists r3. split; [done|]. by destruct v_normals as [|[]| |]. }
  destruct (array_get mesh_arrays ARRAY_COLOR) as [v_colors|]; [|done].
  simpl in Hcolors.
  destruct v_colors as [|[]| |]; try (injection Hcolors as <-; done).
  apply array_set_length in Hcolors. congruence.
Qed.

End MeshArrayFacts.

(** X9: the outcomes of [simplify_mesh_arrays], whatever the library.  An
    array with fewer than [ARRAY_MAX] slots, or whose vertex and index slots do
    not hold a [PackedVector3Array] and a [PackedInt32Array], gives the empty
    array and one logged error.  Otherwise nothing is logged: with no vertices
    or no indices the original array comes back, and in every other case an
    array of exactly [ARRAY_MAX] slots.  No warning is ever logged: the test
    for an ["error"] entry of the simplified dictionary never succeeds. *)
Theorem simplify_mesh_arrays_outcomes `{lib : Meshopt} `{slots : MeshArrayType}
    (mesh_arrays : list MeshVariant) (target_ratio target_error : float)
    (result : list MeshVariant) (log : list LogEntry) :
  simplify_mesh_arrays mesh_arrays target_ratio target_error = Some (result, log) ->
  match (if (length mesh_arrays <? ARRAY_MAX)%nat then None
         else mesh_geometry mesh_arrays) with
  | None => result = [] /\ exists message, log = [PushError message]
  | Some (vertices, indices) =>
      log = []
      /\ (vertices = [] \/ indices = [] -> result = mesh_arrays)
      /\ (vertices <> [] -> indices <> [] -> length result = ARRAY_MAX)
  end.
Proof.
  unfold simplify_mesh_arrays, mesh_geometry, array_get.
  destruct (length mesh_arrays <? ARRAY_MAX)%nat; [intros [= <- <-]; eauto|].
  destruct (mesh_arrays !! ARRAY_VERTEX) as [v_vertices|]; [|done]. simpl.
  destruct (mesh_arrays !! ARRAY_INDEX) as [v_indices|]; [|done]. simpl.
  destruct v_vertices as [|[| | | |vertices|]| |];
    destruct v_indices as [|[| | |indices| |]| |];
    try (intros [= <- <-]; eauto; fail).
  destruct ((Z.of_nat (length vertices) =? 0) || (Z.of_nat (length indices) =? 0))
    eqn:Hempty.
  - intros [= <- <-]. split; [done|]. split; [done|]. intros Hv Hi.
    rewrite (size_not_zero _ Hv), (size_not_zero _ Hi) in Hempty. done.
  - assert (vertices <> [] /\ indices <> []) as [Hv Hi].
    { apply orb_false_iff in Hempty as [Hv Hi].
      split; intros ->; simpl in *; done. }
    destruct (mesh_arrays !! ARRAY_TEX_UV) as [v_uvs|]; [|done]. simpl.
    match goal with
    | |- context [mbind _ ?call] => destruct call as [d|] eqn:Hcall; [|done]
    end.
    simpl.
    assert (d !! "error" = None) as Hnone.
    { destruct (_ && _).
      - by eapply simplify_with_attributes_without_error.
      - by eapply simplify_without_error. }
    rewrite bool_decide_false by (rewrite Hnone; by intros [? ?]).
    destruct (simplified_arrays _ _ d) as [r|] eqn:Hr; [|done].
    simpl. intros [= <- <-]. split; [done|]. split.
    + intros [->| ->]; done.
    + intros _ _. by eapply simplified_arrays_length.
Qed.

Lemma simplify_mesh_arrays_outcomes_witness :
  (@nil LogEntry) = []
  /\ (Sample.square = [] \/ Sample.square_indices = [] ->
      SampleArrays.square_simplified = SampleArrays.square)
  /\ (Sample.square <> [] -> Sample.square_indices <> [] ->
      length SampleArrays.square_simplified = @ARRAY_MAX godot4_arrays).
Proof.
  apply (@simplify_mesh_arrays_outcomes Sample.library godot4_arrays
           SampleArrays.square Sample.half Sample.one
           SampleArrays.square_simplified []).
  vm_compute. reflexivity.
Defined.

(** A mesh array of twelve slots, and one with no vertices. *)
Example simplify_mesh_arrays_degenerate :
  @simplify_mesh_arrays Sample.library godot4_arrays (take 12 SampleArrays.square)
    Sample.half Sample.one
  = Some ([], [PushError "MeshOptimizerGD: Invalid mesh arrays size"])
  /\ @simplify_mesh_arrays Sample.library godot4_arrays SampleArrays.hollow
       Sample.half Sample.one
     = Some (SampleArrays.hollow, []).
Proof. split; vm_compute; reflexivity. Qed.

Section MeshArraySlots.
Context `{lib : Meshopt} `{slots : MeshArrayType}.

Lemma array_type_ok_distinct :
  array_type_ok ->
  ARRAY_VERTEX <> ARRAY_NORMAL /\ ARRAY_VERTEX <> ARRAY_COLOR
  /\ ARRAY_VERTEX <> ARRAY_TEX_UV /\ ARRAY_VERTEX <> ARRAY_INDEX
  /\ ARRAY_NORMAL <> ARRAY_COLOR /\ ARRAY_NORMAL <> ARRAY_TEX_UV
  /\ ARRAY_NORMAL <> ARRAY_INDEX /\ ARRAY_COLOR <> ARRAY_TEX_UV
  /\ ARRAY_COLOR <> ARRAY_INDEX /\ ARRAY_TEX_UV <> ARRAY_INDEX.
Proof.
  intros [Hdistinct _].
  rewrite !NoDup_cons, !not_elem_of_cons in Hdistinct.
  destruct Hdistinct
    as ((Hvn & Hvc & Hvu & Hvi & _) & (Hnc & Hnu & Hni & _) & (Hcu & Hci & _)
        & (Hui & _) & _).
  repeat split; assumption.
Qed.

Lemma array_type_ok_below :
  array_type_ok ->
  (ARRAY_VERTEX < ARRAY_MAX /\ ARRAY_NORMAL < ARRAY_MAX /\ ARRAY_COLOR < ARRAY_MAX
   /\ ARRAY_TEX_UV < ARRAY_MAX /\ ARRAY_INDEX < ARRAY_MAX)%nat.
Proof.
  intros [_ Hbelow]. rewrite !Forall_cons in Hbelow.
  destruct Hbelow as (Hv & Hn & Hc & Hu & Hi & _).
  repeat split; assumption.
Qed.

Lemma simplified_arrays_stores mesh_arrays has_uvs simplified v_uvs v_normals v_colors :
  array_type_ok ->
  mesh_arrays !! ARRAY_TEX_UV = Some v_uvs ->
  mesh_arrays !! ARRAY_NORMAL = Some v_normals ->
  mesh_arrays !! ARRAY_COLOR = Some v_colors ->
  simplified_arrays mesh_arrays has_uvs simplified
  = Some (store_if (is_color_array v_colors)
            (store_if (is_vector3_array v_normals)
               (store_if has_uvs
                  (<[ARRAY_INDEX := dictionary_get simplified "indices"]>
                     (<[ARRAY_VERTEX := dictionary_get simplified "vertices"]>
                        (replicate ARRAY_MAX MNil)))
                  ARRAY_TEX_UV v_uvs)
               ARRAY_NORMAL v_normals)
            ARRAY_COLOR v_colors).
Proof.
  intros Hok Huvs Hnormals Hcolors.
  destruct (array_type_ok_below Hok) as (Hv & Hn & Hc & Hu & Hi).
  unfold simplified_arrays, array_get, store_if. rewrite Huvs, Hnormals, Hcolors.
  rewrite array_set_Some by (by rewrite length_replicate). simpl.
  rewrite array_set_Some by (by rewrite length_insert, length_replicate). simpl.
  destruct has_uvs; simpl;
    [rewrite array_set_Some by (by rewrite !length_insert, length_replicate); simpl|];
    (destruct v_normals as [|[]| |]; simpl;
     try (rewrite array_set_Some by (by rewrite !length_insert, length_replicate);
          simpl));
    (destruct v_colors as [|[]| |]; simpl;
     try (rewrite array_set_Some by (by rewrite !length_insert, length_replicate));
     done).
Qed.

Lemma lookup_store_if test array slot value other :
  (slot < length array)%nat ->
  store_if test array slot value !! other
  = if test && bool_decide (other = slot) then Some value else array !! other.
Proof.
  intros Hslot. unfold store_if. destruct test; simpl; [|done].
  case_bool_decide as Heq.
  - subst. by apply list_lookup_insert_eq.
  - by apply list_lookup_insert_ne.
Qed.

Lemma length_store_if test array slot value :
  length (store_if test array slot value) = length array.
Proof. unfold store_if. destruct test; [apply length_insert | done]. Qed.

Lemma simplify_keeps_books vertices indices target_ratio target_error d :
  vertices <> [] -> indices <> [] ->
  simplify vertices indices target_ratio target_error = Some d ->
  exists result_error, simplify_bookkeeping vertices indices result_error d.
Proof.
  intros Hv Hi Hd.
  apply simplify_past_guard in Hd as (target & _ & Hd); [|done..].
  eexists. by eapply simplified_dictionary_bookkeeping.
Qed.

Lemma mesh_simplified_keeps_books mesh_arrays vertices indices target_ratio
    target_error d :
  vertices <> [] -> indices <> [] ->
  mesh_simplified mesh_arrays vertices indices target_ratio target_error = Some d ->
  exists result_error, simplify_bookkeeping vertices indices result_error d.
Proof.
  intros Hv Hi. unfold mesh_simplified.
  destruct (mesh_uvs mesh_arrays) as [uvs|]; [|by apply simplify_keeps_books].
  intros Hd.
  apply simplify_with_attributes_past_guard in Hd
    as (target & _ & [[_ Hd]|[_ Hd]]); [| |done..].
  - apply simplify_with_attributes_at_returns in Hd as (d' & Hd' & ->).
    eexists. by apply simplify_bookkeeping_uvs, simplified_dictionary_bookkeeping.
  - eexists. by eapply simplified_dictionary_bookkeeping.
Qed.

Lemma mesh_simplified_without_error mesh_arrays vertices indices target_ratio
    target_error d :
  mesh_simplified mesh_arrays vertices indices target_ratio target_error = Some d ->
  vertices <> [] -> indices <> [] ->
  d !! "error" = None.
Proof.
  unfold mesh_simplified. destruct (mesh_uvs mesh_arrays) as [uvs|]; intros Hd Hv Hi.
  - by eapply simplify_with_attributes_without_error.
  - by eapply simplify_without_error.
Qed.

(** Past its guards [simplify_mesh_arrays] is one simplifier call followed by
    the rebuilding of the array. *)
Lemma simplify_mesh_arrays_past_guards mesh_arrays target_ratio target_error
    vertices indices :
  array_type_ok ->
  (ARRAY_MAX <= length mesh_arrays)%nat ->
  mesh_geometry mesh_arrays = Some (vertices, indices) ->
  vertices <> [] -> indices <> [] ->
  simplify_mesh_arrays mesh_arrays target_ratio target_error
  = d ← mesh_simplified mesh_arrays vertices indices target_ratio target_error;
    Some (rebuilt_arrays mesh_arrays d, []).
Proof.
  intros Hok Hmax Hgeometry Hv Hi.
  destruct (array_type_ok_below Hok) as (Hbv & Hbn & Hbc & Hbu & Hbi).
  destruct (lookup_lt_is_Some_2 mesh_arrays ARRAY_TEX_UV ltac:(lia)) as [v_uvs Huvs].
  destruct (lookup_lt_is_Some_2 mesh_arrays ARRAY_NORMAL ltac:(lia))
    as [v_normals Hnormals].
  destruct (lookup_lt_is_Some_2 mesh_arrays ARRAY_COLOR ltac:(lia))
    as [v_colors Hcolors].
  unfold simplify_mesh_arrays, array_get.
  destruct (Nat.ltb_spec (length mesh_arrays) ARRAY_MAX); [lia|].
  unfold mesh_geometry in Hgeometry.
  destruct (mesh_arrays !! ARRAY_VERTEX) as [[|[| | | |vertices'|]| |]|]; try done.
  destruct (mesh_arrays !! ARRAY_INDEX) as [[|[| | |indices'| |]| |]|]; try done.
  injection Hgeometry as -> ->. simpl.
  rewrite (size_not_zero _ Hv), (size_not_zero _ Hi). simpl.
  rewrite Huvs. simpl.
  assert ((if match v_uvs with MValue (VPackedVector2Array _) => true | _ => false end
              && (Z.of_nat (length match v_uvs with
                                   | MValue (VPackedVector2Array uvs) => uvs
                                   | _ => []
                                   end) =? Z.of_nat (length vertices))
           then simplify_with_attributes vertices indices
                  match v_uvs with MValue (VPackedVector2Array uvs) => uvs | _ => [] end
                  target_ratio target_error f32_one
           else simplify vertices indices target_ratio target_error)
          = mesh_simplified mesh_arrays vertices indices target_ratio target_error)
    as ->.
  { unfold mesh_simplified, mesh_uvs. rewrite Huvs.
    destruct v_uvs as [|[| | | | |uvs]| |]; try done. simpl.
    destruct (Z.eqb_spec (Z.of_nat (length uvs)) (Z.of_nat (length vertices)));
      [done|].
    symmetry. apply simplify_with_attributes_other_length. lia. }
  destruct (mesh_simplified _ _ _ _ _) as [d|] eqn:Hd; [|done]. simpl.
  rewrite bool_decide_false
    by (rewrite (mesh_simplified_without_error _ _ _ _ _ _ Hd Hv Hi); by intros [? ?]).
  rewrite (simplified_arrays_stores _ _ _ _ _ _ Hok Huvs Hnormals Hcolors). simpl.
  unfold rebuilt_arrays. rewrite Huvs, Hnormals, Hcolors. simpl.
  by destruct v_uvs as [|[]| |].
Qed.

Lemma lookup_rebuilt_arrays mesh_arrays simplified slot :
  array_type_ok ->
  (slot < ARRAY_MAX)%nat ->
  rebuilt_arrays mesh_arrays simplified !! slot
  = Some (if bool_decide (slot = ARRAY_COLOR)
          then preserved is_color_array mesh_arrays ARRAY_COLOR
          else if bool_decide (slot = ARRAY_NORMAL)
          then preserved is_vector3_array mesh_arrays ARRAY_NORMAL
          else if bool_decide (slot = ARRAY_TEX_UV)
          then preserved is_vector2_array mesh_arrays ARRAY_TEX_UV
          else if bool_decide (slot = ARRAY_INDEX)
          then dictionary_get simplified "indices"
          else if bool_decide (slot = ARRAY_VERTEX)
          then dictionary_get simplified "vertices"
          else MNil).
Proof.
  intros Hok Hslot.
  destruct (array_type_ok_below Hok) as (Hbv & Hbn & Hbc & Hbu & Hbi).
  destruct (array_type_ok_distinct Hok)
    as (Hvn & Hvc & Hvu & Hvi & Hnc & Hnu & Hni & Hcu & Hci & Hui).
  unfold rebuilt_arrays, preserved.
  rewrite !lookup_store_if
    by (by rewrite ?length_store_if, !length_insert, length_replicate).
  set (base := <[ARRAY_INDEX := _]> (<[ARRAY_VERTEX := _]> _)).
  assert (base !! slot
          = Some (if bool_decide (slot = ARRAY_INDEX)
                  then dictionary_get simplified "indices"
                  else if bool_decide (slot = ARRAY_VERTEX)
                  then dictionary_get simplified "vertices"
                  else MNil)) as ->.
  { unfold base. case_bool_decide as Hi.
    - subst slot.
      by rewrite list_lookup_insert_eq by (by rewrite length_insert, length_replicate).
    - rewrite list_lookup_insert_ne by done. case_bool_decide as Hv.
      + subst slot. by rewrite list_lookup_insert_eq by (by rewrite length_replicate).
      + rewrite list_lookup_insert_ne by done. by apply lookup_replicate_2. }
  clear base. case_bool_decide as Hc.
  { subst slot. rewrite !bool_decide_false by congruence.
    rewrite !andb_false_r, andb_true_r.
    destruct (mesh_arrays !! ARRAY_COLOR) as [v|]; simpl; [|done].
    by destruct (is_color_array v). }
  rewrite andb_false_r. case_bool_decide as Hn.
  { subst slot. rewrite !bool_decide_false by congruence.
    rewrite !andb_false_r, andb_true_r.
    destruct (mesh_arrays !! ARRAY_NORMAL) as [v|]; simpl; [|done].
    by destruct (is_vector3_array v). }
  rewrite andb_false_r. case_bool_decide as Hu.
  { subst slot. rewrite !bool_decide_false by congruence.
    rewrite andb_true_r.
    destruct (mesh_arrays !! ARRAY_TEX_UV) as [v|]; simpl; [|done].
    by destruct (is_vector2_array v). }
  by rewrite andb_false_r.
Qed.

End MeshArraySlots.

(** ** The array [simplify_mesh_arrays] hands back *)

(** X10: what each slot of a simplified mesh array holds, whatever the
    library.  For an array of at least [ARRAY_MAX] slots with a non-empty
    [PackedVector3Array] of vertices and a non-empty [PackedInt32Array] of
    indices, a result of [simplify_mesh_arrays] has the vertex slot of the
    original, an index slot with a [PackedInt32Array] of [int32] values no
    longer than the original one, the UV, normal and colour slots of the
    original where they hold a [PackedVector2Array], a [PackedVector3Array]
    and a [PackedColorArray] and nil where they hold anything else, and nil in
    every other slot: tangents, bones, weights and custom channels are not
    carried over. *)
Theorem simplify_mesh_arrays_slots `{lib : Meshopt} `{slots : MeshArrayType}
    (mesh_arrays : list MeshVariant) (target_ratio target_error : float)
    (vertices : list Vector3) (indices : list Z)
    (result : list MeshVariant) (log : list LogEntry) :
  array_type_ok ->
  (ARRAY_MAX <= length mesh_arrays)%nat ->
  mesh_geometry mesh_arrays = Some (vertices, indices) ->
  vertices <> [] -> indices <> [] ->
  simplify_mesh_arrays mesh_arrays target_ratio target_error = Some (result, log) ->
  result !! ARRAY_VERTEX = mesh_arrays !! ARRAY_VERTEX
  /\ (exists new_indices,
        result !! ARRAY_INDEX = Some (MValue (VPackedInt32Array new_indices))
        /\ (length new_indices <= length indices)%nat
        /\ Forall is_int32 new_indices)
  /\ result !! ARRAY_TEX_UV = Some (preserved is_vector2_array mesh_arrays ARRAY_TEX_UV)
  /\ result !! ARRAY_NORMAL = Some (preserved is_vector3_array mesh_arrays ARRAY_NORMAL)
  /\ result !! ARRAY_COLOR = Some (preserved is_color_array mesh_arrays ARRAY_COLOR)
  /\ (forall slot,
        (slot < ARRAY_MAX)%nat ->
        slot ∉ [ARRAY_VERTEX; ARRAY_INDEX; ARRAY_TEX_UV; ARRAY_NORMAL; ARRAY_COLOR] ->
        result !! slot = Some MNil).
Proof.
  intros Hok Hmax Hgeometry Hv Hi.
  rewrite (simplify_mesh_arrays_past_guards _ _ _ _ _ Hok Hmax Hgeometry Hv Hi).
  destruct (mesh_simplified _ _ _ _ _) as [d|] eqn:Hd; [|done].
  simpl. intros [= <- <-].
  destruct (array_type_ok_below Hok) as (Hbv & Hbn & Hbc & Hbu & Hbi).
  destruct (array_type_ok_distinct Hok)
    as (Hvn & Hvc & Hvu & Hvi & Hnc & Hnu & Hni & Hcu & Hci & Hui).
  apply mesh_simplified_keeps_books in Hd
    as (result_error & Hvertices & _ & _ & new_indices & Hindices & Hle & Hint & _);
    [|done..].
  rewrite !lookup_rebuilt_arrays by done.
  repeat split.
  - rewrite !bool_decide_false by congruence. rewrite bool_decide_true by done.
    unfold dictionary_get. rewrite Hvertices.
    unfold mesh_geometry in Hgeometry.
    destruct (mesh_arrays !! ARRAY_VERTEX) as [[|[| | | |vertices'|]| |]|]; try done.
    destruct (mesh_arrays !! ARRAY_INDEX) as [[|[| | |indices'| |]| |]|]; try done.
    by injection Hgeometry as -> ->.
  - exists new_indices. rewrite !bool_decide_false by congruence.
    rewrite bool_decide_true by done. unfold dictionary_get. by rewrite Hindices.
  - rewrite !bool_decide_false by congruence. by rewrite bool_decide_true.
  - rewrite !bool_decide_false by congruence. by rewrite bool_decide_true.
  - by rewrite bool_decide_true.
  - intros slot Hslot Hother. rewrite lookup_rebuilt_arrays by done.
    rewrite !not_elem_of_cons in Hother.
    destruct Hother as (? & ? & ? & ? & ? & _).
    by rewrite !bool_decide_false.
Qed.

Lemma simplify_mesh_arrays_slots_witness :
  SampleArrays.square_simplified !! @ARRAY_VERTEX godot4_arrays
    = SampleArrays.square !! @ARRAY_VERTEX godot4_arrays
  /\ (exists new_indices,
        SampleArrays.square_simplified !! @ARRAY_INDEX godot4_arrays
          = Some (MValue (VPackedInt32Array new_indices))
        /\ (length new_indices <= length Sample.square_indices)%nat
        /\ Forall is_int32 new_indices)
  /\ SampleArrays.square_simplified !! @ARRAY_TEX_UV godot4_arrays
     = Some (preserved is_vector2_array SampleArrays.square (@ARRAY_TEX_UV godot4_arrays))
  /\ SampleArrays.square_simplified !! @ARRAY_NORMAL godot4_arrays
     = Some (preserved is_vector3_array SampleArrays.square (@ARRAY_NORMAL godot4_arrays))
  /\ SampleArrays.square_simplified !! @ARRAY_COLOR godot4_arrays
     = Some (preserved is_color_array SampleArrays.square (@ARRAY_COLOR godot4_arrays))
  /\ (forall slot,
        (slot < @ARRAY_MAX godot4_arrays)%nat ->
        slot ∉ [@ARRAY_VERTEX godot4_arrays; @ARRAY_INDEX godot4_arrays;
                @ARRAY_TEX_UV godot4_arrays; @ARRAY_NORMAL godot4_arrays;
                @ARRAY_COLOR godot4_arrays] ->
        SampleArrays.square_simplified !! slot = Some MNil).
Proof.
  apply (@simplify_mesh_arrays_slots Sample.library godot4_arrays
           SampleArrays.square Sample.half Sample.one Sample.square
           Sample.square_indices SampleArrays.square_simplified []).
  - split.
    + apply (bool_decide_unpack _). vm_compute. reflexivity.
    + repeat (constructor; [simpl; lia|]). constructor.
  - simpl. lia.
  - reflexivity.
  - discriminate.
  - discriminate.
  - vm_compute. reflexivity.
Defined.

(** X11: past its guards [simplify_mesh_arrays] is defined exactly when its
    simplifier call is, and that call is [simplify_with_attributes] at weight
    1 for a UV array of any length, [simplify] without one: the test of the
    UV count against the vertex count changes nothing.  The result is logged
    nowhere and carries the ["vertices"] and ["indices"] entries of the
    simplified dictionary in its vertex and index slots. *)
Theorem simplify_mesh_arrays_follows_simplifier `{lib : Meshopt}
    `{slots : MeshArrayType} (mesh_arrays : list MeshVariant)
    (target_ratio target_error : float) (vertices : list Vector3) (indices : list Z) :
  array_type_ok ->
  (ARRAY_MAX <= length mesh_arrays)%nat ->
  mesh_geometry mesh_arrays = Some (vertices, indices) ->
  vertices <> [] -> indices <> [] ->
  match mesh_simplified mesh_arrays vertices indices target_ratio target_error with
  | None => simplify_mesh_arrays mesh_arrays target_ratio target_error = None
  | Some d =>
      exists result,
        simplify_mesh_arrays mesh_arrays target_ratio target_error = Some (result, [])
        /\ length result = ARRAY_MAX
        /\ result !! ARRAY_VERTEX = Some (dictionary_get d "vertices")
        /\ result !! ARRAY_INDEX = Some (dictionary_get d "indices")
  end.
Proof.
  intros Hok Hmax Hgeometry Hv Hi.
  rewrite (simplify_mesh_arrays_past_guards _ _ _ _ _ Hok Hmax Hgeometry Hv Hi).
  destruct (mesh_simplified _ _ _ _ _) as [d|] eqn:Hd; [|done].
  simpl. exists (rebuilt_arrays mesh_arrays d).
  destruct (array_type_ok_below Hok) as (Hbv & Hbn & Hbc & Hbu & Hbi).
  destruct (array_type_ok_distinct Hok)
    as (Hvn & Hvc & Hvu & Hvi & Hnc & Hnu & Hni & Hcu & Hci & Hui).
  split; [done|]. split.
  { unfold rebuilt_arrays.
    by rewrite !length_store_if, !length_insert, length_replicate. }
  rewrite !lookup_rebuilt_arrays by done.
  split; rewrite !bool_decide_false by congruence; by rewrite bool_decide_true.
Qed.

Lemma simplify_mesh_arrays_follows_simplifier_witness :
  match @mesh_simplified Sample.library godot4_arrays SampleArrays.square
          Sample.square Sample.square_indices Sample.half Sample.one with
  | None =>
      @simplify_mesh_arrays Sample.library godot4_arrays SampleArrays.square
        Sample.half Sample.one = None
  | Some d =>
      exists result,
        @simplify_mesh_arrays Sample.library godot4_arrays SampleArrays.square
          Sample.half Sample.one = Some (result, [])
        /\ length result = @ARRAY_MAX godot4_arrays
        /\ result !! @ARRAY_VERTEX godot4_arrays = Some (dictionary_get d "vertices")
        /\ result !! @ARRAY_INDEX godot4_arrays = Some (dictionary_get d "indices")
  end.
Proof.
  apply (@simplify_mesh_arrays_follows_simplifier Sample.library godot4_arrays
           SampleArrays.square Sample.half Sample.one Sample.square
           Sample.square_indices).
  - split.
    + apply (bool_decide_unpack _). vm_compute. reflexivity.
    + repeat (constructor; [simpl; lia|]). constructor.
  - simpl. lia.
  - reflexivity.
  - discriminate.
  - discriminate.
Defined.

(** A UV array shorter than the vertices is kept in the result, and the call
    is the plain one. *)
Example simplify_mesh_arrays_short_uvs :
  let short := <[4%nat := MValue (VPackedVector2Array [mkVector2 f32_zero f32_zero])]>
                 SampleArrays.square in
  @simplify_mesh_arrays Sample.library godot4_arrays short Sample.half Sample.one
  = Some (<[4%nat := MValue (VPackedVector2Array [mkVector2 f32_zero f32_zero])]>
            SampleArrays.square_simplified, []).
Proof. vm_compute. reflexivity. Qed.

(** ** Facts about [float] rounding *)

Section FloatFacts.

Lemma fexp_f32 x : fexp f32_prec f32_emax x = Z.max (x - 24) (-149).
Proof. reflexivity. Qed.

Lemma digits2_pos_size p : digits2_pos p = Pos.size p.
Proof. induction p; simpl; congruence. Qed.

Lemma digits2_pos_bounds p :
  2 ^ (Z.pos (digits2_pos p) - 1) <= Z.pos p < 2 ^ Z.pos (digits2_pos p).
Proof.
  rewrite digits2_pos_size.
  pose proof (Pos.size_gt p) as Hgt. pose proof (Pos.size_le p) as Hle.
  apply Pos2Z.pos_lt_pos in Hgt. apply Pos2Z.pos_le_pos in Hle.
  rewrite Pos2Z.inj_pow in Hgt, Hle.
  split; [|done].
  replace (Z.pos (Pos.size p)) with (Z.succ (Z.pos (Pos.size p) - 1)) in Hle by lia.
  rewrite Z.pow_succ_r in Hle by lia. lia.
Qed.

Lemma Zdigits2_nonneg z : 0 <= Zdigits2 z.
Proof. destruct z; simpl; lia. Qed.

Lemma Zdigits2_lt z : 0 <= z -> z < 2 ^ Zdigits2 z.
Proof.
  destruct z as [|p|p]; simpl Zdigits2; [lia| |lia].
  intros _. apply digits2_pos_bounds.
Qed.

Lemma Zdigits2_le z k : 0 <= z < 2 ^ k -> 0 <= k -> Zdigits2 z <= k.
Proof.
  intros [Hz Hlt] Hk. destruct z as [|p|p]; simpl Zdigits2; [lia| |lia].
  destruct (digits2_pos_bounds p) as [Hlow _].
  assert (2 ^ (Z.pos (digits2_pos p) - 1) < 2 ^ k) as Hpow by lia.
  apply Z.pow_lt_mono_r_iff in Hpow; lia.
Qed.

Lemma Zdigits2_succ z : 0 <= z -> Zdigits2 (z + 1) <= Zdigits2 z + 1.
Proof.
  intros Hz. pose proof (Zdigits2_lt z Hz) as Hlt.
  pose proof (Zdigits2_nonneg z) as Hd.
  apply Zdigits2_le; [|lia]. rewrite Z.pow_add_r by lia. lia.
Qed.

Lemma Zdigits2_div z k :
  0 <= z -> 0 <= k -> Zdigits2 (z / 2 ^ k) <= Z.max 0 (Zdigits2 z - k).
Proof.
  intros Hz Hk. pose proof (Zdigits2_lt z Hz) as Hlt.
  pose proof (Zdigits2_nonneg z) as Hd.
  assert (0 < 2 ^ k) as Hpos by (apply Z.pow_pos_nonneg; lia).
  apply Zdigits2_le; [|lia]. split; [apply Z.div_pos; lia|].
  apply Z.div_lt_upper_bound; [done|]. rewrite <- Z.pow_add_r by lia.
  eapply Z.lt_le_trans; [exact Hlt|]. apply Z.pow_le_mono_r; lia.
Qed.

Lemma Zdigits2_mul a b :
  Zdigits2 (Z.pos (a * b)) <= Zdigits2 (Z.pos a) + Zdigits2 (Z.pos b).
Proof.
  pose proof (Zdigits2_lt (Z.pos a) ltac:(lia)) as Ha.
  pose proof (Zdigits2_lt (Z.pos b) ltac:(lia)) as Hb.
  pose proof (Zdigits2_nonneg (Z.pos a)). pose proof (Zdigits2_nonneg (Z.pos b)).
  apply Zdigits2_le; [|lia]. rewrite Pos2Z.inj_mul, Z.pow_add_r by lia. nia.
Qed.

Lemma iter_pos_iter {A : Type} (f : A -> A) n x : SpecFloat.iter_pos f n x = Pos.iter f x n.
Proof.
  revert x. induction n as [n IH|n IH|]; intros x; simpl; [|by rewrite !IH|done].
  by rewrite !IH, <- !Pos.iter_swap.
Qed.

Lemma shr_m_shr_1 r : 0 <= shr_m r -> shr_m (shr_1 r) = shr_m r / 2.
Proof.
  destruct r as [m r s]. cbn [shr_m]. intros Hm.
  destruct m as [|[p|p|]|]; cbn [shr_1 shr_m]; [done| | |done|lia].
  - apply Z.div_unique with 1; lia.
  - apply Z.div_unique with 0; lia.
Qed.

Lemma shr_m_iter r k :
  0 <= shr_m r -> shr_m (Pos.iter shr_1 r k) = shr_m r / 2 ^ Z.pos k.
Proof.
  intros Hm. induction k as [|k IH] using Pos.peano_ind.
  - simpl. rewrite shr_m_shr_1 by done. done.
  - rewrite Pos.iter_succ, shr_m_shr_1, IH.
    + rewrite Z.div_div by lia.
      rewrite Pos2Z.inj_succ, Z.pow_succ_r by lia. f_equal. lia.
    + rewrite IH. apply Z.div_pos; lia.
Qed.

Lemma shr_record_of_loc_m m l : shr_m (shr_record_of_loc m l) = m.
Proof. by destruct l as [|[]]. Qed.

(** One shift of [binary_round_aux]: the exponent it reaches and the mantissa
    it keeps. *)
Lemma shr_fexp_spec m e l :
  0 <= m ->
  e <= (shr_fexp f32_prec f32_emax m e l).2
  /\ (shr_fexp f32_prec f32_emax m e l).2
     = Z.max e (fexp f32_prec f32_emax (Zdigits2 m + e))
  /\ shr_m (shr_fexp f32_prec f32_emax m e l).1
     = m / 2 ^ ((shr_fexp f32_prec f32_emax m e l).2 - e).
Proof.
  intros Hm. unfold shr_fexp, shr.
  destruct (fexp f32_prec f32_emax (Zdigits2 m + e) - e) as [|k|k] eqn:Hshift; simpl.
  - rewrite shr_record_of_loc_m, Z.sub_diag, Z.div_1_r. lia.
  - rewrite iter_pos_iter, shr_m_iter by (by rewrite shr_record_of_loc_m).
    rewrite shr_record_of_loc_m. replace (e + Z.pos k - e) with (Z.pos k) by lia. lia.
  - rewrite shr_record_of_loc_m, Z.sub_diag, Z.div_1_r. lia.
Qed.

Lemma round_nearest_even_bounds m l :
  m <= round_nearest_even m l <= m + 1.
Proof. destruct l as [|[]]; simpl; [lia| |lia|lia]. destruct (Z.even m); lia. Qed.

(** Rounding a mantissa that is not negative: never NaN, an infinity only
    from an exponent above 104, and otherwise a magnitude at most one above
    the one it was given. *)
Lemma binary_round_aux_magnitude s mx ex lx :
  0 <= mx ->
  match binary_round_aux f32_prec f32_emax s mx ex lx with
  | S754_zero s' => s' = s
  | S754_finite s' m e =>
      s' = s
      /\ e <= Z.max (Z.max ex (Zdigits2 mx + ex - 23)) (-149)
      /\ Z.pos (digits2_pos m) + e <= Z.max (Z.max ex (Zdigits2 mx + ex)) (-149) + 1
  | S754_infinity s' => 104 < Z.max (Z.max ex (Zdigits2 mx + ex - 23)) (-149)
  | S754_nan => False
  end.
Proof.
  intros Hmx. unfold binary_round_aux.
  pose proof (shr_fexp_spec mx ex lx Hmx) as (Hle1 & He1 & Hm1).
  destruct (shr_fexp f32_prec f32_emax mx ex lx) as [mrs' e'].
  simpl in Hle1, He1, Hm1.
  set (m1 := round_nearest_even (shr_m mrs') (loc_of_shr_record mrs')).
  pose proof (round_nearest_even_bounds (shr_m mrs') (loc_of_shr_record mrs')) as Hround.
  fold m1 in Hround.
  assert (0 <= shr_m mrs') as Hpos1 by (rewrite Hm1; apply Z.div_pos; lia).
  assert (Zdigits2 (shr_m mrs') <= Z.max 0 (Zdigits2 mx - (e' - ex))) as Hd1.
  { rewrite Hm1. apply Zdigits2_div; lia. }
  assert (Zdigits2 m1 <= Zdigits2 (shr_m mrs') + 1) as Hdm1.
  { destruct (Z.eq_dec m1 (shr_m mrs')) as [->|]; [lia|].
    replace m1 with (shr_m mrs' + 1) by lia. by apply Zdigits2_succ. }
  pose proof (shr_fexp_spec m1 e' loc_Exact ltac:(lia)) as (Hle2 & He2 & Hm2).
  destruct (shr_fexp f32_prec f32_emax m1 e' loc_Exact) as [mrs'' e''].
  simpl in Hle2, He2, Hm2.
  assert (0 <= shr_m mrs'') as Hpos2 by (rewrite Hm2; apply Z.div_pos; lia).
  assert (Zdigits2 (shr_m mrs'') <= Z.max 0 (Zdigits2 m1 - (e'' - e'))) as Hd2.
  { rewrite Hm2. apply Zdigits2_div; lia. }
  rewrite fexp_f32 in He1, He2.
  pose proof (Zdigits2_nonneg mx).
  destruct (shr_m mrs'') as [|m|m] eqn:Hm; [done| |lia].
  simpl Zdigits2 in Hd2.
  destruct (Z.leb_spec e'' (f32_emax - f32_prec)) as [Hfinite|Hinfinite].
  - split; [done|]. lia.
  - unfold f32_emax, f32_prec in Hinfinite. lia.
Qed.

Lemma iter_xO_value p d : Z.pos (Pos.iter xO p d) = Z.pos p * 2 ^ Z.pos d.
Proof.
  induction d as [|d IH] using Pos.peano_ind; [simpl; lia|].
  rewrite Pos.iter_succ, Pos2Z.inj_xO, IH, Pos2Z.inj_succ, Z.pow_succ_r by lia. lia.
Qed.

Lemma digits2_pos_iter_xO p d :
  Z.pos (digits2_pos (Pos.iter xO p d)) = Z.pos (digits2_pos p) + Z.pos d.
Proof.
  induction d as [|d IH] using Pos.peano_ind; [simpl; lia|].
  rewrite Pos.iter_succ. simpl digits2_pos. lia.
Qed.

(** Aligning a mantissa keeps its magnitude and never raises the exponent. *)
Lemma shl_align_spec p e e' :
  (shl_align p e e').2 = Z.min e e'
  /\ Z.pos (shl_align p e e').1 = Z.pos p * 2 ^ (e - (shl_align p e e').2)
  /\ Z.pos (digits2_pos (shl_align p e e').1) + (shl_align p e e').2
     = Z.pos (digits2_pos p) + e.
Proof.
  unfold shl_align. destruct (e' - e) as [|d|d] eqn:Hshift; simpl.
  - rewrite Z.sub_diag. lia.
  - rewrite Z.sub_diag. lia.
  - rewrite iter_xO_value, digits2_pos_iter_xO.
    replace (e - e') with (Z.pos d) by lia. lia.
Qed.

(** A count below [2 ^ a] converts to zero or to a finite [float] of
    magnitude at most [a + 1]. *)
Lemma f32_of_size_t_magnitude n a :
  0 <= n < 2 ^ a -> 0 <= a <= 127 ->
  match f32_of_size_t n with
  | S754_zero s => s = false
  | S754_finite s m e =>
      s = false /\ e <= Z.max 0 (a - 23) /\ Z.pos (digits2_pos m) + e <= a + 1
  | S754_infinity _ | S754_nan => False
  end.
Proof.
  intros Hn Ha. unfold f32_of_size_t, f32_of_Z, binary_normalize.
  destruct n as [|p|p]; [done| |lia]. unfold binary_round.
  pose proof (shl_align_spec p 0
                (fexp f32_prec f32_emax (Z.pos (digits2_pos p) + 0)))
    as (Hez & _ & Hdigits).
  destruct (shl_align p 0 _) as [mz ez]. simpl in Hez, Hdigits.
  pose proof (binary_round_aux_magnitude false (Z.pos mz) ez loc_Exact ltac:(lia))
    as Hround.
  assert (Z.pos (digits2_pos p) <= a) as Hp.
  { change (Zdigits2 (Z.pos p) <= a). apply Zdigits2_le; lia. }
  simpl Zdigits2 in Hround.
  destruct (binary_round_aux f32_prec f32_emax false (Z.pos mz) ez loc_Exact)
    as [s|s| |s m e]; [done|lia|done|].
  destruct Hround as (-> & He & Hm). split; [done|]. lia.
Qed.

(** The integer part of a finite [float] of magnitude at most [b]. *)
Lemma shiftl_magnitude m e b :
  Z.pos (digits2_pos m) + e <= b -> 0 <= b -> 0 <= Z.shiftl (Z.pos m) e < 2 ^ b.
Proof.
  intros Hmagnitude Hb. destruct (digits2_pos_bounds m) as [_ Hm].
  destruct (Z.le_gt_cases 0 e) as [He|He].
  - rewrite Z.shiftl_mul_pow2 by done.
    assert (0 < 2 ^ e) by (apply Z.pow_pos_nonneg; lia).
    split; [lia|].
    apply Z.lt_le_trans with (2 ^ Z.pos (digits2_pos m) * 2 ^ e); [nia|].
    rewrite <- Z.pow_add_r by lia. apply Z.pow_le_mono_r; lia.
  - rewrite Z.shiftl_div_pow2 by lia.
    assert (0 < 2 ^ (- e)) by (apply Z.pow_pos_nonneg; lia).
    split; [apply Z.div_pos; lia|].
    apply Z.div_lt_upper_bound; [done|]. rewrite <- Z.pow_add_r by lia.
    eapply Z.lt_le_trans; [exact Hm|]. apply Z.pow_le_mono_r; lia.
Qed.

(** The product of two finite [float]s that are not negative and whose
    magnitudes add up to at most 63 converts to a [size_t]. *)
Lemma size_t_of_product mx ex my ey :
  Z.pos (digits2_pos mx) + ex + (Z.pos (digits2_pos my) + ey) <= 63 ->
  ex + ey <= 63 ->
  exists t,
    size_t_of_f32 (f32_mul (S754_finite false mx ex) (S754_finite false my ey)) = Some t
    /\ 0 <= t.
Proof.
  intros Hmagnitude Hexponent. unfold f32_mul, SFmul. simpl xorb.
  pose proof (binary_round_aux_magnitude false (Z.pos (mx * my)) (ex + ey) loc_Exact
                ltac:(lia)) as Hround.
  pose proof (Zdigits2_mul mx my) as Hmul. simpl Zdigits2 in Hmul, Hround.
  destruct (binary_round_aux f32_prec f32_emax false _ _ loc_Exact) as [s|s| |s m e].
  - exists 0. done.
  - lia.
  - done.
  - destruct Hround as (-> & He & Hm).
    destruct (shiftl_magnitude m e 64 ltac:(lia) ltac:(lia)) as [Hlow Hhigh].
    exists (Z.shiftl (Z.pos m) e). unfold size_t_of_f32, size_t_bits.
    by destruct (Z.ltb_spec (Z.shiftl (Z.pos m) e) (2 ^ 64)); [|lia].
Qed.

(** A valid [float] in the interval from 0 to 2 is a zero or a finite value of
    magnitude at most 1. *)
Lemma ratio_below_two ratio :
  valid_binary f32_prec f32_emax ratio = true ->
  f32_ltb ratio f32_zero = false ->
  f32_ltb ratio (f32_of_Z 2) = true ->
  (exists s, ratio = S754_zero s)
  \/ exists m e, ratio = S754_finite false m e
                 /\ Z.pos (digits2_pos m) + e <= 1 /\ e <= - 23.
Proof.
  intros Hvalid Hsign Hbelow. destruct ratio as [s|s| |s m e].
  - left. by exists s.
  - by destruct s.
  - done.
  - right. exists m, e. destruct s; [done|]. split; [done|].
    unfold valid_binary, bounded, canonical_mantissa in Hvalid.
    apply andb_true_iff in Hvalid as [Hcanonical _].
    apply Z.eqb_eq in Hcanonical. rewrite fexp_f32 in Hcanonical.
    change (f32_of_Z 2) with (S754_finite false 8388608 (-22)) in Hbelow.
    unfold f32_ltb, SFltb, SFcompare in Hbelow.
    destruct (Z.compare_spec e (-22)) as [->|He|He]; [|lia|done].
    destruct (digits2_pos_bounds m) as [Hlow _].
    assert (Z.pos m < 8388608) as Hm.
    { by destruct (Pos.compare_cont Eq m 8388608) eqn:Hcompare. }
    assert (Z.pos (digits2_pos m) = 24) as Hd by lia.
    rewrite Hd in Hlow. simpl in Hlow. lia.
Qed.

Lemma shr_iter_xO m k :
  Pos.iter shr_1 {| shr_m := Z.pos (Pos.iter xO m k); shr_r := false; shr_s := false |} k
  = {| shr_m := Z.pos m; shr_r := false; shr_s := false |}.
Proof.
  induction k as [|k IH] using Pos.peano_ind; [done|].
  by rewrite Pos.iter_succ_r, Pos.iter_succ.
Qed.

(** A mantissa of 24 bits, shifted left or not, is shifted back as it is. *)
Lemma shr_fexp_exact m e j :
  Z.pos (digits2_pos m) = 24 -> - 149 <= e -> 0 <= j ->
  shr_fexp f32_prec f32_emax (Z.pos m * 2 ^ j) (e - j) loc_Exact
  = ({| shr_m := Z.pos m; shr_r := false; shr_s := false |}, e).
Proof.
  intros Hdigits He Hj. destruct j as [|k|k]; [| |lia].
  - rewrite Z.mul_1_r, Z.sub_0_r. unfold shr_fexp. simpl Zdigits2.
    rewrite Hdigits, fexp_f32.
    by replace (Z.max (24 + e - 24) (-149) - e) with 0 by lia.
  - rewrite <- iter_xO_value. unfold shr_fexp. simpl Zdigits2.
    rewrite digits2_pos_iter_xO, Hdigits, fexp_f32.
    replace (Z.max (24 + Z.pos k + (e - Z.pos k) - 24) (-149) - (e - Z.pos k))
      with (Z.pos k) by lia.
    cbn [shr shr_record_of_loc]. rewrite iter_pos_iter, shr_iter_xO.
    f_equal. lia.
Qed.

(** Rounding is exact on a mantissa of 24 bits followed by zeros. *)
Lemma binary_round_aux_exact s m e j :
  Z.pos (digits2_pos m) = 24 -> - 149 <= e <= 104 -> 0 <= j ->
  binary_round_aux f32_prec f32_emax s (Z.pos m * 2 ^ j) (e - j) loc_Exact
  = S754_finite s m e.
Proof.
  intros Hdigits He Hj. unfold binary_round_aux.
  rewrite shr_fexp_exact by (done || lia).
  cbn [shr_m loc_of_shr_record round_nearest_even].
  pose proof (shr_fexp_exact m e 0 Hdigits ltac:(lia) ltac:(lia)) as Hagain.
  rewrite Z.mul_1_r, Z.sub_0_r in Hagain. rewrite Hagain. cbn [shr_m].
  by destruct (Z.leb_spec e (f32_emax - f32_prec));
    [|unfold f32_emax, f32_prec in *; lia].
Qed.

(** A count of at most 24 bits converts without rounding. *)
Lemma f32_of_size_t_exact p :
  Z.pos p < 2 ^ 24 ->
  exists m e,
    f32_of_size_t (Z.pos p) = S754_finite false m e
    /\ Z.pos (digits2_pos m) = 24 /\ - 23 <= e <= 0
    /\ Z.pos m = Z.pos p * 2 ^ (- e).
Proof.
  intros Hp. unfold f32_of_size_t, f32_of_Z, binary_normalize, binary_round.
  assert (Z.pos (digits2_pos p) <= 24) as Hdigits.
  { change (Zdigits2 (Z.pos p) <= 24). apply Zdigits2_le; lia. }
  pose proof (shl_align_spec p 0
                (fexp f32_prec f32_emax (Z.pos (digits2_pos p) + 0)))
    as (Hez & Hmz & Hdz).
  destruct (shl_align p 0 _) as [mz ez]. simpl in Hez, Hmz, Hdz.
  rewrite fexp_f32 in Hez. exists mz, ez.
  pose proof (binary_round_aux_exact false mz ez 0 ltac:(lia) ltac:(lia) ltac:(lia))
    as Hround.
  rewrite Z.mul_1_r, Z.sub_0_r in Hround.
  split; [done|]. split; [lia|]. split; [lia|]. by rewrite Hmz.
Qed.

(** The steps of [binary_round_aux] on a mantissa that is not negative: a
    shift to the exponent of the format, a rounding that adds at most one, and
    a second shift. *)
Lemma binary_round_aux_steps s mx ex lx :
  0 <= mx ->
  exists m1 e' e'',
    e' = Z.max ex (fexp f32_prec f32_emax (Zdigits2 mx + ex))
    /\ mx / 2 ^ (e' - ex) <= m1 <= mx / 2 ^ (e' - ex) + 1
    /\ e'' = Z.max e' (fexp f32_prec f32_emax (Zdigits2 m1 + e'))
    /\ binary_round_aux f32_prec f32_emax s mx ex lx
       = match m1 / 2 ^ (e'' - e') with
         | Z0 => S754_zero s
         | Z.pos m => if e'' <=? 104 then S754_finite s m e'' else S754_infinity s
         | Z.neg _ => S754_nan
         end.
Proof.
  intros Hmx. unfold binary_round_aux.
  pose proof (shr_fexp_spec mx ex lx Hmx) as (Hle1 & He1 & Hm1).
  destruct (shr_fexp f32_prec f32_emax mx ex lx) as [mrs' e'].
  simpl in Hle1, He1, Hm1.
  set (m1 := round_nearest_even (shr_m mrs') (loc_of_shr_record mrs')).
  pose proof (round_nearest_even_bounds (shr_m mrs') (loc_of_shr_record mrs')) as Hround.
  fold m1 in Hround.
  assert (0 <= shr_m mrs') as Hpos1 by (rewrite Hm1; apply Z.div_pos; lia).
  pose proof (shr_fexp_spec m1 e' loc_Exact ltac:(lia)) as (Hle2 & He2 & Hm2).
  destruct (shr_fexp f32_prec f32_emax m1 e' loc_Exact) as [mrs'' e''].
  simpl in Hle2, He2, Hm2.
  exists m1, e', e''. rewrite <- Hm1, <- Hm2. done.
Qed.

(** The product of a count of at most 24 bits and a ratio below 1 converts to
    a [size_t] that is at most the count. *)
Lemma size_t_of_product_below p m e mr er :
  Z.pos (digits2_pos m) = 24 -> - 23 <= e <= 0 -> Z.pos m = Z.pos p * 2 ^ (- e) ->
  er <= - 24 -> Z.pos mr < 2 ^ (- er) ->
  exists t,
    size_t_of_f32 (f32_mul (S754_finite false m e) (S754_finite false mr er)) = Some t
    /\ 0 <= t <= Z.pos p.
Proof.
  intros Hdigits He Hm Her Hmr. unfold f32_mul, SFmul. simpl xorb.
  destruct (binary_round_aux_steps false (Z.pos (m * mr)) (e + er) loc_Exact ltac:(lia))
    as (m1 & e' & e'' & He' & Hm1 & He'' & ->).
  rewrite fexp_f32 in He', He''.
  destruct (digits2_pos_bounds m) as [_ Hmhigh]. rewrite Hdigits in Hmhigh.
  assert (0 < 2 ^ (- er)) as Hpow_er by (apply Z.pow_pos_nonneg; lia).
  assert (Zdigits2 (Z.pos (m * mr)) <= 24 - er) as Hproduct.
  { apply Zdigits2_le; [|lia].
    replace (2 ^ (24 - er)) with (2 ^ 24 * 2 ^ (- er))
      by (rewrite <- Z.pow_add_r by lia; f_equal; lia).
    rewrite Pos2Z.inj_mul. nia. }
  assert (e + er <= e' <= e) as Hrange by lia.
  assert (0 < 2 ^ (e' - (e + er))) as Hpow1 by (apply Z.pow_pos_nonneg; lia).
  assert (0 < 2 ^ (e - e')) as Hpow2 by (apply Z.pow_pos_nonneg; lia).
  assert (0 <= Z.pos (m * mr) / 2 ^ (e' - (e + er))) as Hfloor
    by (apply Z.div_pos; lia).
  assert (m1 <= Z.pos m * 2 ^ (e - e')) as Hbelow.
  { assert (Z.pos (m * mr) / 2 ^ (e' - (e + er)) < Z.pos m * 2 ^ (e - e')); [|lia].
    apply Z.div_lt_upper_bound; [done|].
    replace (2 ^ (e' - (e + er)) * (Z.pos m * 2 ^ (e - e')))
      with (Z.pos m * (2 ^ (e - e') * 2 ^ (e' - (e + er)))) by lia.
    rewrite <- Z.pow_add_r by lia.
    replace (e - e' + (e' - (e + er))) with (- er) by lia.
    rewrite Pos2Z.inj_mul. nia. }
  assert (Zdigits2 m1 <= 24 + (e - e')) as Hdigits1.
  { apply Zdigits2_le; [|lia]. rewrite Z.pow_add_r by lia. nia. }
  assert (e' <= e'' <= e) as Hrange' by lia.
  assert (0 < 2 ^ (e'' - e')) as Hpow3 by (apply Z.pow_pos_nonneg; lia).
  assert (0 < 2 ^ (- e'')) as Hpow4 by (apply Z.pow_pos_nonneg; lia).
  assert (0 < 2 ^ (- e')) as Hpow5 by (apply Z.pow_pos_nonneg; lia).
  assert (m1 / 2 ^ (e'' - e') / 2 ^ (- e'') <= Z.pos p) as Hvalue.
  { rewrite Z.div_div, <- Z.pow_add_r by lia.
    replace (e'' - e' + - e'') with (- e') by lia.
    apply Z.div_le_upper_bound; [done|].
    replace (2 ^ (- e') * Z.pos p) with (Z.pos p * 2 ^ (- e) * 2 ^ (e - e')).
    - rewrite <- Hm. done.
    - rewrite <- Z.mul_assoc, <- Z.pow_add_r by lia.
      replace (- e + (e - e')) with (- e') by lia. lia. }
  assert (0 <= m1 / 2 ^ (e'' - e')) as Hpos by (apply Z.div_pos; lia).
  destruct (m1 / 2 ^ (e'' - e')) as [|m2|m2] eqn:Hm2; [|clear Hpos|lia].
  { exists 0. split; [done|lia]. }
  destruct (Z.leb_spec e'' 104); [|lia].
  exists (Z.shiftl (Z.pos m2) e''). unfold size_t_of_f32, size_t_bits.
  rewrite Z.shiftl_div_pow2 by lia.
  assert (0 <= Z.pos m2 / 2 ^ (- e'')) by (apply Z.div_pos; lia).
  assert (Z.pos p < 2 ^ 64).
  { assert (Z.pos p * 1 <= Z.pos p * 2 ^ (- e)); [|lia].
    apply Z.mul_le_mono_nonneg_l; [lia|].
    assert (0 < 2 ^ (- e)) by (apply Z.pow_pos_nonneg; lia). lia. }
  destruct (Z.ltb_spec (Z.pos m2 / 2 ^ (- e'')) (2 ^ 64)); [|lia].
  split; [done|lia].
Qed.

(** The product of a count of at most 24 bits and 1 converts to the count. *)
Lemma size_t_of_product_one p m e :
  Z.pos (digits2_pos m) = 24 -> - 23 <= e <= 0 -> Z.pos m = Z.pos p * 2 ^ (- e) ->
  Z.pos p < 2 ^ 24 ->
  size_t_of_f32 (f32_mul (S754_finite false m e) (S754_finite false 8388608 (- 23)))
  = Some (Z.pos p).
Proof.
  intros Hdigits He Hm Hp. unfold f32_mul, SFmul. simpl xorb.
  rewrite Pos2Z.inj_mul. change (Z.pos 8388608) with (2 ^ 23).
  replace (e + - 23) with (e - 23) by lia.
  rewrite binary_round_aux_exact by (done || lia).
  unfold size_t_of_f32, size_t_bits.
  rewrite Z.shiftl_div_pow2, Hm, Z.div_mul by lia.
  by destruct (Z.ltb_spec (Z.pos p) (2 ^ 64)); [|lia].
Qed.

(** A valid [float] in the interval from 0 to 1 is a zero, the value 1 or a
    finite value below 1. *)
Lemma ratio_up_to_one ratio :
  valid_binary f32_prec f32_emax ratio = true ->
  f32_ltb ratio f32_zero = false ->
  f32_leb ratio (f32_of_Z 1) = true ->
  (exists s, ratio = S754_zero s)
  \/ ratio = S754_finite false 8388608 (- 23)
  \/ exists m e, ratio = S754_finite false m e /\ e <= - 24 /\ Z.pos m < 2 ^ (- e).
Proof.
  intros Hvalid Hsign Hbelow. destruct ratio as [s|s| |s m e].
  - left. by exists s.
  - by destruct s.
  - done.
  - right. destruct s; [done|].
    unfold valid_binary, bounded, canonical_mantissa in Hvalid.
    apply andb_true_iff in Hvalid as [Hcanonical _].
    apply Z.eqb_eq in Hcanonical. rewrite fexp_f32 in Hcanonical.
    change (f32_of_Z 1) with (S754_finite false 8388608 (-23)) in Hbelow.
    unfold f32_leb, SFleb, SFcompare in Hbelow.
    destruct (digits2_pos_bounds m) as [Hlow Hhigh].
    destruct (Z.compare_spec e (-23)) as [->|He|He]; [| |done].
    + assert (Z.pos (digits2_pos m) = 24) as Hd by lia.
      rewrite Hd in Hlow. simpl in Hlow.
      destruct (Pos.compare_cont Eq m 8388608) eqn:Hcompare; [| |done].
      * left. f_equal. by apply Pos.compare_eq.
      * assert (Z.pos m < 8388608) as Hm by exact Hcompare.
        clear Hcompare. lia.
    + right. exists m, e. split; [done|]. split; [lia|].
      eapply Z.lt_le_trans; [exact Hhigh|]. apply Z.pow_le_mono_r; lia.
Qed.

End FloatFacts.

(** ** The target index count on the ordinary range *)

(** X12: a target ratio of zero, of either sign, selects the minimum: for
    every index count that fits a [size_t] the product is a zero and the
    target index count is 3; on non-empty input [simplify] and
    [simplify_sloppy] then run at the target 3. *)
Theorem zero_ratio_targets_minimum `{lib : Meshopt} (vertices : list Vector3)
    (indices : list Z) (target_error : float) (sign : bool) :
  vertices <> [] -> indices <> [] ->
  Z.of_nat (length indices) < 2 ^ size_t_bits ->
  target_index_count (Z.of_nat (length indices)) (S754_zero sign) = Some 3
  /\ simplify vertices indices (S754_zero sign) target_error
     = simplify_at vertices indices 3 target_error
  /\ simplify_sloppy vertices indices (S754_zero sign) target_error
     = simplify_sloppy_at vertices indices 3 target_error.
Proof.
  intros Hv Hi Hsize.
  assert (target_index_count (Z.of_nat (length indices)) (S754_zero sign) = Some 3)
    as Htarget.
  { unfold target_index_count, f32_mul.
    pose proof (f32_of_size_t_magnitude (Z.of_nat (length indices)) 64
                  ltac:(unfold size_t_bits in Hsize; lia) ltac:(lia)) as Hcount.
    by destruct (f32_of_size_t (Z.of_nat (length indices))) as [s|s| |s m e]. }
  split; [done|]. unfold simplify, simplify_sloppy.
  by rewrite (size_not_zero _ Hv), (size_not_zero _ Hi), Htarget.
Qed.

Lemma zero_ratio_targets_minimum_witness :
  target_index_count (Z.of_nat (length Sample.square_indices)) (S754_zero true) = Some 3
  /\ @simplify Sample.library Sample.square Sample.square_indices (S754_zero true)
       Sample.one
     = @simplify_at Sample.library Sample.square Sample.square_indices 3 Sample.one
  /\ @simplify_sloppy Sample.library Sample.square Sample.square_indices
       (S754_zero true) Sample.one
     = @simplify_sloppy_at Sample.library Sample.square Sample.square_indices 3
         Sample.one.
Proof.
  apply (@zero_ratio_targets_minimum Sample.library Sample.square Sample.square_indices
           Sample.one true).
  - discriminate.
  - discriminate.
  - reflexivity.
Defined.

(** X13: on the ordinary range the conversion is defined.  For an index count
    below [2 ^ 61] and a target ratio that is a valid [float], not negative
    and below 2, the product [index_count * target_ratio] converts to a
    [size_t] and the target index count is that value, raised to 3. *)
Theorem target_defined_for_ordinary_ratio (index_count : Z) (target_ratio : float) :
  0 <= index_count < 2 ^ 61 ->
  valid_binary f32_prec f32_emax target_ratio = true ->
  f32_ltb target_ratio f32_zero = false ->
  f32_ltb target_ratio (f32_of_Z 2) = true ->
  exists computed,
    size_t_of_f32 (f32_mul (f32_of_size_t index_count) target_ratio) = Some computed
    /\ 0 <= computed
    /\ target_index_count index_count target_ratio = Some (Z.max 3 computed).
Proof.
  intros Hcount Hvalid Hsign Hbelow.
  assert (exists computed,
            size_t_of_f32 (f32_mul (f32_of_size_t index_count) target_ratio)
            = Some computed /\ 0 <= computed) as (computed & Hcomputed & Hpos).
  { pose proof (f32_of_size_t_magnitude index_count 61 Hcount ltac:(lia)) as Hmagnitude.
    destruct (ratio_below_two _ Hvalid Hsign Hbelow)
      as [[s ->]|(m & e & -> & Hm & He)];
      destruct (f32_of_size_t index_count) as [s'|s'| |s' m' e'];
      try done; try (by exists 0).
    destruct Hmagnitude as (-> & He' & Hm'). apply size_t_of_product; lia. }
  exists computed. split; [done|]. split; [done|].
  unfold target_index_count. rewrite Hcomputed. simpl. f_equal.
  destruct (Z.ltb_spec computed 3); lia.
Qed.

Lemma target_defined_for_ordinary_ratio_witness :
  exists computed,
    size_t_of_f32 (f32_mul (f32_of_size_t 12) Sample.three_quarters) = Some computed
    /\ 0 <= computed
    /\ target_index_count 12 Sample.three_quarters = Some (Z.max 3 computed).
Proof.
  apply (target_defined_for_ordinary_ratio 12 Sample.three_quarters).
  - lia.
  - reflexivity.
  - reflexivity.
  - reflexivity.
Defined.

(** X14: a target ratio that is a power of two is applied exactly.  For an
    index count below [2 ^ 24] and the ratio [2 ^ (- j)], from 1 down to
    [2 ^ (- 126)], the target index count is the index count divided by
    [2 ^ j], rounded down and raised to 3: at the ratio 1 it is the index
    count itself, and it never exceeds an index count of 3 or more. *)
Theorem power_of_two_ratio_is_exact (index_count j : Z) :
  0 <= index_count < 2 ^ 24 -> 0 <= j <= 126 ->
  target_index_count index_count (f32_exp2 (- j))
  = Some (Z.max 3 (index_count / 2 ^ j))
  /\ (3 <= index_count -> Z.max 3 (index_count / 2 ^ j) <= index_count).
Proof.
  intros Hcount Hj.
  assert (0 < 2 ^ j) as Hpow by (apply Z.pow_pos_nonneg; lia).
  split.
  - unfold target_index_count, f32_exp2, f32_mul.
    destruct index_count as [|p|p]; [by rewrite Z.div_0_l by lia| |lia].
    destruct (f32_of_size_t_exact p ltac:(lia)) as (m & e & -> & Hdigits & He & Hm).
    unfold SFmul. simpl xorb.
    rewrite Pos2Z.inj_mul. change (Z.pos 8388608) with (2 ^ 23).
    replace (e + (- j - 23)) with (e - j - 23) by lia.
    rewrite binary_round_aux_exact by (done || lia).
    unfold size_t_of_f32, size_t_bits.
    assert (Z.shiftl (Z.pos m) (e - j) = Z.pos p / 2 ^ j) as ->.
    { rewrite Z.shiftl_div_pow2 by lia. rewrite Hm.
      replace (- (e - j)) with (- e + j) by lia.
      rewrite Z.pow_add_r, <- Z.div_div, Z.div_mul by lia. done. }
    assert (Z.pos p / 2 ^ j <= Z.pos p) as Hle.
    { apply Z.div_le_upper_bound; nia. }
    destruct (Z.ltb_spec (Z.pos p / 2 ^ j) (2 ^ 64)); [|lia].
    simpl. f_equal. destruct (Z.ltb_spec (Z.pos p / 2 ^ j) 3); lia.
  - intros Hthree.
    assert (index_count / 2 ^ j <= index_count) by (apply Z.div_le_upper_bound; nia).
    lia.
Qed.

Lemma power_of_two_ratio_is_exact_witness :
  target_index_count 12 (f32_exp2 (- 1)) = Some (Z.max 3 (12 / 2 ^ 1))
  /\ (3 <= 12 -> Z.max 3 (12 / 2 ^ 1) <= 12).
Proof.
  apply (power_of_two_ratio_is_exact 12 1); lia.
Defined.

(** Past [2 ^ 24] the index count itself is rounded: 16777227 indices at the
    ratio 1 give a target of 16777228, one more than there are. *)
Example target_above_a_rounded_count :
  target_index_count 16777227 (f32_exp2 0) = Some 16777228.
Proof. vm_compute. reflexivity. Qed.

(** [f32_exp2] at 0, 1 and -1 is the [float] 1, 2 and one half. *)
Example f32_exp2_values :
  f32_exp2 0 = f32_of_Z 1 /\ f32_exp2 1 = f32_of_Z 2 /\ f32_exp2 (- 1) = Sample.half.
Proof. repeat split. Qed.

(** X15: up to [2 ^ 24] indices a ratio between 0 and 1 never asks for more
    than there is.  For an index count below [2 ^ 24] and a target ratio that
    is a valid [float], not negative and at most 1, the conversion is defined
    and the target index count lies between 3 and the larger of 3 and the
    index count. *)
Theorem target_within_index_count (index_count : Z) (target_ratio : float) :
  0 <= index_count < 2 ^ 24 ->
  valid_binary f32_prec f32_emax target_ratio = true ->
  f32_ltb target_ratio f32_zero = false ->
  f32_leb target_ratio (f32_of_Z 1) = true ->
  exists target,
    target_index_count index_count target_ratio = Some target
    /\ 3 <= target <= Z.max 3 index_count.
Proof.
  intros Hcount Hvalid Hsign Hbelow. unfold target_index_count.
  assert (exists computed,
            size_t_of_f32 (f32_mul (f32_of_size_t index_count) target_ratio)
            = Some computed /\ 0 <= computed <= index_count)
    as (computed & -> & Hcomputed).
  { destruct index_count as [|p|p]; [| |lia].
    - exists 0.
      by destruct (ratio_up_to_one _ Hvalid Hsign Hbelow)
        as [[s ->]|[->|(m & e & -> & _)]].
    - destruct (f32_of_size_t_exact p ltac:(lia)) as (m & e & -> & Hdigits & He & Hm).
      destruct (ratio_up_to_one _ Hvalid Hsign Hbelow)
        as [[s ->]|[->|(mr & er & -> & Her & Hmr)]].
      + exists 0. split; [done|lia].
      + exists (Z.pos p). split; [|lia]. apply size_t_of_product_one; (done || lia).
      + by apply size_t_of_product_below. }
  simpl. eexists. split; [reflexivity|].
  destruct (Z.ltb_spec computed 3); lia.
Qed.

Lemma target_within_index_count_witness :
  exists target,
    target_index_count 12 Sample.three_quarters = Some target
    /\ 3 <= target <= Z.max 3 12.
Proof.
  apply (target_within_index_count 12 Sample.three_quarters).
  - lia.
  - reflexivity.
  - reflexivity.
  - reflexivity.
Defined.

(** ** Negative ratios *)

Section FloatLowerFacts.

Lemma Zdigits2_mono a b : 0 <= a <= b -> Zdigits2 a <= Zdigits2 b.
Proof.
  intros Hab. pose proof (Zdigits2_lt b ltac:(lia)). pose proof (Zdigits2_nonneg b).
  apply Zdigits2_le; lia.
Qed.

Lemma Zdigits2_lower z : 0 < z -> 2 ^ (Zdigits2 z - 1) <= z.
Proof.
  destruct z as [|p|p]; [lia| |lia]. intros _. apply digits2_pos_bounds.
Qed.

Lemma Zdigits2_ge z k : 0 <= k -> 2 ^ k <= z -> k + 1 <= Zdigits2 z.
Proof.
  intros Hk Hz. assert (0 < 2 ^ k) by (apply Z.pow_pos_nonneg; lia).
  pose proof (Zdigits2_lt z ltac:(lia)) as Hlt. pose proof (Zdigits2_nonneg z).
  assert (2 ^ k < 2 ^ Zdigits2 z) as Hpow by lia.
  apply Z.pow_lt_mono_r_iff in Hpow; lia.
Qed.

Lemma Zdigits2_div_ge z k :
  0 < z -> 0 <= k < Zdigits2 z -> Zdigits2 z - k <= Zdigits2 (z / 2 ^ k).
Proof.
  intros Hz Hk. pose proof (Zdigits2_lower z Hz) as Hlow.
  assert (0 < 2 ^ k) by (apply Z.pow_pos_nonneg; lia).
  replace (Zdigits2 z - k) with (Zdigits2 z - 1 - k + 1) by lia.
  apply Zdigits2_ge; [lia|]. apply Z.div_le_lower_bound; [done|].
  rewrite <- Z.pow_add_r by lia. by replace (k + (Zdigits2 z - 1 - k)) with (Zdigits2 z - 1) by lia.
Qed.

Lemma Zdigits2_mul_ge a b :
  Zdigits2 (Z.pos a) + Zdigits2 (Z.pos b) - 1 <= Zdigits2 (Z.pos (a * b)).
Proof.
  pose proof (Zdigits2_lower (Z.pos a) ltac:(lia)) as Ha.
  pose proof (Zdigits2_lower (Z.pos b) ltac:(lia)) as Hb.
  assert (1 <= Zdigits2 (Z.pos a)) by (simpl; lia).
  assert (1 <= Zdigits2 (Z.pos b)) by (simpl; lia).
  replace (Zdigits2 (Z.pos a) + Zdigits2 (Z.pos b) - 1)
    with (Zdigits2 (Z.pos a) - 1 + (Zdigits2 (Z.pos b) - 1) + 1) by lia.
  apply Zdigits2_ge; [lia|]. rewrite Z.pow_add_r, Pos2Z.inj_mul by lia.
  assert (0 < 2 ^ (Zdigits2 (Z.pos a) - 1)) by (apply Z.pow_pos_nonneg; lia).
  assert (0 < 2 ^ (Zdigits2 (Z.pos b) - 1)) by (apply Z.pow_pos_nonneg; lia).
  nia.
Qed.

(** A shift of [binary_round_aux] keeps the magnitude of a mantissa that is
    positive, above the subnormal range. *)
Lemma shift_keeps_magnitude m e e' :
  0 < m -> - 125 <= Zdigits2 m + e ->
  e' = Z.max e (fexp f32_prec f32_emax (Zdigits2 m + e)) ->
  0 < m / 2 ^ (e' - e) /\ Zdigits2 m + e <= Zdigits2 (m / 2 ^ (e' - e)) + e'.
Proof.
  intros Hm Hmagnitude ->. rewrite fexp_f32.
  assert (1 <= Zdigits2 m) as Hd by (destruct m; simpl; lia).
  destruct (Z.max_spec e (Z.max (Zdigits2 m + e - 24) (-149))) as [[Hlt ->]|[Hle ->]].
  - pose proof (Zdigits2_div_ge m (Z.max (Zdigits2 m + e - 24) (-149) - e) Hm
                  ltac:(lia)) as Hdiv.
    split; [|lia].
    destruct (m / 2 ^ (Z.max (Zdigits2 m + e - 24) (-149) - e)) as [|q|q] eqn:Hq;
      [simpl in Hdiv; lia|lia|].
    pose proof (Z.div_pos m (2 ^ (Z.max (Zdigits2 m + e - 24) (-149) - e))
                  ltac:(lia) ltac:(apply Z.pow_pos_nonneg; lia)). lia.
  - rewrite Z.sub_diag, Z.div_1_r. lia.
Qed.

(** Rounding a positive mantissa above the subnormal range: an infinity or a
    finite value of at least the magnitude it was given. *)
Lemma binary_round_aux_lower s mx ex lx :
  0 < mx -> - 125 <= Zdigits2 mx + ex ->
  match binary_round_aux f32_prec f32_emax s mx ex lx with
  | S754_finite s' m e => s' = s /\ Zdigits2 mx + ex <= Z.pos (digits2_pos m) + e
  | S754_infinity s' => s' = s
  | S754_zero _ | S754_nan => False
  end.
Proof.
  intros Hmx Hmagnitude.
  destruct (binary_round_aux_steps s mx ex lx ltac:(lia))
    as (m1 & e' & e'' & He' & Hm1 & He'' & ->).
  destruct (shift_keeps_magnitude mx ex e' Hmx Hmagnitude He') as [Hpos1 Hkeep1].
  assert (Zdigits2 (mx / 2 ^ (e' - ex)) <= Zdigits2 m1) as Hmono
    by (apply Zdigits2_mono; lia).
  destruct (shift_keeps_magnitude m1 e' e'' ltac:(lia) ltac:(lia) He'')
    as [Hpos2 Hkeep2].
  destruct (m1 / 2 ^ (e'' - e')) as [|m|m]; [lia| |lia].
  simpl Zdigits2 in Hkeep2. destruct (e'' <=? 104); [|done]. split; [done|lia].
Qed.

(** The integer part of a finite [float] of magnitude at least 1. *)
Lemma shiftl_lower m e : 1 <= Z.pos (digits2_pos m) + e -> 1 <= Z.shiftl (Z.pos m) e.
Proof.
  intros Hmagnitude. destruct (digits2_pos_bounds m) as [Hlow _].
  destruct (Z.le_gt_cases 0 e) as [He|He].
  - rewrite Z.shiftl_mul_pow2 by done.
    assert (0 < 2 ^ e) by (apply Z.pow_pos_nonneg; lia). nia.
  - rewrite Z.shiftl_div_pow2 by lia.
    assert (0 < 2 ^ (- e)) by (apply Z.pow_pos_nonneg; lia).
    apply Z.div_le_lower_bound; [done|]. rewrite Z.mul_1_r.
    eapply Z.le_trans; [|exact Hlow]. apply Z.pow_le_mono_r; lia.
Qed.

(** A count of at least 1 converts to a finite [float] of magnitude at least
    1. *)
Lemma f32_of_size_t_lower n :
  1 <= n < 2 ^ 64 ->
  exists m e, f32_of_size_t n = S754_finite false m e
              /\ 1 <= Z.pos (digits2_pos m) + e.
Proof.
  intros Hn. pose proof (f32_of_size_t_magnitude n 64 ltac:(lia) ltac:(lia)) as Hupper.
  unfold f32_of_size_t, f32_of_Z, binary_normalize in *.
  destruct n as [|p|p]; [lia| |lia]. unfold binary_round in *.
  pose proof (shl_align_spec p 0
                (fexp f32_prec f32_emax (Z.pos (digits2_pos p) + 0)))
    as (_ & _ & Hdigits).
  destruct (shl_align p 0 _) as [mz ez]. simpl in Hdigits.
  pose proof (binary_round_aux_lower false (Z.pos mz) ez loc_Exact ltac:(lia)
                ltac:(simpl; lia)) as Hlower.
  simpl Zdigits2 in Hlower.
  destruct (binary_round_aux f32_prec f32_emax false (Z.pos mz) ez loc_Exact)
    as [s|s| |s m e]; try done.
  destruct Hlower as [-> Hm]. exists m, e. split; [done|lia].
Qed.

(** A valid [float] that is at most -1 is the negative infinity or a finite
    negative value of magnitude at least 1. *)
Lemma ratio_at_most_minus_one ratio :
  valid_binary f32_prec f32_emax ratio = true ->
  f32_leb ratio (SFopp (f32_of_Z 1)) = true ->
  ratio = S754_infinity true
  \/ exists m e, ratio = S754_finite true m e /\ 1 <= Z.pos (digits2_pos m) + e.
Proof.
  intros Hvalid Hbelow.
  change (SFopp (f32_of_Z 1)) with (S754_finite true 8388608 (-23)) in Hbelow.
  destruct ratio as [s|s| |s m e].
  - by destruct s.
  - left. by destruct s.
  - done.
  - right. exists m, e. destruct s; [|done]. split; [done|].
    unfold valid_binary, bounded, canonical_mantissa in Hvalid.
    apply andb_true_iff in Hvalid as [Hcanonical _].
    apply Z.eqb_eq in Hcanonical. rewrite fexp_f32 in Hcanonical.
    unfold f32_leb, SFleb, SFcompare in Hbelow.
    destruct (digits2_pos_bounds m) as [Hlow Hhigh].
    destruct (Z.compare_spec e (-23)) as [->|He|He]; [|done|lia].
    destruct (Pos.compare_cont Eq m 8388608) eqn:Hcompare; simpl in Hbelow;
      [| done |].
    + apply Pos.compare_eq in Hcompare as ->. simpl. lia.
    + assert (8388608 < Z.pos m) as Hm by (apply Z.gt_lt; exact Hcompare).
      clear Hcompare.
      assert (24 <= Z.pos (digits2_pos m)); [|lia].
      change (23 + 1 <= Zdigits2 (Z.pos m)). apply Zdigits2_ge; lia.
Qed.

End FloatLowerFacts.

(** X8: with a negative target ratio the conversion of
    [index_count * target_ratio] to [size_t] is defined only when the product
    truncates to zero, and the target index count is then 3; for at least one
    index and a valid ratio of -1 or below the product is -1 or below and the
    conversion is undefined, so that nothing is known of the target a build
    hands to the library. *)
Theorem negative_ratio_is_minimum_or_undefined (index_count : Z)
    (target_ratio : float) :
  0 <= index_count < 2 ^ size_t_bits ->
  f32_ltb target_ratio f32_zero = true \/ target_ratio = S754_zero true ->
  (forall target,
     target_index_count index_count target_ratio = Some target -> target = 3)
  /\ (1 <= index_count ->
      valid_binary f32_prec f32_emax target_ratio = true ->
      f32_leb target_ratio (SFopp (f32_of_Z 1)) = true ->
      target_index_count index_count target_ratio = None).
Proof.
  intros Hcount Hnegative. unfold size_t_bits in Hcount. split.
  - intros target. unfold target_index_count, f32_mul.
    pose proof (f32_of_size_t_sign index_count ltac:(lia)) as Hsign.
    destruct Hnegative as [Hnegative| ->].
    + destruct target_ratio as [s'|s'| |s' m' e']; try done;
        (destruct s'; [|done]);
        destruct (f32_of_size_t index_count) as [s|s| |s m e]; simpl; try done.
      * intros [= <-]. done.
      * subst s. simpl xorb.
        pose proof (binary_round_aux_sign true (Z.pos (m * m')) (e + e') loc_Exact)
          as Hproduct.
        destruct (binary_round_aux f32_prec f32_emax true _ _ loc_Exact)
          as [s|s| |s m'' e'']; simpl; try done.
        -- intros [= <-]. done.
        -- subst s. destruct (Z.shiftl (Z.pos m'') e'' =? 0); simpl; [|done].
           intros [= <-]. done.
    + destruct (f32_of_size_t index_count) as [s|s| |s m e]; simpl; try done;
        intros [= <-]; done.
  - intros Hone Hvalid Hbelow. unfold target_index_count, f32_mul.
    destruct (f32_of_size_t_lower index_count ltac:(lia)) as (m & e & -> & Hm).
    destruct (ratio_at_most_minus_one _ Hvalid Hbelow)
      as [->|(mr & er & -> & Hmr)]; [done|].
    unfold SFmul. simpl xorb.
    pose proof (Zdigits2_mul_ge m mr) as Hmul. simpl Zdigits2 in Hmul.
    pose proof (binary_round_aux_lower true (Z.pos (m * mr)) (e + er) loc_Exact
                  ltac:(lia) ltac:(simpl Zdigits2; lia)) as Hlower.
    simpl Zdigits2 in Hlower.
    destruct (binary_round_aux f32_prec f32_emax true _ _ loc_Exact)
      as [s|s| |s m'' e'']; try done.
    destruct Hlower as [-> Hm'']. simpl.
    pose proof (shiftl_lower m'' e'' ltac:(lia)) as Hshift.
    by destruct (Z.eqb_spec (Z.shiftl (Z.pos m'') e'') 0); [lia|].
Qed.

Lemma negative_ratio_is_minimum_or_undefined_witness :
  target_index_count 6 (S754_finite true 8388608 (-23)) = None.
Proof.
  refine (proj2 (negative_ratio_is_minimum_or_undefined 6
                   (S754_finite true 8388608 (-23)) _ _) _ _ _).
  - unfold size_t_bits. lia.
  - left. reflexivity.
  - lia.
  - reflexivity.
  - reflexivity.
Defined.
